(** * OfSM backend: sanitizer, generation policy, dispatcher, storage,
    personas and routes

    A shallow embedding of [backend.py].  Python [str] values are modelled
    as [string]; a character is a code point below 256 (Latin-1), so
    [String.length] is Python's [len].  The language model behind
    [DualModelManager.generate] is an oracle over an abstract world. *)

From Stdlib Require Import String Ascii List Arith Bool Lia QArith.
From Stdlib Require Import DecimalString ZArith Permutation.
Import ListNotations.

Local Open Scope string_scope.
Local Open Scope nat_scope.

(** ** Python string primitives *)

Module Py.

Definition code (c : ascii) : nat := nat_of_ascii c.

(** [str.isspace] on one character, also the class [\s] of [re] on [str]
    patterns: TAB..CR, FS..US, SPACE, NEL and NBSP below code point 256. *)
Definition isspace (c : ascii) : bool :=
  let n := code c in
  ((9 <=? n) && (n <=? 13)) || ((28 <=? n) && (n <=? 32))
  || (n =? 133) || (n =? 160).

(** [str.lower] on one character: A-Z, and the Latin-1 capitals
    U+00C0..U+00DE without the multiplication sign U+00D7. *)
Definition lower_char (c : ascii) : ascii :=
  let n := code c in
  if ((65 <=? n) && (n <=? 90))
     || ((192 <=? n) && (n <=? 222) && negb (n =? 215))
  then ascii_of_nat (n + 32) else c.

Fixpoint lower (s : string) : string :=
  match s with
  | EmptyString => EmptyString
  | String c s' => String (lower_char c) (lower s')
  end.

(** [needle in hay] *)
Fixpoint contains (needle hay : string) : bool :=
  if prefix needle hay then true
  else match hay with
       | EmptyString => false
       | String _ hay' => contains needle hay'
       end.

(** [s[:n]] *)
Fixpoint slice_to (n : nat) (s : string) : string :=
  match n, s with
  | S n', String c s' => String c (slice_to n' s')
  | _, _ => EmptyString
  end.

Fixpoint lstrip (s : string) : string :=
  match s with
  | String c s' => if isspace c then lstrip s' else s
  | EmptyString => EmptyString
  end.

Fixpoint rstrip (s : string) : string :=
  match s with
  | EmptyString => EmptyString
  | String c s' =>
      match rstrip s' with
      | EmptyString => if isspace c then EmptyString else String c EmptyString
      | r => String c r
      end
  end.

(** [s.strip()] *)
Definition strip (s : string) : string := rstrip (lstrip s).

(** Put one more character in front of the piece being read. *)
Definition push (c : ascii) (pieces : list string) : list string :=
  match pieces with
  | [] => [String c EmptyString]
  | p :: ps => String c p :: ps
  end.

(** [s.split(sep)] for a one-character separator. *)
Fixpoint split_char (sep : ascii) (s : string) : list string :=
  match s with
  | EmptyString => [EmptyString]
  | String c s' =>
      if Ascii.eqb c sep then EmptyString :: split_char sep s'
      else push c (split_char sep s')
  end.

(** [s] without its leading characters of class [p]. *)
Fixpoint drop_while (p : ascii -> bool) (s : string) : string :=
  match s with
  | String c s' => if p c then drop_while p s' else s
  | EmptyString => EmptyString
  end.

(** [c * n] for a one-character string [c]. *)
Fixpoint times (c : ascii) (n : nat) : string :=
  match n with
  | 0 => EmptyString
  | S n' => String c (times c n')
  end.

(** Truth value of a [str]. *)
Definition truthy (s : string) : bool :=
  match s with EmptyString => false | _ => true end.

(** [any(w in text for w in words)] *)
Definition any_in (words : list string) (text : string) : bool :=
  existsb (fun w => contains w text) words.

End Py.

(** ** The fragment of [re] the sanitizer uses

    A backtracking matcher with Python's priorities: alternatives are tried
    in order and the first complete match wins.  Every repetition in the
    patterns of [backend.py] ranges over a single-character class, so
    repetition is over atoms. *)

Module Re.

Inductive atom : Type :=
| Chr (c : ascii)              (* a literal character *)
| Dot                          (* [.], anything but a newline *)
| Digit                        (* [\d] *)
| Space                        (* [\s] *)
| OneOf (cs : list ascii)      (* [[...]] *)
| NotIn (cs : list ascii).     (* [[^...]] *)

Inductive regex : Type :=
| Eps
| Atom (a : atom)
| Cat (r1 r2 : regex)
| Maybe (r : regex)                                   (* [(r)?] *)
| Rep (a : atom) (lo : nat) (hi : option nat) (greedy : bool).

(** A literal string. *)
Fixpoint lit (s : string) : regex :=
  match s with
  | EmptyString => Eps
  | String c EmptyString => Atom (Chr c)
  | String c s' => Cat (Atom (Chr c)) (lit s')
  end.

Definition newline : ascii := ascii_of_nat 10.

Definition mem (ic : bool) (c : ascii) (cs : list ascii) : bool :=
  existsb (fun x => if ic then Ascii.eqb (Py.lower_char c) (Py.lower_char x)
                    else Ascii.eqb c x) cs.

(** One character against an atom; [ic] is [re.IGNORECASE]. *)
Definition atom_matches (ic : bool) (a : atom) (c : ascii) : bool :=
  match a with
  | Chr x => mem ic c [x]
  | Dot => negb (Ascii.eqb c newline)
  | Digit => (48 <=? Py.code c) && (Py.code c <=? 57)
  | Space => Py.isspace c
  | OneOf cs => mem ic c cs
  | NotIn cs => negb (mem ic c cs)
  end.

Definition orelse {A} (x y : option A) : option A :=
  match x with Some _ => x | None => y end.

Definition dec_hi (hi : option nat) : option nat := option_map pred hi.

Definition exhausted (hi : option nat) : bool :=
  match hi with Some 0 => true | _ => false end.

(** Greedy repetition: one more character first, then the continuation. *)
Fixpoint rep_greedy (p : ascii -> bool) (lo : nat) (hi : option nat)
         (s : string) (k : string -> option string) : option string :=
  let stop := if lo =? 0 then k s else None in
  if exhausted hi then stop
  else match s with
       | String c s' =>
           if p c then orelse (rep_greedy p (pred lo) (dec_hi hi) s' k) stop
           else stop
       | EmptyString => stop
       end.

(** Lazy repetition: the continuation first, then one more character. *)
Fixpoint rep_lazy (p : ascii -> bool) (lo : nat) (hi : option nat)
         (s : string) (k : string -> option string) : option string :=
  let more :=
    if exhausted hi then None
    else match s with
         | String c s' =>
             if p c then rep_lazy p (pred lo) (dec_hi hi) s' k else None
         | EmptyString => None
         end in
  if lo =? 0 then orelse (k s) more else more.

(** [run ic r s k]: match [r] at the start of [s], hand the rest to [k]. *)
Fixpoint run (ic : bool) (r : regex) (s : string)
         (k : string -> option string) : option string :=
  match r with
  | Eps => k s
  | Atom a =>
      match s with
      | String c s' => if atom_matches ic a c then k s' else None
      | EmptyString => None
      end
  | Cat r1 r2 => run ic r1 s (fun s' => run ic r2 s' k)
  | Maybe r1 => orelse (run ic r1 s k) (k s)
  | Rep a lo hi true => rep_greedy (atom_matches ic a) lo hi s k
  | Rep a lo hi false => rep_lazy (atom_matches ic a) lo hi s k
  end.

(** Length of the match of [r] that starts at the head of [s]. *)
Definition match_len (ic : bool) (r : regex) (s : string) : option nat :=
  option_map (fun rest => String.length s - String.length rest)
             (run ic r s Some).

(** [re.search(r, s) is not None] *)
Fixpoint search (ic : bool) (r : regex) (s : string) : bool :=
  match match_len ic r s with
  | Some _ => true
  | None => match s with
            | EmptyString => false
            | String _ s' => search ic r s'
            end
  end.

(** [re.sub(r, repl, s)] for a literal [repl]: leftmost matches, not
    overlapping; [skip] counts the characters of the current match still
    to be dropped.  An empty match puts [repl] and moves on by one. *)
Fixpoint sub_from (ic : bool) (r : regex) (repl : string) (s : string)
         (skip : nat) : string :=
  match skip with
  | S n =>
      match s with
      | String _ s' => sub_from ic r repl s' n
      | EmptyString => EmptyString
      end
  | 0 =>
      match match_len ic r s with
      | Some (S n) =>
          repl ++ match s with
                  | String _ s' => sub_from ic r repl s' n
                  | EmptyString => EmptyString
                  end
      | Some 0 =>
          repl ++ match s with
                  | String c s' => String c (sub_from ic r repl s' 0)
                  | EmptyString => EmptyString
                  end
      | None =>
          match s with
          | String c s' => String c (sub_from ic r repl s' 0)
          | EmptyString => EmptyString
          end
      end
  end.

Definition sub (ic : bool) (r : regex) (repl s : string) : string :=
  sub_from ic r repl s 0.

(** [re.split(r, s)] *)
Fixpoint split_from (ic : bool) (r : regex) (s : string) (skip : nat)
  : list string :=
  match skip with
  | S n =>
      match s with
      | String _ s' => split_from ic r s' n
      | EmptyString => [EmptyString]
      end
  | 0 =>
      match match_len ic r s with
      | Some (S n) =>
          EmptyString :: match s with
                         | String _ s' => split_from ic r s' n
                         | EmptyString => [EmptyString]
                         end
      | Some 0 =>
          EmptyString :: match s with
                         | String c s' => Py.push c (split_from ic r s' 0)
                         | EmptyString => [EmptyString]
                         end
      | None =>
          match s with
          | String c s' => Py.push c (split_from ic r s' 0)
          | EmptyString => [EmptyString]
          end
      end
  end.

Definition split (ic : bool) (r : regex) (s : string) : list string :=
  split_from ic r s 0.

End Re.

(** ** Content cleaning *)

Import Re.

Definition MAX_POST_LEN : nat := 750.
Definition MAX_COMMENT_LEN : nat := 750.

Definition star (a : atom) : regex := Rep a 0 None true.
Definition plus (a : atom) : regex := Rep a 1 None true.

(** The patterns of [ARTIFACT_PATTERNS], in the order of the source. *)
Definition ARTIFACT_PATTERNS : list regex :=
  [ (* No hashtags\.* *)
    Cat (lit "No hashtags") (star (Chr "."));
    (* Include.*?: *)
    Cat (lit "Include") (Cat (Rep Dot 0 None false) (Atom (Chr ":")));
    (* Use (at least \d+ )?emojis? *)
    Cat (lit "Use ")
        (Cat (Maybe (Cat (lit "at least ") (Cat (plus Digit) (Atom (Chr " ")))))
             (Cat (lit "emoji") (Rep (Chr "s") 0 (Some 1) true)));
    lit "Use internet slang";
    lit "Use sarcasm";
    lit "Story:";
    lit "The story must be";
    lit "No passive voice";
    lit "Keep it under";
    lit "Write a short comment";
    (* as .{0,30}\. *)
    Cat (lit "as ") (Cat (Rep Dot 0 (Some 30) true) (Atom (Chr ".")));
    (* Be .{0,30}\. *)
    Cat (lit "Be ") (Cat (Rep Dot 0 (Some 30) true) (Atom (Chr "."))) ].

(** \[[^\]]+\] *)
Definition BRACKETED : regex :=
  Cat (Atom (Chr "[")) (Cat (plus (NotIn ["]"%char])) (Atom (Chr "]"))).

(** \([^\)]*instructions[^\)]*\) *)
Definition PAREN_INSTRUCTIONS : regex :=
  Cat (Atom (Chr "("))
      (Cat (star (NotIn [")"%char]))
           (Cat (lit "instructions")
                (Cat (star (NotIn [")"%char])) (Atom (Chr ")"))))).

(** \s+ *)
Definition WHITESPACE : regex := plus Space.

(** [.!?]+ *)
Definition SENTENCE_END : regex := plus (OneOf ["."; "!"; "?"]%char).

Definition INSTRUCTION_WORDS : list string :=
  ["include"; "use at least"; "write a"; "post:"].

(** The loop over [ARTIFACT_PATTERNS]. *)
Definition remove_patterns (text : string) : string :=
  fold_left (fun t p => sub true p "" t) ARTIFACT_PATTERNS text.

Definition remove_bracketed (text : string) : string :=
  sub true PAREN_INSTRUCTIONS "" (sub false BRACKETED "" text).

Definition collapse (text : string) : string :=
  Py.strip (sub false WHITESPACE " " text).

(** [sentences = re.split(...); if sentences and len(sentences[0]) > 20] *)
Definition first_sentence (text : string) : string :=
  match split false SENTENCE_END text with
  | s0 :: _ => if 20 <? String.length s0 then s0 ++ "." else text
  | [] => text
  end.

(** The lines of [original] the last step may fall back to. *)
Definition long_lines (original : string) : list string :=
  map Py.strip
      (filter (fun l => Py.truthy (Py.strip l) && (20 <? String.length l))
              (Py.split_char newline original)).

Definition first_line_fallback (original text : string) : string :=
  if Py.any_in INSTRUCTION_WORDS (Py.lower text)
  then match long_lines original with
       | l :: _ => l
       | [] => text
       end
  else text.

Definition clean_content (text : string) : string :=
  let original := text in
  let text := remove_patterns text in
  let text := remove_bracketed text in
  let text := collapse text in
  let text := first_sentence text in
  let text := first_line_fallback original text in
  Py.strip text.

Arguments clean_content : simpl never.

(** *** What the properties of the sanitizer are stated with *)

(** Some removal pattern of the sanitizer matches somewhere in [s]. *)
Definition has_artifact (s : string) : bool :=
  existsb (fun p => search true p s) ARTIFACT_PATTERNS
  || search false BRACKETED s
  || search true PAREN_INSTRUCTIONS s.

(** The text [clean_content] holds before its last step. *)
Definition before_fallback (text : string) : string :=
  first_sentence (collapse (remove_bracketed (remove_patterns text))).

(** The last step replaces the text by a line of the original. *)
Definition falls_back (text : string) : bool :=
  Py.any_in INSTRUCTION_WORDS (Py.lower (before_fallback text))
  && match long_lines text with [] => false | _ :: _ => true end.

(** [sentences[0]] of [clean_content]. *)
Definition first_segment (text : string) : string :=
  hd EmptyString (split false SENTENCE_END text).

Definition sentence_end (c : ascii) : bool :=
  atom_matches false (OneOf ["."; "!"; "?"]%char) c.

(** The text up to the first of [.], [!], [?]. *)
Fixpoint up_to_end (s : string) : string :=
  match s with
  | EmptyString => EmptyString
  | String c s' => if sentence_end c then EmptyString
                   else String c (up_to_end s')
  end.

(** Runs of whitespace made one space each; [in_ws]: inside a run. *)
Fixpoint squeeze (s : string) (in_ws : bool) : string :=
  match s with
  | EmptyString => EmptyString
  | String c s' =>
      if Py.isspace c
      then if in_ws then squeeze s' true else String " " (squeeze s' true)
      else String c (squeeze s' false)
  end.

(** Whitespace is single spaces; [sp]: a space may not come next. *)
Fixpoint sparse (sp : bool) (s : string) : bool :=
  match s with
  | EmptyString => true
  | String c s' =>
      if Py.isspace c
      then Ascii.eqb c " " && negb sp && sparse true s'
      else sparse false s'
  end.

(** Single spaces between other characters only. *)
Fixpoint neat_after (sp : bool) (s : string) : bool :=
  match s with
  | EmptyString => true
  | String c s' =>
      if Py.isspace c
      then Ascii.eqb c " " && negb sp && Py.truthy s' && neat_after true s'
      else neat_after false s'
  end.

Definition neat (s : string) : bool := neat_after true s.

(** ** Generation policy *)

Module Gen.

Inductive exn : Type :=
| IndexError                    (* [self.models[model_id]] out of range *)
| UnboundLocalError             (* [cleaned] read before assignment *)
| ZeroDivisionError             (* [i % 0] *)
| AttributeError                (* [.get] or [.strip] on a value without it *)
| OverflowError                 (* an int that SQLite cannot hold *)
| ModelError (msg : string).    (* anything tokenizer or model raise *)

Definition result (A : Type) : Type := (exn + A)%type.

Record Persona : Type := { name : string; style : string }.

Definition nl : string := String newline EmptyString.
Definition dq : string := String (ascii_of_nat 34) EmptyString.

Definition POST_ARTIFACTS : list string :=
  ["no hashtags"; "include"; "use at least"; "write a comment"; "post:"].

Definition COMMENT_ARTIFACTS : list string :=
  ["include"; "use"; "write a comment"].

(** The test of one attempt in [generate_post_content]. *)
Definition post_accepted (cleaned : string) : bool :=
  Py.truthy cleaned && (30 <? String.length cleaned)
  && negb (Py.any_in POST_ARTIFACTS (Py.lower cleaned)).

(** The test of one attempt in [generate_comment_content]. *)
Definition comment_accepted (cleaned : string) : bool :=
  Py.truthy cleaned && (15 <? String.length cleaned)
  && negb (Py.any_in COMMENT_ARTIFACTS (Py.lower cleaned)).

Definition post_prompt (topic : string) : string :=
  "<|im_start|>system" ++ nl ++
  "You are a social media user. Write a natural post about "
    ++ dq ++ topic ++ dq ++ "." ++ nl ++
  "Rules:" ++ nl ++
  "- Write in your own voice, with personal opinion" ++ nl ++
  "- Keep it conversational" ++ nl ++
  "- Do NOT include instructions or meta-commentary" ++ nl ++
  "- Do NOT mention " ++ dq ++ "No hashtags" ++ dq ++ " or any rules" ++ nl ++
  "- Just write the post content" ++ nl ++
  "<|im_end|>" ++ nl ++
  "<|im_start|>user" ++ nl ++
  "Write a post about: " ++ topic ++ nl ++
  "<|im_end|>" ++ nl ++
  "<|im_start|>assistant" ++ nl.

Definition comment_prompt (post_content : string) (persona : Persona)
  : string :=
  "<|im_start|>system" ++ nl ++
  "You are " ++ name persona ++ ". Your communication style: "
    ++ style persona ++ nl ++
  "Rules:" ++ nl ++
  "- Respond naturally to the post" ++ nl ++
  "- Do NOT include instructions or meta-commentary" ++ nl ++
  "- Do NOT mention " ++ dq ++ "No hashtags" ++ dq ++ " or any rules" ++ nl ++
  "- Just write the comment content" ++ nl ++
  "<|im_end|>" ++ nl ++
  "<|im_start|>user" ++ nl ++
  "Post: " ++ dq ++ post_content ++ dq ++ nl ++
  "Write a natural comment as " ++ name persona ++ "." ++ nl ++
  "<|im_end|>" ++ nl ++
  "<|im_start|>assistant" ++ nl.

Definition post_fallback (topic : string) : string :=
  "I've been thinking about " ++ topic ++ " lately...".

Definition comment_fallback : string := "Interesting post!".

Section Policy.

(** Everything a call of the model may read or change. *)
Variable World : Type.

(** Computations that read and change the world and may raise. *)
Definition M (A : Type) : Type := World -> result A * World.

Definition ret {A} (a : A) : M A := fun w => (inr a, w).
Definition raise {A} (e : exn) : M A := fun w => (inl e, w).
Definition bind {A B} (c : M A) (k : A -> M B) : M B :=
  fun w => match c w with
           | (inr a, w') => k a w'
           | (inl e, w') => (inl e, w')
           end.

(** [models] is [len(self.models)]; [infer] is the body of
    [DualModelManager.generate] under the lock: tokenizer, model and
    decoder. *)
Record DualModelManager : Type := {
  models : nat;
  infer : nat -> string -> nat -> Q -> M string
}.

Variable model_manager : DualModelManager.

Definition generate (prompt : string) (max_tokens : nat) (temperature : Q)
           (model_id : nat) : M string :=
  if model_id <? models model_manager
  then infer model_manager model_id prompt max_tokens temperature
  else raise IndexError.

(** The [for attempt in range(2)] loop of [generate_post_content] and
    the [return] after it; [cleaned] is the loop's variable.  What the
    loop prints is left out. *)
Fixpoint post_attempts (topic prompt : string) (model_id : nat)
         (attempts : list nat) (cleaned : option string) : M string :=
  match attempts with
  | _ :: rest =>
      bind (generate prompt 400 (85 # 100) model_id) (fun raw =>
      let cleaned := clean_content raw in
      if post_accepted cleaned
      then ret (Py.slice_to MAX_POST_LEN cleaned)
      else post_attempts topic prompt model_id rest (Some cleaned))
  | [] =>
      match cleaned with
      | Some cleaned =>
          ret (if Py.truthy cleaned
               then Py.slice_to MAX_POST_LEN cleaned
               else post_fallback topic)
      | None => raise UnboundLocalError
      end
  end.

Definition generate_post_content (topic : string) (model_id : nat)
  : M string :=
  post_attempts topic (post_prompt topic) model_id (seq 0 2) None.

Fixpoint comment_attempts (prompt : string) (model_id : nat)
         (attempts : list nat) (cleaned : option string) : M string :=
  match attempts with
  | _ :: rest =>
      bind (generate prompt 200 (9 # 10) model_id) (fun raw =>
      let cleaned := clean_content raw in
      if comment_accepted cleaned
      then ret (Py.slice_to MAX_COMMENT_LEN cleaned)
      else comment_attempts prompt model_id rest (Some cleaned))
  | [] =>
      match cleaned with
      | Some cleaned =>
          ret (if Py.truthy cleaned
               then Py.slice_to MAX_COMMENT_LEN cleaned
               else comment_fallback)
      | None => raise UnboundLocalError
      end
  end.

Definition generate_comment_content (post_content : string)
           (persona : Persona) (model_id : nat) : M string :=
  comment_attempts (comment_prompt post_content persona) model_id
                   (seq 0 2) None.

End Policy.

Arguments ret {World A}.
Arguments raise {World A}.
Arguments bind {World A B}.
Arguments models {World}.
Arguments infer {World}.
Arguments generate {World}.
Arguments generate_post_content {World}.
Arguments generate_comment_content {World}.

(** *** Model managers to run the policy on *)

(** Two models, every call raises. *)
Definition always_raising : DualModelManager unit :=
  {| models := 2;
     infer := fun _ _ _ _ => raise (ModelError "CUDA out of memory") |}.

(** Two models, every call gives [raw]; the world counts the calls. *)
Definition canned (raw : string) : DualModelManager nat :=
  {| models := 2;
     infer := fun _ _ _ _ n => (inr raw, S n) |}.

(** Two models; the world is the list of the outputs still to come. *)
Definition scripted : DualModelManager (list string) :=
  {| models := 2;
     infer := fun _ _ _ _ w =>
                match w with
                | raw :: w' => (inr raw, w')
                | [] => (inl (ModelError "no output"), [])
                end |}.

End Gen.

(** ** Parallel execution *)

Module Dispatch.

Import Gen.

(** The keyword arguments one [executor.submit] binds. *)
Record Task : Type := {
  post_id : nat;
  post_content : string;
  persona : Persona;
  device_id : nat
}.

(** A future is known by the rank of its work item in the executor. *)
Definition Future : Type := nat.

(** The executor between [_initialize_executor] and the [atexit] hook,
    the only caller of [shutdown]: it takes every work item. *)
Record ThreadPoolExecutor : Type := {
  max_workers : nat;
  work_items : list Task        (* in the order of submission *)
}.

(** [executor.submit(fn, **kwargs)] *)
Definition submit (ex : ThreadPoolExecutor) (t : Task)
  : Future * ThreadPoolExecutor :=
  (List.length (work_items ex),
   {| max_workers := max_workers ex;
      work_items := work_items ex ++ [t] |}).

Record ParallelCommentGenerator : Type := {
  num_models : nat;                    (* [len(self.model_manager.models)] *)
  personas : list Persona;             (* [self.persona_manager.personas] *)
  executor : ThreadPoolExecutor
}.

Definition MAX_WORKERS_PER_GPU : nat := 1.

(** [_initialize_executor] *)
Definition initialize_executor (n_models : nat) : ThreadPoolExecutor :=
  {| max_workers := n_models * MAX_WORKERS_PER_GPU; work_items := [] |}.

(** [enumerate(l)] *)
Definition enumerate {A} (l : list A) : list (nat * A) :=
  combine (seq 0 (List.length l)) l.

(** The loop of [submit_post_comments]. *)
Fixpoint submit_loop (n_models pid : nat) (content : string)
         (items : list (nat * Persona)) (futures : list Future)
         (ex : ThreadPoolExecutor)
  : (exn + list Future) * ThreadPoolExecutor :=
  match items with
  | [] => (inr futures, ex)
  | (i, p) :: rest =>
      if n_models =? 0 then (inl ZeroDivisionError, ex)
      else
        let dev := i mod n_models in
        let '(future, ex') :=
          submit ex {| post_id := pid; post_content := content;
                       persona := p; device_id := dev |} in
        submit_loop n_models pid content rest (futures ++ [future]) ex'
  end.

Definition submit_post_comments (self : ParallelCommentGenerator)
           (pid : nat) (content : string)
  : (exn + list Future) * ParallelCommentGenerator :=
  let active_personas := personas self in
  let '(r, ex') :=
    submit_loop (num_models self) pid content (enumerate active_personas)
                [] (executor self) in
  (r, {| num_models := num_models self; personas := personas self;
         executor := ex' |}).

(** The task the loop binds to the persona at ordinal [i]. *)
Definition task_of (n_models pid : nat) (content : string)
           (ip : nat * Persona) : Task :=
  {| post_id := pid; post_content := content; persona := snd ip;
     device_id := fst ip mod n_models |}.

(** The tasks a call added to the executor. *)
Definition scheduled (before after : ParallelCommentGenerator) : list Task :=
  skipn (List.length (work_items (executor before)))
        (work_items (executor after)).

Definition default_personas : list Persona :=
  [ {| name := "Alex Tech";
       style := "Technical expert, precise, uses jargon naturally" |};
    {| name := "Sam Casual";
       style := "Friendly, uses emojis naturally, conversational" |};
    {| name := "Dr. Morgan";
       style := "Academic tone, analytical, cites studies naturally" |};
    {| name := "Charlie";
       style := "Sarcastic internet troll, uses slang, contrarian" |} ].

Definition two_gpu_generator : ParallelCommentGenerator :=
  {| num_models := 2; personas := default_personas;
     executor := initialize_executor 2 |}.

End Dispatch.

(** ** Database *)

Module Db.

Record PostRow : Type := {
  p_id : nat;
  p_content : string;
  p_author : string;
  p_is_ai_generated : bool
}.

Record CommentRow : Type := {
  c_id : nat;
  c_post_id : nat;
  c_content : string;
  c_author : string
}.

(** The two tables and their AUTOINCREMENT counters; the [created_at]
    column is filled by SQLite's clock and is left out. *)
Record Database : Type := {
  posts : list PostRow;
  comments : list CommentRow;
  last_post_id : nat;
  last_comment_id : nat
}.

(** [init_db] on a fresh file. *)
Definition init_db : Database :=
  {| posts := []; comments := []; last_post_id := 0; last_comment_id := 0 |}.

(** Returns [cursor.lastrowid]. *)
Definition add_post (db : Database) (content author : string) (is_ai : bool)
  : nat * Database :=
  let rowid := S (last_post_id db) in
  (rowid,
   {| posts := posts db ++
               [ {| p_id := rowid;
                    p_content := Py.slice_to MAX_POST_LEN content;
                    p_author := author;
                    p_is_ai_generated := is_ai |} ];
      comments := comments db;
      last_post_id := rowid;
      last_comment_id := last_comment_id db |}).

(** The INSERT of [add_comment], for a [post_id] that sqlite3 can bind;
    [add_comment_call] below is the method on any [post_id]. *)
Definition add_comment (db : Database) (pid : nat) (content author : string)
  : Database :=
  let rowid := S (last_comment_id db) in
  {| posts := posts db;
     comments := comments db ++
                 [ {| c_id := rowid;
                      c_post_id := pid;
                      c_content := Py.slice_to MAX_COMMENT_LEN content;
                      c_author := author |} ];
     last_post_id := last_post_id db;
     last_comment_id := rowid |}.

(** sqlite3 binds a Python [int] below [2 ** 63] to an INTEGER and raises
    OverflowError on a larger one. *)
Definition fits_integer (n : nat) : bool := (Z.of_nat n <? 2 ^ 63)%Z.

(** [add_comment] on any [post_id]: the error is raised in
    [cursor.execute], before anything is written. *)
Definition add_comment_call (db : Database) (pid : nat)
           (content author : string) : Gen.exn + Database :=
  if fits_integer pid then inr (add_comment db pid content author)
  else inl Gen.OverflowError.

End Db.

(** ** The lock of [DualModelManager.generate]

    Worker threads interleave.  A thread that called [generate(model_id)]
    waits at [with lock:] until [self.locks[model_id]] is free, holds the
    lock while tokenizer, [model.generate] and decoder run, and gives it
    back when the block is left, by [return] or by an exception. *)

Module Locking.

Inductive pc : Type :=
| Idle                          (* outside [generate] *)
| Waiting (model_id : nat)      (* at [with lock:] *)
| InModel (model_id : nat).     (* inside the [with] block *)

Definition pc_eq_dec : forall x y : pc, {x = y} + {x <> y}.
Proof. decide equality; apply Nat.eq_dec. Defined.

Record state : Type := {
  locks : list bool;            (* [self.locks], [true] when held *)
  threads : list pc
}.

Fixpoint upd {A} (l : list A) (i : nat) (x : A) : list A :=
  match l, i with
  | [], _ => []
  | _ :: l', 0 => x :: l'
  | y :: l', S i' => y :: upd l' i' x
  end.

Inductive step : state -> state -> Prop :=
| step_call : forall st t m,
    nth_error (threads st) t = Some Idle ->
    m < List.length (locks st) ->
    step st {| locks := locks st; threads := upd (threads st) t (Waiting m) |}
| step_acquire : forall st t m,
    nth_error (threads st) t = Some (Waiting m) ->
    nth_error (locks st) m = Some false ->
    step st {| locks := upd (locks st) m true;
               threads := upd (threads st) t (InModel m) |}
| step_return : forall st t m,
    nth_error (threads st) t = Some (InModel m) ->
    step st {| locks := upd (locks st) m false;
               threads := upd (threads st) t Idle |}
| step_raise : forall st t m,
    nth_error (threads st) t = Some (InModel m) ->
    step st {| locks := upd (locks st) m false;
               threads := upd (threads st) t Idle |}.

(** [n_models] free locks and [n_threads] idle workers. *)
Definition init (n_models n_threads : nat) : state :=
  {| locks := repeat false n_models; threads := repeat Idle n_threads |}.

Inductive reachable (n_models n_threads : nat) : state -> Prop :=
| reach_init : reachable n_models n_threads (init n_models n_threads)
| reach_step : forall st st',
    reachable n_models n_threads st -> step st st' ->
    reachable n_models n_threads st'.

(** How many threads are inside the [with] block of model [m]. *)
Definition in_flight (m : nat) (st : state) : nat :=
  count_occ pc_eq_dec (threads st) (InModel m).

(** What one entry adds to a count. *)
Definition one_if (b : bool) : nat := if b then 1 else 0.

Definition same (x y : pc) : bool :=
  if pc_eq_dec x y then true else false.

(** The lock of a model is held exactly when one thread is inside. *)
Definition lock_counts (st : state) : Prop :=
  forall m, in_flight m st = one_if (nth m (locks st) false).

End Locking.

(** ** Persona storage *)

Module Personas.

Import Gen.

(** [personas] is [self.personas]; [file] is what [personas.json] holds,
    when it exists.  The file is written and read whole, as the list. *)
Record PersonaManager : Type := {
  personas : list Persona;
  file : option (list Persona)
}.

Definition save_personas (self : PersonaManager) : PersonaManager :=
  {| personas := personas self; file := Some (personas self) |}.

(** [__init__], which ends in [load_personas], on the given disk. *)
Definition load_personas (on_disk : option (list Persona)) : PersonaManager :=
  match on_disk with
  | Some ps => {| personas := ps; file := Some ps |}
  | None =>
      save_personas {| personas := Dispatch.default_personas; file := None |}
  end.

Definition get_all (self : PersonaManager) : list Persona := personas self.

Definition add (self : PersonaManager) (name style : string)
  : PersonaManager :=
  save_personas
    {| personas := personas self ++ [ {| name := name; style := style |} ];
       file := file self |}.

(** [0 <= index < len(l)] *)
Definition in_range {A} (index : Z) (l : list A) : bool :=
  (0 <=? index)%Z && (index <? Z.of_nat (List.length l))%Z.

(** [l[i] = x] for [i] in range. *)
Fixpoint set_item {A} (l : list A) (i : nat) (x : A) : list A :=
  match l, i with
  | [], _ => []
  | _ :: l', 0 => x :: l'
  | y :: l', S i' => y :: set_item l' i' x
  end.

(** [del l[i]] for [i] in range. *)
Fixpoint del_item {A} (l : list A) (i : nat) : list A :=
  match l, i with
  | [], _ => []
  | _ :: l', 0 => l'
  | y :: l', S i' => y :: del_item l' i'
  end.

Definition update (self : PersonaManager) (index : Z) (name style : string)
  : PersonaManager :=
  if in_range index (personas self)
  then save_personas
         {| personas := set_item (personas self) (Z.to_nat index)
                                 {| name := name; style := style |};
            file := file self |}
  else self.

Definition delete (self : PersonaManager) (index : Z) : PersonaManager :=
  if in_range index (personas self)
  then save_personas
         {| personas := del_item (personas self) (Z.to_nat index);
            file := file self |}
  else self.

(** One call of the admin interface on the manager. *)
Inductive op : Type :=
| Add (name style : string)
| Update (index : Z) (name style : string)
| Delete (index : Z).

Definition apply_op (self : PersonaManager) (o : op) : PersonaManager :=
  match o with
  | Add n s => add self n s
  | Update i n s => update self i n s
  | Delete i => delete self i
  end.

End Personas.

(** ** Reading the database

    [get_posts] and [get_comments] sort by [created_at], a column that is
    left out here.  A listing is therefore taken to be the selected rows
    in any order, and both are relations between the database and what
    the call may return. *)

Module DbRead.

Import Db.

Record PostView : Type := {
  v_id : nat;
  v_content : string;
  v_author : string;
  v_is_ai_generated : bool;
  v_comment_count : nat
}.

(** The comments the LEFT JOIN groups under post [pid]. *)
Definition comments_of (db : Database) (pid : nat) : list CommentRow :=
  filter (fun c => c_post_id c =? pid) (comments db).

(** The rows the query of [get_posts] selects, in table order. *)
Definition post_views (db : Database) : list PostView :=
  map (fun p => {| v_id := p_id p;
                   v_content := p_content p;
                   v_author := p_author p;
                   v_is_ai_generated := p_is_ai_generated p;
                   v_comment_count := List.length (comments_of db (p_id p)) |})
      (posts db).

(** [rows] is a possible result of [get_posts()]. *)
Definition get_posts (db : Database) (rows : list PostView) : Prop :=
  Permutation rows (post_views db).

(** [r] is a possible outcome of [get_comments(pid)]; sqlite3 has to bind
    [pid] here too. *)
Definition get_comments (db : Database) (pid : nat)
           (r : Gen.exn + list CommentRow) : Prop :=
  if fits_integer pid
  then exists rows, r = inr rows /\ Permutation rows (comments_of db pid)
  else r = inl Gen.OverflowError.

(** A row of [get_posts] after one more comment on post [pid]. *)
Definition one_more_comment (pid : nat) (v : PostView) : PostView :=
  {| v_id := v_id v;
     v_content := v_content v;
     v_author := v_author v;
     v_is_ai_generated := v_is_ai_generated v;
     v_comment_count :=
       v_comment_count v + (if v_id v =? pid then 1 else 0) |}.

(** What the server does to the database: every database it can get to
    is among these. *)
Inductive reachable : Database -> Prop :=
| reach_init : reachable init_db
| reach_post : forall db content author is_ai,
    reachable db -> reachable (snd (add_post db content author is_ai))
| reach_comment : forall db pid content author,
    reachable db -> reachable (add_comment db pid content author).

(** Row ids count up from 1 in both tables. *)
Definition ids_in_order (db : Database) : Prop :=
  map p_id (posts db) = seq 1 (List.length (posts db))
  /\ last_post_id db = List.length (posts db)
  /\ map c_id (comments db) = seq 1 (List.length (comments db))
  /\ last_comment_id db = List.length (comments db).

End DbRead.

(** ** Loading the models *)

Module Devices.

Inductive device : Type := Cuda (index : nat).

Definition device_eqb (d1 d2 : device) : bool :=
  match d1, d2 with Cuda i, Cuda j => i =? j end.

Inductive init_error : Type :=
| NoCudaGpus.                     (* [RuntimeError("No CUDA GPUs found!")] *)

(** [self.devices] for [torch.cuda.device_count() = gpu_count]. *)
Definition select_devices (gpu_count : nat) : init_error + list device :=
  if 2 <=? gpu_count then inr [Cuda 0; Cuda 1]
  else if gpu_count =? 1 then inr [Cuda 0; Cuda 0]
  else inl NoCudaGpus.

(** [__init__] when every model loads: one model and one free lock per
    entry of [self.devices]. *)
Record Loaded : Type := {
  devices : list device;
  n_models : nat;                 (* [len(self.models)] *)
  locks : list bool               (* [self.locks] *)
}.

Fixpoint load_loop (devs : list device) (n : nat) (ls : list bool)
  : nat * list bool :=
  match devs with
  | [] => (n, ls)
  | _ :: rest => load_loop rest (S n) (ls ++ [false])
  end.

Definition init (gpu_count : nat) : init_error + Loaded :=
  match select_devices gpu_count with
  | inl e => inl e
  | inr devs =>
      let '(n, ls) := load_loop devs 0 [] in
      inr {| devices := devs; n_models := n; locks := ls |}
  end.

(** How many threads run a model that lives on device [d]. *)
Fixpoint on_device_from (devs : list device) (m : nat) (d : device)
         (st : Locking.state) : nat :=
  match devs with
  | [] => 0
  | d' :: rest =>
      (if device_eqb d' d then Locking.in_flight m st else 0)
      + on_device_from rest (S m) d st
  end.

Definition on_device (devs : list device) (d : device) (st : Locking.state)
  : nat :=
  on_device_from devs 0 d st.

End Devices.

(** ** The work of one task and the routes

    A request handler is taken as one step on the server.  The admin
    handlers are the bodies behind [auth.login_required]. *)

Module App.

Import Gen.

Definition NUM_AI_POSTS : nat := 2.

(** [str(n)] *)
Definition decimal (n : nat) : string :=
  NilEmpty.string_of_uint (Nat.to_uint n).

(** The query arguments, [request.args]: strings, in the order of the
    URL. *)
Definition dict : Type := list (string * string).

(** [request.args.get(key, default)]: the first value given for [key]. *)
Fixpoint get (d : dict) (key default : string) : string :=
  match d with
  | [] => default
  | (k, v) :: d' => if String.eqb k key then v else get d' key default
  end.

(** A parsed JSON body, [request.json].  An object is given by its
    members as the body lists them. *)
#[local] Unset Elimination Schemes.
Inductive json : Type :=
| JNull
| JBool (b : bool)
| JNumber (literal : string)
| JString (s : string)
| JArray (items : list json)
| JObject (members : list (string * json)).
#[local] Set Elimination Schemes.

(** The value the parsed [dict] holds under [key]: of the members with
    this name, the last. *)
Fixpoint member (members : list (string * json)) (key : string)
  : option json :=
  match members with
  | [] => None
  | (k, v) :: rest =>
      match member rest key with
      | Some v' => Some v'
      | None => if String.eqb k key then Some v else None
      end
  end.

(** [data.get(key, default)]: only a [dict] has [get]. *)
Definition get_item (data : json) (key default : string) : exn + json :=
  match data with
  | JObject members =>
      match member members key with
      | Some v => inr v
      | None => inr (JString default)
      end
  | _ => inl AttributeError
  end.

(** [v.strip()]: only a [str] has [strip]. *)
Definition strip (v : json) : exn + string :=
  match v with
  | JString s => inr (Py.strip s)
  | _ => inl AttributeError
  end.

(** [data.get(key, default).strip()] *)
Definition get_strip (data : json) (key default : string) : exn + string :=
  match get_item data key default with
  | inr v => strip v
  | inl e => inl e
  end.

Record Server : Type := {
  db : Db.Database;
  persona_manager : Personas.PersonaManager;
  executor : Dispatch.ThreadPoolExecutor
}.

Record AiPost : Type := {
  ai_id : nat;
  ai_content : string;
  ai_author : string
}.

Inductive payload : Type :=
| Success                              (* [{"success": True}] *)
| SuccessPost (post_id : nat)          (* [... "post_id": post_id] *)
| SuccessPosts (posts : list AiPost)   (* [... "posts": ai_posts] *)
| Error (msg : string)                 (* [{"error": msg}] *)
| ErrorOf (e : exn).                   (* [{"error": str(e)}] *)

Inductive response : Type :=
| Reply (body : payload) (status : nat)
| Uncaught (e : exn).                  (* the handler raised *)

Section Handlers.

Variable World : Type.
Variable model_manager : DualModelManager World.

(** [_generate_single_comment], the body of a task.  The post id of a
    task is one that [add_post] returned, a row id, which sqlite3 binds:
    the INSERT of [db.add_comment] is made. *)
Definition generate_single_comment (t : Dispatch.Task) (d : Db.Database)
           (w : World) : Db.Database * World :=
  match generate_comment_content model_manager (Dispatch.post_content t)
                                 (Dispatch.persona t) (Dispatch.device_id t) w
  with
  | (inr comment, w') =>
      (Db.add_comment d (Dispatch.post_id t) comment
                      (name (Dispatch.persona t)), w')
  | (inl _, w') => (d, w')
  end.

(** [parallel_generator], which holds the manager and the executor of the
    server. *)
Definition parallel_generator (srv : Server)
  : Dispatch.ParallelCommentGenerator :=
  {| Dispatch.num_models := models model_manager;
     Dispatch.personas := Personas.get_all (persona_manager srv);
     Dispatch.executor := executor srv |}.

Definition with_db (srv : Server) (d : Db.Database) : Server :=
  {| db := d; persona_manager := persona_manager srv;
     executor := executor srv |}.

Definition with_executor (srv : Server) (ex : Dispatch.ThreadPoolExecutor)
  : Server :=
  {| db := db srv; persona_manager := persona_manager srv; executor := ex |}.

Definition with_personas (srv : Server) (pm : Personas.PersonaManager)
  : Server :=
  {| db := db srv; persona_manager := pm; executor := executor srv |}.

(** [parallel_generator.submit_post_comments(post_id, content)] *)
Definition fan_out (srv : Server) (post_id : nat) (content : string)
  : (exn + list Dispatch.Future) * Server :=
  let '(r, g) :=
    Dispatch.submit_post_comments (parallel_generator srv) post_id content in
  (r, with_executor srv (Dispatch.executor g)).

(** POST /api/posts *)
Definition create_post (data : json) (srv : Server) : response * Server :=
  match get_strip data "content" "" with
  | inl e => (Uncaught e, srv)
  | inr content =>
      match get_strip data "author" "Anonymous" with
      | inl e => (Uncaught e, srv)
      | inr author =>
          if negb (Py.truthy content)
          then (Reply (Error "Empty content") 400, srv)
          else
            let '(post_id, d) := Db.add_post (db srv) content author false in
            match fan_out (with_db srv d) post_id content with
            | (inr _, srv') => (Reply (SuccessPost post_id) 200, srv')
            | (inl e, srv') => (Uncaught e, srv')
            end
      end
  end.

(** POST /api/posts/<post_id>/comments *)
Definition add_comment (post_id : nat) (data : json) (srv : Server)
  : response * Server :=
  match get_strip data "content" "" with
  | inl e => (Uncaught e, srv)
  | inr content =>
      match get_strip data "author" "You" with
      | inl e => (Uncaught e, srv)
      | inr author =>
          if negb (Py.truthy content)
          then (Reply (Error "Empty comment") 400, srv)
          else
            match Db.add_comment_call (db srv) post_id content author with
            | inr d => (Reply Success 200, with_db srv d)
            | inl e => (Uncaught e, srv)
            end
      end
  end.

(** The loop of [search_generate], inside its [try]. *)
Fixpoint search_loop (query : string) (indices : list nat)
         (ai_posts : list AiPost) (srv : Server) (w : World)
  : (exn + list AiPost) * Server * World :=
  match indices with
  | [] => (inr ai_posts, srv, w)
  | i :: rest =>
      if models model_manager =? 0 then (inl ZeroDivisionError, srv, w)
      else
        match generate_post_content model_manager query
                                    (i mod models model_manager) w with
        | (inl e, w') => (inl e, srv, w')
        | (inr content, w') =>
            let author := "AI Bot " ++ decimal (i + 1) in
            let '(post_id, d) := Db.add_post (db srv) content author true in
            match fan_out (with_db srv d) post_id content with
            | (inl e, srv') => (inl e, srv', w')
            | (inr _, srv') =>
                search_loop query rest
                  (ai_posts ++ [ {| ai_id := post_id; ai_content := content;
                                    ai_author := author |} ])
                  srv' w'
            end
        end
  end.

(** GET /api/search *)
Definition search_generate (args : dict) (srv : Server) (w : World)
  : response * Server * World :=
  let query := Py.strip (get args "q" "") in
  if negb (Py.truthy query)
  then (Reply (Error "Empty query") 400, srv, w)
  else
    match search_loop query (seq 0 NUM_AI_POSTS) [] srv w with
    | (inr ai_posts, srv', w') => (Reply (SuccessPosts ai_posts) 200, srv', w')
    | (inl e, srv', w') => (Reply (ErrorOf e) 500, srv', w')
    end.

(** POST /admin/personas *)
Definition add_persona (data : json) (srv : Server) : response * Server :=
  match get_strip data "name" "" with
  | inl e => (Uncaught e, srv)
  | inr name =>
      match get_strip data "style" "" with
      | inl e => (Uncaught e, srv)
      | inr style =>
          if negb (Py.truthy name) || negb (Py.truthy style)
          then (Reply (Error "Name and style required") 400, srv)
          else (Reply Success 200,
                with_personas
                  srv (Personas.add (persona_manager srv) name style))
      end
  end.

(** PUT /admin/personas/<index> *)
Definition update_persona (index : nat) (data : json) (srv : Server)
  : response * Server :=
  match get_strip data "name" "" with
  | inl e => (Uncaught e, srv)
  | inr name =>
      match get_strip data "style" "" with
      | inl e => (Uncaught e, srv)
      | inr style =>
          if negb (Py.truthy name) || negb (Py.truthy style)
          then (Reply (Error "Name and style required") 400, srv)
          else (Reply Success 200,
                with_personas
                  srv (Personas.update (persona_manager srv)
                                       (Z.of_nat index) name style))
      end
  end.

(** DELETE /admin/personas/<index> *)
Definition delete_persona (index : nat) (srv : Server) : response * Server :=
  if List.length (Personas.get_all (persona_manager srv)) <=? index
  then (Reply (Error "Invalid index") 404, srv)
  else (Reply Success 200,
        with_personas srv
          (Personas.delete (persona_manager srv) (Z.of_nat index))).

End Handlers.

Arguments generate_single_comment {World}.
Arguments parallel_generator {World}.
Arguments fan_out {World}.
Arguments create_post {World}.
Arguments search_loop {World}.
Arguments search_generate {World}.

(** A server right after start: empty tables, the default personas, an
    executor of two workers. *)
Definition fresh : Server :=
  {| db := Db.init_db;
     persona_manager := Personas.load_personas None;
     executor := Dispatch.initialize_executor 2 |}.

End App.

(** ** What the further properties are stated with *)

(** [s] is empty or holds whitespace only. *)
Fixpoint blank (s : string) : bool :=
  match s with
  | EmptyString => true
  | String c s' => Py.isspace c && blank s'
  end.

(** The body is an object, and what [data.get(key, default)] gives is the
    string [s]: the value under [key], or [default] without such a key. *)
Definition field (data : App.json) (key default s : string) : Prop :=
  App.get_item data key default = inr (App.JString s).

(** The body is no object, or its value under [key] is no string. *)
Definition no_field (data : App.json) (key default : string) : Prop :=
  forall s, ~ field data key default s.

(** Some steps of the worker threads, one after the other. *)
Inductive steps : Locking.state -> Locking.state -> Prop :=
| steps_none : forall st, steps st st
| steps_more : forall st st' st'',
    Locking.step st st' -> steps st' st'' -> steps st st''.

(** The server after a post was stored and its comments were scheduled
    on [n_models] models. *)
Definition posted (srv : App.Server) (content author : string)
           (is_ai : bool) (n_models : nat) : App.Server :=
  let pid := S (Db.last_post_id (App.db srv)) in
  {| App.db := snd (Db.add_post (App.db srv) content author is_ai);
     App.persona_manager := App.persona_manager srv;
     App.executor :=
       {| Dispatch.max_workers := Dispatch.max_workers (App.executor srv);
          Dispatch.work_items :=
            Dispatch.work_items (App.executor srv)
            ++ map (Dispatch.task_of n_models pid content)
                   (Dispatch.enumerate
                      (Personas.get_all (App.persona_manager srv))) |} |}.

(** The characters [Py.isspace] holds of. *)
Definition ws_chars : list ascii :=
  map ascii_of_nat [9; 10; 11; 12; 13; 28; 29; 30; 31; 32; 133; 160].

(** The literal character a pattern has to start with, if it has one. *)
Fixpoint leading (r : regex) : option ascii :=
  match r with
  | Atom (Chr x) => Some x
  | Cat r1 _ => leading r1
  | _ => None
  end.

(** The pattern starts with a literal that matches no whitespace. *)
Definition starts_on_text (ic : bool) (r : regex) : bool :=
  match leading r with
  | Some x => forallb (fun c => negb (atom_matches ic (Chr x) c)) ws_chars
  | None => false
  end.

(** No character of [s] is [n]. *)
Definition lacks (n : ascii) (s : string) : Prop :=
  Py.contains (String n EmptyString) s = false.

(** * Properties *)

Import Gen.

(** ** Strings *)

Module PyFacts.

Import Py.

Lemma truthy_true (s : string) : truthy s = true <-> s <> EmptyString.
Proof. destruct s; simpl; split; congruence. Qed.

Lemma slice_to_length (n : nat) (s : string) :
  String.length (slice_to n s) = Nat.min n (String.length s).
Proof.
  revert s; induction n as [|n IH]; intros [|c s]; simpl; auto.
Qed.

Lemma slice_to_all (n : nat) (s : string) :
  String.length s <= n -> slice_to n s = s.
Proof.
  revert s; induction n as [|n IH]; intros [|c s]; simpl; intros H;
    try reflexivity; try lia.
  f_equal; apply IH; lia.
Qed.

Lemma any_in_false (words : list string) (text : string) :
  any_in words text = false <->
  forall w, In w words -> contains w text = false.
Proof.
  unfold any_in; induction words as [|w ws IH]; simpl.
  - split; [intros _ w []|reflexivity].
  - rewrite orb_false_iff, IH; split.
    + intros [H1 H2] w' [<-|Hin]; auto.
    + intros H; split; [apply H; auto|intros w' Hin; apply H; auto].
Qed.

Lemma any_in_true (words : list string) (text : string) (w : string) :
  In w words -> contains w text = true -> any_in words text = true.
Proof.
  intros Hin Hc; unfold any_in; apply existsb_exists; eauto.
Qed.

End PyFacts.

(** ** The acceptance test *)

(** C7, as amended: the test of an attempt accepts exactly the non-empty
    texts that are LONGER than the bound (more than 30 characters for a
    post, more than 15 for a comment) and hold none of the markers of
    their kind; a text of exactly 30 (15) characters is rejected. *)
Theorem acceptance_exact :
  (forall s, post_accepted s = true <->
             s <> EmptyString /\ 30 < String.length s /\
             forall m, In m POST_ARTIFACTS ->
                       Py.contains m (Py.lower s) = false)
  /\
  (forall s, comment_accepted s = true <->
             s <> EmptyString /\ 15 < String.length s /\
             forall m, In m COMMENT_ARTIFACTS ->
                       Py.contains m (Py.lower s) = false).
Proof.
  split; intros s.
  - unfold post_accepted.
    rewrite !andb_true_iff, negb_true_iff, PyFacts.truthy_true, Nat.ltb_lt,
      PyFacts.any_in_false.
    tauto.
  - unfold comment_accepted.
    rewrite !andb_true_iff, negb_true_iff, PyFacts.truthy_true, Nat.ltb_lt,
      PyFacts.any_in_false.
    tauto.
Qed.

(** Accepted texts the equivalence of C7 is used on. *)
Lemma acceptance_exact_witness :
  post_accepted "I love hiking in the mountains." = true /\
  comment_accepted "What a nice day!" = true.
Proof.
  split.
  - apply (proj1 acceptance_exact); split; [discriminate|].
    split; [vm_compute; lia|].
    intros m Hin; unfold POST_ARTIFACTS in Hin;
      repeat (destruct Hin as [<-|Hin]; [vm_compute; reflexivity|]);
      destruct Hin.
  - apply (proj2 acceptance_exact); split; [discriminate|].
    split; [vm_compute; lia|].
    intros m Hin; unfold COMMENT_ARTIFACTS in Hin;
      repeat (destruct Hin as [<-|Hin]; [vm_compute; reflexivity|]);
      destruct Hin.
Defined.

(** C7 fails as written: cleaned texts of exactly 30 and of exactly 15
    characters, with no marker, are rejected. *)
Lemma acceptance_at_bound_rejected :
  (clean_content "I love hiking in the mountain." = "I love hiking in the mountain."
   /\ String.length "I love hiking in the mountain." = 30
   /\ Py.any_in POST_ARTIFACTS (Py.lower "I love hiking in the mountain.") = false
   /\ post_accepted "I love hiking in the mountain." = false)
  /\
  (clean_content "What a nice day" = "What a nice day"
   /\ String.length "What a nice day" = 15
   /\ Py.any_in COMMENT_ARTIFACTS (Py.lower "What a nice day") = false
   /\ comment_accepted "What a nice day" = false).
Proof. vm_compute; repeat split. Qed.

(** C10: a comment whose lowered text holds "use" anywhere is rejected by
    the test, so "because", "house" and "user" reject a comment; after a
    rejected first attempt the model is called again, and the answer is
    what the second attempt gives. *)
Theorem comment_with_use_rejected :
  (forall cleaned,
      Py.contains "use" (Py.lower cleaned) = true ->
      comment_accepted cleaned = false)
  /\ comment_accepted "I agree because the data is clear" = false
  /\ comment_accepted "What a lovely house you have there" = false
  /\ comment_accepted "Every user will enjoy this feature" = false
  /\ (forall World (mm : DualModelManager World) post persona model_id
             w raw1 w1,
         generate mm (comment_prompt post persona) 200 (9 # 10) model_id w
         = (inr raw1, w1) ->
         Py.contains "use" (Py.lower (clean_content raw1)) = true ->
         generate_comment_content mm post persona model_id w
         = match generate mm (comment_prompt post persona) 200 (9 # 10)
                          model_id w1 with
           | (inr raw2, w2) =>
               let cleaned := clean_content raw2 in
               (inr (if comment_accepted cleaned
                     then Py.slice_to MAX_COMMENT_LEN cleaned
                     else if Py.truthy cleaned
                          then Py.slice_to MAX_COMMENT_LEN cleaned
                          else comment_fallback), w2)
           | (inl e, w2) => (inl e, w2)
           end).
Proof.
  assert (R : forall cleaned,
             Py.contains "use" (Py.lower cleaned) = true ->
             comment_accepted cleaned = false).
  { intros cleaned H; unfold comment_accepted.
    rewrite (PyFacts.any_in_true COMMENT_ARTIFACTS _ "use");
      [apply andb_false_r | simpl; auto | exact H]. }
  split; [exact R|].
  do 3 (split; [vm_compute; reflexivity|]).
  intros World mm post persona model_id w raw1 w1 G1 U.
  unfold generate_comment_content; cbn [seq comment_attempts].
  unfold bind at 1; rewrite G1; cbv zeta; rewrite (R _ U).
  unfold bind, ret.
  destruct (generate mm _ 200 (9 # 10) model_id w1) as [[e|raw2] w2];
    [reflexivity|].
  cbv zeta; destruct (comment_accepted (clean_content raw2)); reflexivity.
Qed.

(** Comments with "because", with "house" and with "user": the first is
    rejected, the model is asked again, and the second answer is given
    back although it was rejected as well. *)
Lemma comment_with_use_rejected_witness :
  comment_accepted "I agree because the data is clear." = false
  /\ generate_comment_content scripted "I like cats"
       {| name := "Charlie"; style := "Sarcastic" |} 1
       ["I agree because the data is clear"; "What a lovely house"; "later"]
     = (inr "What a lovely house", ["later"]).
Proof.
  pose proof comment_with_use_rejected as [R [_ [_ [_ G]]]].
  split.
  - apply R; vm_compute; reflexivity.
  - apply (G _ scripted "I like cats"
             {| name := "Charlie"; style := "Sarcastic" |} 1
             ["I agree because the data is clear"; "What a lovely house";
              "later"]
             "I agree because the data is clear"
             ["What a lovely house"; "later"]);
      vm_compute; reflexivity.
Defined.

(** ** The sanitizer on the example of the specification *)

(** C4, as amended: on "Sure! No hashtags. I love hiking in the mountains
    every weekend." the sanitizer removes "No hashtags." and the doubled
    space and keeps the rest: "Sure" matches no pattern, and the first
    sentence segment, "Sure", has 4 characters, so nothing is cut. *)
Theorem clean_content_example :
  clean_content
    "Sure! No hashtags. I love hiking in the mountains every weekend."
  = "Sure! I love hiking in the mountains every weekend.".
Proof. vm_compute; reflexivity. Qed.

(** C4 fails as written: the output is not the bare second sentence. *)
Lemma clean_content_example_keeps_sure :
  clean_content
    "Sure! No hashtags. I love hiking in the mountains every weekend."
  <> "I love hiking in the mountains every weekend.".
Proof. vm_compute; discriminate. Qed.

(** ** Storage *)

(** C9: what [add_post] and [add_comment] store is the first 750
    characters of the content: never longer than 750, and the content
    itself when that has at most 750 characters.  [add_comment] stores
    its row when the post id is below [2 ** 63]; on a larger one it
    raises OverflowError and nothing is stored. *)
Theorem stored_content_bounded :
  (forall db content author is_ai,
      exists row,
        Db.posts (snd (Db.add_post db content author is_ai))
        = (Db.posts db ++ [row])%list
        /\ Db.p_content row = Py.slice_to 750 content
        /\ String.length (Db.p_content row) <= 750
        /\ (String.length content <= 750 -> Db.p_content row = content))
  /\
  (forall db pid content author,
      (Db.fits_integer pid = true ->
       exists row db',
         Db.add_comment_call db pid content author = inr db'
         /\ Db.comments db' = (Db.comments db ++ [row])%list
         /\ Db.c_content row = Py.slice_to 750 content
         /\ String.length (Db.c_content row) <= 750
         /\ (String.length content <= 750 -> Db.c_content row = content))
      /\ (Db.fits_integer pid = false ->
          Db.add_comment_call db pid content author = inl OverflowError)).
Proof.
  split.
  - intros; eexists; (split; [reflexivity|]); cbn [Db.p_content];
      (split; [reflexivity|]); split.
    + unfold MAX_POST_LEN; rewrite PyFacts.slice_to_length; lia.
    + apply PyFacts.slice_to_all.
  - intros db pid content author; unfold Db.add_comment_call.
    split; intros F; rewrite F; [|reflexivity].
    do 2 eexists; split; [reflexivity|].
    split; [reflexivity|]; cbn [Db.c_content];
      (split; [reflexivity|]); split.
    + unfold MAX_COMMENT_LEN; rewrite PyFacts.slice_to_length; lia.
    + apply PyFacts.slice_to_all.
Qed.

(** A short post and a short comment are stored as they are; a comment
    for post [2 ** 63] is not stored. *)
Lemma stored_content_bounded_witness :
  (exists row,
      Db.posts (snd (Db.add_post Db.init_db "Hello world" "Anonymous" false))
      = (Db.posts Db.init_db ++ [row])%list
      /\ Db.p_content row = "Hello world")
  /\
  (exists row db',
      Db.add_comment_call Db.init_db 1 "Nice one" "You" = inr db'
      /\ Db.comments db' = (Db.comments Db.init_db ++ [row])%list
      /\ Db.c_content row = "Nice one")
  /\
  Db.add_comment_call Db.init_db (Z.to_nat (2 ^ 63)) "Nice one" "You"
  = inl OverflowError.
Proof.
  split; [|split].
  - destruct (proj1 stored_content_bounded Db.init_db "Hello world"
                    "Anonymous" false) as [row [E [_ [_ H]]]].
    exists row; split; [exact E | apply H; vm_compute; lia].
  - destruct (proj1 (proj2 stored_content_bounded Db.init_db 1 "Nice one"
                           "You") eq_refl)
      as [row [db' [C [E [_ [_ H]]]]]].
    exists row, db'; split; [exact C|].
    split; [exact E | apply H; vm_compute; lia].
  - apply (proj2 (proj2 stored_content_bounded Db.init_db
                        (Z.to_nat (2 ^ 63)) "Nice one" "You")).
    unfold Db.fits_integer.
    rewrite Z2Nat.id by (vm_compute; discriminate).
    reflexivity.
Defined.

(** ** Fan-out *)

Module DispatchFacts.

Import Dispatch.

Lemma submit_loop_spec (n_models pid : nat) (content : string) :
  n_models <> 0 ->
  forall items futures ex,
    submit_loop n_models pid content items futures ex
    = (inr (futures ++ seq (List.length (work_items ex))
                           (List.length items))%list,
       {| max_workers := max_workers ex;
          work_items := (work_items ex
                         ++ map (task_of n_models pid content) items)%list |}).
Proof.
  intros HR; induction items as [|[i p] rest IH]; intros futures ex.
  - cbn [submit_loop List.length seq map]; rewrite !app_nil_r.
    destruct ex; reflexivity.
  - cbn [submit_loop].
    destruct (Nat.eqb_spec n_models 0) as [E|_]; [contradiction|].
    unfold submit; rewrite IH; cbn [work_items max_workers].
    rewrite <- !app_assoc, length_app; cbn [List.length map app seq].
    rewrite Nat.add_1_r; reflexivity.
Qed.

Lemma enumerate_nth {A} (l : list A) (k i : nat) (x : A) :
  nth_error l i = Some x ->
  nth_error (combine (seq k (List.length l)) l) i = Some (k + i, x).
Proof.
  revert k i; induction l as [|y l IH]; intros k [|i]; simpl;
    try discriminate.
  - intros [= ->]; rewrite Nat.add_0_r; reflexivity.
  - intros H; rewrite (IH (S k) i H); f_equal; f_equal; lia.
Qed.

Lemma enumerate_length {A} (l : list A) :
  List.length (enumerate l) = List.length l.
Proof.
  unfold enumerate; rewrite length_combine, length_seq; lia.
Qed.

Lemma nth_error_seq_lt (start len i : nat) :
  i < len -> nth_error (seq start len) i = Some (start + i).
Proof.
  revert start i; induction len as [|len IH]; intros start [|i] H;
    cbn [seq nth_error]; try lia.
  - rewrite Nat.add_0_r; reflexivity.
  - rewrite IH by lia; f_equal; lia.
Qed.

Lemma skipn_app_exact {A} (l1 l2 : list A) :
  skipn (List.length l1) (l1 ++ l2) = l2.
Proof. induction l1; simpl; auto. Qed.

End DispatchFacts.

(** C2: with at least one model, [submit_post_comments] returns one future
    per persona and adds one task per persona to the executor, in persona
    order; the task of the persona at ordinal [i] carries the post and
    [device_id = i mod R], and the future at ordinal [i] is the one of
    that task.  With 4 personas and 2 models the device ids
    are 0, 1, 0, 1. *)
Theorem fan_out_round_robin :
  (forall self pid content,
      1 <= Dispatch.num_models self ->
      exists futures self',
        Dispatch.submit_post_comments self pid content = (inr futures, self')
        /\ List.length futures = List.length (Dispatch.personas self)
        /\ List.length (Dispatch.scheduled self self')
           = List.length (Dispatch.personas self)
        /\ (forall i p,
               nth_error (Dispatch.personas self) i = Some p ->
               nth_error (Dispatch.scheduled self self') i
               = Some {| Dispatch.post_id := pid;
                         Dispatch.post_content := content;
                         Dispatch.persona := p;
                         Dispatch.device_id :=
                           i mod Dispatch.num_models self |}
               /\ nth_error futures i
                  = Some (List.length
                            (Dispatch.work_items (Dispatch.executor self))
                          + i)))
  /\
  (forall ex p0 p1 p2 p3 pid content,
      let self := {| Dispatch.num_models := 2;
                     Dispatch.personas := [p0; p1; p2; p3];
                     Dispatch.executor := ex |} in
      map Dispatch.device_id
          (Dispatch.scheduled
             self (snd (Dispatch.submit_post_comments self pid content)))
      = [0; 1; 0; 1]).
Proof.
  split.
  - intros self pid content HR.
    unfold Dispatch.submit_post_comments.
    rewrite DispatchFacts.submit_loop_spec by lia.
    eexists; eexists; split; [reflexivity|].
    unfold Dispatch.scheduled;
      cbn [Dispatch.executor Dispatch.work_items app].
    rewrite DispatchFacts.skipn_app_exact, length_seq, length_map,
      DispatchFacts.enumerate_length.
    repeat split.
    + rewrite nth_error_map; unfold Dispatch.enumerate.
      rewrite (DispatchFacts.enumerate_nth _ 0 i p H); reflexivity.
    + cbn [app]; apply DispatchFacts.nth_error_seq_lt.
      rewrite ?DispatchFacts.enumerate_length.
      apply nth_error_Some; rewrite H; discriminate.
  - intros ex p0 p1 p2 p3 pid content self.
    unfold Dispatch.submit_post_comments.
    rewrite DispatchFacts.submit_loop_spec by (subst self; simpl; lia).
    unfold Dispatch.scheduled;
      cbn [snd Dispatch.executor Dispatch.work_items].
    subst self; cbn [Dispatch.executor Dispatch.personas Dispatch.num_models].
    rewrite DispatchFacts.skipn_app_exact; reflexivity.
Qed.

(** The four default personas on two models. *)
Lemma fan_out_round_robin_witness :
  exists futures self',
    Dispatch.submit_post_comments Dispatch.two_gpu_generator 7 "Hello"
    = (inr futures, self')
    /\ List.length futures = 4
    /\ map Dispatch.device_id
           (Dispatch.scheduled Dispatch.two_gpu_generator self')
       = [0; 1; 0; 1].
Proof.
  destruct (proj1 fan_out_round_robin Dispatch.two_gpu_generator 7 "Hello")
    as [futures [self' [E [L _]]]]; [simpl; lia|].
  exists futures, self'; split; [exact E|]; split; [exact L|].
  pose proof (proj2 fan_out_round_robin
                (Dispatch.initialize_executor 2)
                {| name := "Alex Tech";
                   style := "Technical expert, precise, uses jargon naturally" |}
                {| name := "Sam Casual";
                   style := "Friendly, uses emojis naturally, conversational" |}
                {| name := "Dr. Morgan";
                   style := "Academic tone, analytical, cites studies naturally" |}
                {| name := "Charlie";
                   style := "Sarcastic internet troll, uses slang, contrarian" |}
                7 "Hello") as H.
  cbv zeta in H.
  change {| Dispatch.num_models := 2; Dispatch.personas := _;
            Dispatch.executor := _ |} with Dispatch.two_gpu_generator in H.
  rewrite E in H; exact H.
Defined.

(** ** The retry loop *)

Module GenFacts.

Section Unfold.

Context {World : Type} (mm : DualModelManager World).

(** The two attempts of [generate_post_content], written out. *)
Lemma generate_post_content_eq (topic : string) (model_id : nat)
      (w : World) :
  generate_post_content mm topic model_id w
  = match generate mm (post_prompt topic) 400 (85 # 100) model_id w with
    | (inl e, w1) => (inl e, w1)
    | (inr raw1, w1) =>
        if post_accepted (clean_content raw1)
        then (inr (Py.slice_to MAX_POST_LEN (clean_content raw1)), w1)
        else
          match generate mm (post_prompt topic) 400 (85 # 100)
                         model_id w1 with
          | (inl e, w2) => (inl e, w2)
          | (inr raw2, w2) =>
              (inr (if post_accepted (clean_content raw2)
                    then Py.slice_to MAX_POST_LEN (clean_content raw2)
                    else if Py.truthy (clean_content raw2)
                         then Py.slice_to MAX_POST_LEN (clean_content raw2)
                         else post_fallback topic), w2)
          end
    end.
Proof.
  unfold generate_post_content; cbn [seq post_attempts]; unfold bind, ret.
  destruct (generate mm _ 400 _ model_id w) as [[e|raw1] w1];
    [reflexivity|].
  cbv zeta; destruct (post_accepted (clean_content raw1)); [reflexivity|].
  destruct (generate mm _ 400 _ model_id w1) as [[e|raw2] w2];
    [reflexivity|].
  destruct (post_accepted (clean_content raw2)); reflexivity.
Qed.

(** The two attempts of [generate_comment_content], written out. *)
Lemma generate_comment_content_eq (post : string) (persona : Persona)
      (model_id : nat) (w : World) :
  generate_comment_content mm post persona model_id w
  = match generate mm (comment_prompt post persona) 200 (9 # 10)
                   model_id w with
    | (inl e, w1) => (inl e, w1)
    | (inr raw1, w1) =>
        if comment_accepted (clean_content raw1)
        then (inr (Py.slice_to MAX_COMMENT_LEN (clean_content raw1)), w1)
        else
          match generate mm (comment_prompt post persona) 200 (9 # 10)
                         model_id w1 with
          | (inl e, w2) => (inl e, w2)
          | (inr raw2, w2) =>
              (inr (if comment_accepted (clean_content raw2)
                    then Py.slice_to MAX_COMMENT_LEN (clean_content raw2)
                    else if Py.truthy (clean_content raw2)
                         then Py.slice_to MAX_COMMENT_LEN
                                          (clean_content raw2)
                         else comment_fallback), w2)
          end
    end.
Proof.
  unfold generate_comment_content; cbn [seq comment_attempts];
    unfold bind, ret.
  destruct (generate mm _ 200 _ model_id w) as [[e|raw1] w1];
    [reflexivity|].
  cbv zeta; destruct (comment_accepted (clean_content raw1));
    [reflexivity|].
  destruct (generate mm _ 200 _ model_id w1) as [[e|raw2] w2];
    [reflexivity|].
  destruct (comment_accepted (clean_content raw2)); reflexivity.
Qed.

(** A model that answers every call makes [generate] answer. *)
Lemma generate_answers :
  (forall model_id prompt max_tokens temperature w,
      exists raw w',
        infer mm model_id prompt max_tokens temperature w = (inr raw, w')) ->
  forall prompt max_tokens temperature model_id w,
    model_id < models mm ->
    exists raw w',
      generate mm prompt max_tokens temperature model_id w = (inr raw, w').
Proof.
  intros H prompt max_tokens temperature model_id w Hid; unfold generate.
  destruct (Nat.ltb_spec model_id (models mm)); [apply H | lia].
Qed.

End Unfold.

Lemma post_accepted_truthy (c : string) :
  post_accepted c = true -> Py.truthy c = true.
Proof.
  unfold post_accepted; rewrite !andb_true_iff; tauto.
Qed.

Lemma comment_accepted_truthy (c : string) :
  comment_accepted c = true -> Py.truthy c = true.
Proof.
  unfold comment_accepted; rewrite !andb_true_iff; tauto.
Qed.

Lemma slice_750_nonempty (c : string) :
  Py.truthy c = true -> Py.slice_to 750 c <> EmptyString.
Proof. destruct c; simpl; [discriminate|discriminate]. Qed.

Lemma post_fallback_nonempty (topic : string) :
  post_fallback topic <> EmptyString.
Proof. unfold post_fallback; simpl; discriminate. Qed.

End GenFacts.

(** C1, as amended: while the compute calls answer, [generate_post_content]
    and [generate_comment_content] return a non-empty text and do not
    raise; when both attempts are rejected they return the second cleaned
    text cut to 750 characters if it is not empty, and else the fixed
    fallback text.  An error raised by a compute call, the first or,
    after a rejected first attempt, the second, is not caught in these
    functions: the caller receives it. *)
Theorem generation_fallback :
  forall World (mm : DualModelManager World),
    (* every compute call answers *)
    ((forall model_id prompt max_tokens temperature w,
         exists raw w',
           infer mm model_id prompt max_tokens temperature w = (inr raw, w')) ->
     forall model_id w,
       model_id < models mm ->
       (forall topic, exists text w',
           generate_post_content mm topic model_id w = (inr text, w')
           /\ text <> EmptyString)
       /\
       (forall post persona, exists text w',
           generate_comment_content mm post persona model_id w = (inr text, w')
           /\ text <> EmptyString))
    /\
    (* both attempts rejected *)
    (forall topic model_id w raw1 w1 raw2 w2,
        generate mm (post_prompt topic) 400 (85 # 100) model_id w
        = (inr raw1, w1) ->
        post_accepted (clean_content raw1) = false ->
        generate mm (post_prompt topic) 400 (85 # 100) model_id w1
        = (inr raw2, w2) ->
        post_accepted (clean_content raw2) = false ->
        generate_post_content mm topic model_id w
        = (inr (if Py.truthy (clean_content raw2)
                then Py.slice_to 750 (clean_content raw2)
                else "I've been thinking about " ++ topic ++ " lately..."),
           w2))
    /\
    (forall post persona model_id w raw1 w1 raw2 w2,
        generate mm (comment_prompt post persona) 200 (9 # 10) model_id w
        = (inr raw1, w1) ->
        comment_accepted (clean_content raw1) = false ->
        generate mm (comment_prompt post persona) 200 (9 # 10) model_id w1
        = (inr raw2, w2) ->
        comment_accepted (clean_content raw2) = false ->
        generate_comment_content mm post persona model_id w
        = (inr (if Py.truthy (clean_content raw2)
                then Py.slice_to 750 (clean_content raw2)
                else "Interesting post!"),
           w2))
    /\
    (* a compute call raises *)
    (forall topic model_id w e w1,
        generate mm (post_prompt topic) 400 (85 # 100) model_id w
        = (inl e, w1) ->
        generate_post_content mm topic model_id w = (inl e, w1))
    /\
    (forall post persona model_id w e w1,
        generate mm (comment_prompt post persona) 200 (9 # 10) model_id w
        = (inl e, w1) ->
        generate_comment_content mm post persona model_id w = (inl e, w1))
    /\
    (* the second compute call raises, after a rejected first attempt *)
    (forall topic model_id w raw1 w1 e w2,
        generate mm (post_prompt topic) 400 (85 # 100) model_id w
        = (inr raw1, w1) ->
        post_accepted (clean_content raw1) = false ->
        generate mm (post_prompt topic) 400 (85 # 100) model_id w1
        = (inl e, w2) ->
        generate_post_content mm topic model_id w = (inl e, w2))
    /\
    (forall post persona model_id w raw1 w1 e w2,
        generate mm (comment_prompt post persona) 200 (9 # 10) model_id w
        = (inr raw1, w1) ->
        comment_accepted (clean_content raw1) = false ->
        generate mm (comment_prompt post persona) 200 (9 # 10) model_id w1
        = (inl e, w2) ->
        generate_comment_content mm post persona model_id w = (inl e, w2)).
Proof.
  intros World mm.
  split; [intros H model_id w H0; split | repeat split].
  - intros topic.
    rewrite GenFacts.generate_post_content_eq.
    destruct (GenFacts.generate_answers mm H (post_prompt topic) 400
                (85 # 100) model_id w H0) as [raw1 [w1 ->]].
    destruct (post_accepted (clean_content raw1)) eqn:A1.
    + eexists; eexists; split; [reflexivity|].
      apply GenFacts.slice_750_nonempty, GenFacts.post_accepted_truthy, A1.
    + destruct (GenFacts.generate_answers mm H (post_prompt topic) 400
                  (85 # 100) model_id w1 H0) as [raw2 [w2 ->]].
      eexists; eexists; split; [reflexivity|].
      destruct (post_accepted (clean_content raw2)) eqn:A2.
      * apply GenFacts.slice_750_nonempty, GenFacts.post_accepted_truthy, A2.
      * destruct (Py.truthy (clean_content raw2)) eqn:T2.
        -- apply GenFacts.slice_750_nonempty, T2.
        -- apply GenFacts.post_fallback_nonempty.
  - intros post persona.
    rewrite GenFacts.generate_comment_content_eq.
    destruct (GenFacts.generate_answers mm H (comment_prompt post persona)
                200 (9 # 10) model_id w H0) as [raw1 [w1 ->]].
    destruct (comment_accepted (clean_content raw1)) eqn:A1.
    + eexists; eexists; split; [reflexivity|].
      apply GenFacts.slice_750_nonempty, GenFacts.comment_accepted_truthy, A1.
    + destruct (GenFacts.generate_answers mm H (comment_prompt post persona)
                  200 (9 # 10) model_id w1 H0) as [raw2 [w2 ->]].
      eexists; eexists; split; [reflexivity|].
      destruct (comment_accepted (clean_content raw2)) eqn:A2.
      * apply GenFacts.slice_750_nonempty, GenFacts.comment_accepted_truthy,
          A2.
      * destruct (Py.truthy (clean_content raw2)) eqn:T2.
        -- apply GenFacts.slice_750_nonempty, T2.
        -- discriminate.
  - intros topic model_id w raw1 w1 raw2 w2 G1 A1 G2 A2.
    rewrite GenFacts.generate_post_content_eq, G1, A1, G2, A2; reflexivity.
  - intros post persona model_id w raw1 w1 raw2 w2 G1 A1 G2 A2.
    rewrite GenFacts.generate_comment_content_eq, G1, A1, G2, A2; reflexivity.
  - intros topic model_id w e w1 G1.
    rewrite GenFacts.generate_post_content_eq, G1; reflexivity.
  - intros post persona model_id w e w1 G1.
    rewrite GenFacts.generate_comment_content_eq, G1; reflexivity.
  - intros topic model_id w raw1 w1 e w2 G1 A1 G2.
    rewrite GenFacts.generate_post_content_eq, G1, A1, G2; reflexivity.
  - intros post persona model_id w raw1 w1 e w2 G1 A1 G2.
    rewrite GenFacts.generate_comment_content_eq, G1, A1, G2; reflexivity.
Qed.

(** A model that always says "ok": both functions end on the cleaned
    second answer; a model that says nothing usable: the fallback texts;
    a model that raises: the error comes out, at the first call and at
    the second. *)
Lemma generation_fallback_witness :
  (exists text w',
      generate_post_content (canned "ok") "cats" 0 0 = (inr text, w')
      /\ text <> EmptyString)
  /\ (exists text w',
         generate_comment_content (canned "ok") "I like cats"
           {| name := "Charlie"; style := "Sarcastic" |} 1 0 = (inr text, w')
         /\ text <> EmptyString)
  /\ generate_post_content scripted "cats" 0 ["  "; " "; "later"]
     = (inr "I've been thinking about cats lately...", ["later"])
  /\ generate_comment_content scripted "I like cats"
       {| name := "Charlie"; style := "Sarcastic" |} 1 ["So true"; ""]
     = (inr "Interesting post!", [])
  /\ generate_post_content always_raising "cats" 0 tt
     = (inl (ModelError "CUDA out of memory"), tt)
  /\ generate_comment_content always_raising "I like cats"
       {| name := "Charlie"; style := "Sarcastic" |} 1 tt
     = (inl (ModelError "CUDA out of memory"), tt)
  /\ generate_post_content scripted "cats" 0 ["Too short"]
     = (inl (ModelError "no output"), [])
  /\ generate_comment_content scripted "I like cats"
       {| name := "Charlie"; style := "Sarcastic" |} 1 ["Meh"]
     = (inl (ModelError "no output"), []).
Proof.
  assert (T : forall model_id prompt max_tokens temperature w,
             exists raw w',
               infer (canned "ok") model_id prompt max_tokens temperature w
               = (inr raw, w')).
  { intros; eexists; eexists; reflexivity. }
  split.
  { exact (proj1 (proj1 (generation_fallback nat (canned "ok")) T 0 0
                        (Nat.lt_0_succ 1)) "cats"). }
  split.
  { refine (proj2 (proj1 (generation_fallback nat (canned "ok")) T 1 0 _)
                  "I like cats" {| name := "Charlie"; style := "Sarcastic" |}).
    unfold canned; cbn [models]; lia. }
  split.
  { apply (proj1 (proj2 (generation_fallback _ scripted)) "cats" 0
                 ["  "; " "; "later"] "  " [" "; "later"] " " ["later"]);
      vm_compute; reflexivity. }
  split.
  { apply (proj1 (proj2 (proj2 (generation_fallback _ scripted)))
                 "I like cats" {| name := "Charlie"; style := "Sarcastic" |}
                 1 ["So true"; ""] "So true" [""] "" []);
      vm_compute; reflexivity. }
  split.
  { apply (proj1 (proj2 (proj2 (proj2 (generation_fallback _ always_raising))))
                 "cats" 0 tt); reflexivity. }
  split.
  { apply (proj1 (proj2 (proj2 (proj2 (proj2
                   (generation_fallback _ always_raising)))))
                 "I like cats" {| name := "Charlie"; style := "Sarcastic" |}
                 1 tt); reflexivity. }
  split.
  { apply (proj1 (proj2 (proj2 (proj2 (proj2 (proj2
                   (generation_fallback _ scripted))))))
                 "cats" 0 ["Too short"] "Too short" []
                 (ModelError "no output") []);
      vm_compute; reflexivity. }
  { apply (proj2 (proj2 (proj2 (proj2 (proj2 (proj2
                   (generation_fallback _ scripted))))))
                 "I like cats" {| name := "Charlie"; style := "Sarcastic" |}
                 1 ["Meh"] "Meh" [] (ModelError "no output") []);
      vm_compute; reflexivity. }
Defined.

(** C1 fails as written: when every compute call raises, both functions
    raise. *)
Lemma generation_raises_with_the_model :
  generate_post_content always_raising "cats" 0 tt
  = (inl (ModelError "CUDA out of memory"), tt)
  /\
  generate_comment_content always_raising "I like cats"
    {| name := "Charlie"; style := "Sarcastic" |} 1 tt
  = (inl (ModelError "CUDA out of memory"), tt).
Proof. split; vm_compute; reflexivity. Qed.

(** C8: an attempt whose cleaned text passes the test ends the call with
    the first 750 characters of that cleaned text, which is the whole
    text when it has at most 750 characters.  The test reads the whole
    cleaned text: a marker behind character 750 rejects the attempt
    although the first 750 characters alone would pass. *)
Theorem truncation_after_acceptance :
  (forall World (mm : DualModelManager World) topic model_id w raw1 w1,
      generate mm (post_prompt topic) 400 (85 # 100) model_id w
      = (inr raw1, w1) ->
      post_accepted (clean_content raw1) = true ->
      generate_post_content mm topic model_id w
      = (inr (Py.slice_to 750 (clean_content raw1)), w1))
  /\
  (forall World (mm : DualModelManager World) topic model_id w raw1 w1
          raw2 w2,
      generate mm (post_prompt topic) 400 (85 # 100) model_id w
      = (inr raw1, w1) ->
      post_accepted (clean_content raw1) = false ->
      generate mm (post_prompt topic) 400 (85 # 100) model_id w1
      = (inr raw2, w2) ->
      post_accepted (clean_content raw2) = true ->
      generate_post_content mm topic model_id w
      = (inr (Py.slice_to 750 (clean_content raw2)), w2))
  /\
  (forall World (mm : DualModelManager World) post persona model_id w
          raw1 w1,
      generate mm (comment_prompt post persona) 200 (9 # 10) model_id w
      = (inr raw1, w1) ->
      comment_accepted (clean_content raw1) = true ->
      generate_comment_content mm post persona model_id w
      = (inr (Py.slice_to 750 (clean_content raw1)), w1))
  /\
  (forall World (mm : DualModelManager World) post persona model_id w
          raw1 w1 raw2 w2,
      generate mm (comment_prompt post persona) 200 (9 # 10) model_id w
      = (inr raw1, w1) ->
      comment_accepted (clean_content raw1) = false ->
      generate mm (comment_prompt post persona) 200 (9 # 10) model_id w1
      = (inr raw2, w2) ->
      comment_accepted (clean_content raw2) = true ->
      generate_comment_content mm post persona model_id w
      = (inr (Py.slice_to 750 (clean_content raw2)), w2))
  /\
  (forall cleaned,
      String.length cleaned <= 750 -> Py.slice_to 750 cleaned = cleaned)
  /\
  (forall cleaned,
      String.length (Py.slice_to 750 cleaned)
      = Nat.min 750 (String.length cleaned))
  /\
  (let raw := Py.times "a" 760 ++ " include this" in
   post_accepted (Py.slice_to 750 (clean_content raw)) = true
   /\ post_accepted (clean_content raw) = false
   /\ generate_post_content scripted "cats" 0
        [raw; "I love hiking in the mountains every weekend."]
      = (inr "I love hiking in the mountains every weekend.", [])).
Proof.
  split; [|split; [|split; [|split; [|split; [|split]]]]].
  - intros World mm topic model_id w raw1 w1 G1 A1.
    rewrite GenFacts.generate_post_content_eq, G1, A1; reflexivity.
  - intros World mm topic model_id w raw1 w1 raw2 w2 G1 A1 G2 A2.
    rewrite GenFacts.generate_post_content_eq, G1, A1, G2, A2; reflexivity.
  - intros World mm post persona model_id w raw1 w1 G1 A1.
    rewrite GenFacts.generate_comment_content_eq, G1, A1; reflexivity.
  - intros World mm post persona model_id w raw1 w1 raw2 w2 G1 A1 G2 A2.
    rewrite GenFacts.generate_comment_content_eq, G1, A1, G2, A2; reflexivity.
  - intros cleaned; apply PyFacts.slice_to_all.
  - intros cleaned; apply PyFacts.slice_to_length.
  - vm_compute; repeat split.
Qed.

(** An accepted first answer, an accepted second answer. *)
Lemma truncation_after_acceptance_witness :
  generate_post_content scripted "cats" 0
    ["I love hiking in the mountains every weekend."]
  = (inr "I love hiking in the mountains every weekend.", [])
  /\ generate_post_content scripted "cats" 0
       ["Too short"; "I love hiking in the mountains every weekend."]
     = (inr "I love hiking in the mountains every weekend.", [])
  /\ generate_comment_content scripted "I like cats"
       {| name := "Charlie"; style := "Sarcastic" |} 1
       ["Cats are the best, no doubt"; "later"]
     = (inr "Cats are the best, no doubt.", ["later"])
  /\ generate_comment_content scripted "I like cats"
       {| name := "Charlie"; style := "Sarcastic" |} 1
       ["Meh"; "Cats are the best, no doubt"]
     = (inr "Cats are the best, no doubt.", [])
  /\ Py.slice_to 750 "Cats are the best, no doubt."
     = "Cats are the best, no doubt.".
Proof.
  pose proof truncation_after_acceptance as [P1 [P2 [C1 [C2 [S _]]]]].
  split.
  { apply (P1 _ scripted "cats" 0
              ["I love hiking in the mountains every weekend."]
              "I love hiking in the mountains every weekend." []);
      vm_compute; reflexivity. }
  split.
  { apply (P2 _ scripted "cats" 0
              ["Too short"; "I love hiking in the mountains every weekend."]
              "Too short" ["I love hiking in the mountains every weekend."]
              "I love hiking in the mountains every weekend." []);
      vm_compute; reflexivity. }
  split.
  { apply (C1 _ scripted "I like cats"
              {| name := "Charlie"; style := "Sarcastic" |} 1
              ["Cats are the best, no doubt"; "later"]
              "Cats are the best, no doubt" ["later"]);
      vm_compute; reflexivity. }
  split.
  { apply (C2 _ scripted "I like cats"
              {| name := "Charlie"; style := "Sarcastic" |} 1
              ["Meh"; "Cats are the best, no doubt"]
              "Meh" ["Cats are the best, no doubt"]
              "Cats are the best, no doubt" []);
      vm_compute; reflexivity. }
  { apply S; vm_compute; lia. }
Defined.

(** ** One call at a time per model *)

Module LockingFacts.

Import Locking.

Lemma nth_upd_same {A} (l : list A) (i : nat) (x d : A) :
  i < List.length l -> nth i (upd l i x) d = x.
Proof.
  revert i; induction l as [|y l IH]; intros [|i]; simpl; intros H;
    try lia; auto.
  apply IH; lia.
Qed.

Lemma nth_upd_other {A} (l : list A) (i j : nat) (x d : A) :
  i <> j -> nth j (upd l i x) d = nth j l d.
Proof.
  revert i j; induction l as [|y l IH]; intros [|i] [|j]; simpl; intros H;
    try reflexivity; try lia.
  apply IH; lia.
Qed.

Lemma nth_error_upd_other {A} (l : list A) (i j : nat) (x : A) :
  i <> j -> nth_error (upd l i x) j = nth_error l j.
Proof.
  revert i j; induction l as [|y l IH]; intros [|i] [|j]; simpl; intros H;
    try reflexivity; try lia.
  apply IH; lia.
Qed.

Lemma count_cons (y x : pc) (l : list pc) :
  count_occ pc_eq_dec (y :: l) x
  = one_if (same y x) + count_occ pc_eq_dec l x.
Proof.
  unfold same; simpl; destruct (pc_eq_dec y x); reflexivity.
Qed.

(** Replacing the entry of one thread moves one unit of the count. *)
Lemma count_upd (l : list pc) (t : nat) (old new x : pc) :
  nth_error l t = Some old ->
  count_occ pc_eq_dec (upd l t new) x + one_if (same old x)
  = count_occ pc_eq_dec l x + one_if (same new x).
Proof.
  revert t; induction l as [|y l IH]; intros [|t]; cbn [nth_error upd];
    try discriminate.
  - intros [= ->]; rewrite !count_cons; lia.
  - intros H; rewrite !count_cons; specialize (IH t H); lia.
Qed.

Lemma count_here (l : list pc) (t : nat) (x : pc) :
  nth_error l t = Some x -> 1 <= count_occ pc_eq_dec l x.
Proof.
  intros H; apply nth_error_In in H.
  apply (count_occ_In pc_eq_dec) in H; lia.
Qed.

Lemma same_InModel (m m' : nat) :
  same (InModel m) (InModel m') = (m =? m').
Proof.
  unfold same; destruct (pc_eq_dec _ _) as [E|E];
    destruct (Nat.eqb_spec m m'); congruence.
Qed.

Lemma count_idle (k m : nat) :
  count_occ pc_eq_dec (repeat Idle k) (InModel m) = 0.
Proof.
  induction k as [|k IH]; [reflexivity|].
  cbn [repeat]; rewrite count_cons, IH; reflexivity.
Qed.

Lemma nth_repeat_false (n m : nat) : nth m (repeat false n) false = false.
Proof.
  revert m; induction n as [|n IH]; intros [|m]; simpl; auto.
Qed.

Lemma lock_counts_init (n_models n_threads : nat) :
  lock_counts (init n_models n_threads).
Proof.
  intros m; unfold in_flight, init; cbn [threads locks].
  rewrite nth_repeat_false, count_idle; reflexivity.
Qed.

Lemma lock_counts_release (st : state) (t m : nat) :
  lock_counts st ->
  nth_error (threads st) t = Some (InModel m) ->
  lock_counts {| locks := upd (locks st) m false;
                 threads := upd (threads st) t Idle |}.
Proof.
  intros I Ht m'; unfold in_flight; cbn [threads locks].
  pose proof (count_upd _ t _ Idle (InModel m') Ht) as C.
  pose proof (count_here _ _ _ Ht) as P.
  pose proof (I m) as Im; pose proof (I m') as Im'; unfold in_flight in *.
  change (same Idle (InModel m')) with false in C.
  rewrite same_InModel in C.
  destruct (Nat.eqb_spec m m') as [E|N].
  - subst m'.
    destruct (nth m (locks st) false) eqn:L; cbn [one_if] in *; [|lia].
    rewrite nth_upd_same; [cbn [one_if] in *; lia|].
    destruct (Nat.lt_ge_cases m (List.length (locks st))); [assumption|].
    rewrite nth_overflow in L by assumption; discriminate.
  - rewrite nth_upd_other by assumption; cbn [one_if] in *; lia.
Qed.

Lemma lock_counts_step (st st' : state) :
  lock_counts st -> step st st' -> lock_counts st'.
Proof.
  intros I S; destruct S as [st t m Ht Hm|st t m Ht Hl|st t m Ht|st t m Ht].
  - intros m'; unfold in_flight; cbn [threads locks].
    pose proof (count_upd _ t _ (Waiting m) (InModel m') Ht) as C.
    change (same Idle (InModel m')) with false in C.
    change (same (Waiting m) (InModel m')) with false in C.
    specialize (I m'); unfold in_flight in I; cbn [one_if] in C; lia.
  - intros m'; unfold in_flight; cbn [threads locks].
    pose proof (count_upd _ t _ (InModel m) (InModel m') Ht) as C.
    change (same (Waiting m) (InModel m')) with false in C.
    rewrite same_InModel in C.
    pose proof (I m') as Im'; unfold in_flight in Im'.
    destruct (Nat.eqb_spec m m') as [E|N].
    + subst m'.
      rewrite nth_upd_same
        by (apply nth_error_Some; rewrite Hl; discriminate).
      rewrite (nth_error_nth _ _ false Hl) in Im'.
      cbn [one_if] in *; lia.
    + rewrite nth_upd_other by assumption; cbn [one_if] in *; lia.
  - apply lock_counts_release; assumption.
  - apply lock_counts_release; assumption.
Qed.

Lemma lock_counts_reachable (n_models n_threads : nat) (st : state) :
  reachable n_models n_threads st -> lock_counts st.
Proof.
  induction 1 as [|st st' _ IH S];
    [apply lock_counts_init | exact (lock_counts_step _ _ IH S)].
Qed.

Lemma nth_error_repeat_lt {A} (x : A) (n i : nat) :
  i < n -> nth_error (repeat x n) i = Some x.
Proof.
  revert i; induction n as [|n IH]; intros [|i] H; simpl; try lia; auto.
  apply IH; lia.
Qed.

End LockingFacts.

(** C3: in every state the worker threads can reach, at most one thread
    is inside the [with lock:] block of a model, so [model.generate] of
    one model is never entered by two threads at once; two threads can be
    inside the blocks of two different models at the same time. *)
Theorem one_call_in_flight_per_model :
  (forall n_models n_threads st,
      Locking.reachable n_models n_threads st ->
      forall m, Locking.in_flight m st <= 1)
  /\
  (forall n_models n_threads m1 m2,
      m1 < n_models -> m2 < n_models -> m1 <> m2 -> 2 <= n_threads ->
      exists st,
        Locking.reachable n_models n_threads st
        /\ Locking.in_flight m1 st = 1 /\ Locking.in_flight m2 st = 1).
Proof.
  split.
  - intros n_models n_threads st R m.
    rewrite (LockingFacts.lock_counts_reachable _ _ _ R m).
    destruct (nth m (Locking.locks st) false); simpl; lia.
  - intros n_models n_threads m1 m2 H1 H2 N HT.
    destruct n_threads as [|[|k]]; try lia.
    pose (l0 := repeat false n_models).
    pose (l1 := Locking.upd l0 m1 true).
    pose (l2 := Locking.upd l1 m2 true).
    pose (s1 := {| Locking.locks := l0;
                   Locking.threads :=
                     Locking.Waiting m1 :: Locking.Idle
                       :: repeat Locking.Idle k |}).
    pose (s2 := {| Locking.locks := l0;
                   Locking.threads :=
                     Locking.Waiting m1 :: Locking.Waiting m2
                       :: repeat Locking.Idle k |}).
    pose (s3 := {| Locking.locks := l1;
                   Locking.threads :=
                     Locking.InModel m1 :: Locking.Waiting m2
                       :: repeat Locking.Idle k |}).
    pose (s4 := {| Locking.locks := l2;
                   Locking.threads :=
                     Locking.InModel m1 :: Locking.InModel m2
                       :: repeat Locking.Idle k |}).
    assert (L0 : List.length l0 = n_models) by apply repeat_length.
    assert (R1 : Locking.reachable n_models (S (S k)) s1).
    { eapply Locking.reach_step; [apply Locking.reach_init|].
      apply (Locking.step_call (Locking.init n_models (S (S k))) 0 m1);
        [reflexivity | cbn [Locking.init Locking.locks]; fold l0; lia]. }
    assert (R2 : Locking.reachable n_models (S (S k)) s2).
    { eapply Locking.reach_step; [exact R1|].
      apply (Locking.step_call s1 1 m2);
        [reflexivity | cbn [s1 Locking.locks]; lia]. }
    assert (R3 : Locking.reachable n_models (S (S k)) s3).
    { eapply Locking.reach_step; [exact R2|].
      apply (Locking.step_acquire s2 0 m1); [reflexivity|].
      apply LockingFacts.nth_error_repeat_lt; assumption. }
    assert (R4 : Locking.reachable n_models (S (S k)) s4).
    { eapply Locking.reach_step; [exact R3|].
      apply (Locking.step_acquire s3 1 m2); [reflexivity|].
      cbn [s3 Locking.locks]; unfold l1.
      rewrite LockingFacts.nth_error_upd_other by assumption.
      apply LockingFacts.nth_error_repeat_lt; assumption. }
    exists s4; split; [exact R4|].
    unfold Locking.in_flight; cbn [s4 Locking.threads].
    rewrite !LockingFacts.count_cons, !LockingFacts.count_idle,
      !LockingFacts.same_InModel, !Nat.eqb_refl.
    destruct (Nat.eqb_spec m1 m2); [contradiction|].
    destruct (Nat.eqb_spec m2 m1); [congruence|].
    split; reflexivity.
Qed.

(** Two models and two workers: both models can be busy at once, and in
    that state each has one call in flight. *)
Lemma one_call_in_flight_per_model_witness :
  exists st,
    Locking.reachable 2 2 st
    /\ Locking.in_flight 0 st = 1 /\ Locking.in_flight 1 st = 1
    /\ Locking.in_flight 0 st <= 1.
Proof.
  destruct (proj2 one_call_in_flight_per_model 2 2 0 1)
    as [st [R [A B]]]; try lia.
  exists st; repeat split; try assumption.
  exact (proj1 one_call_in_flight_per_model 2 2 st R 0).
Defined.

(** ** The sanitizer *)

Module CleanFacts.

Import Py.

(** *** Substitution and search *)

Lemma sub_no_match (ic : bool) (r : regex) (repl s : string) :
  search ic r s = false -> sub ic r repl s = s.
Proof.
  unfold sub; induction s as [|c s IH]; cbn [search sub_from].
  - destruct (match_len ic r EmptyString); [discriminate|reflexivity].
  - destruct (match_len ic r (String c s)); [discriminate|].
    intros H; rewrite (IH H); reflexivity.
Qed.

Lemma fold_sub_no_match (ps : list regex) (s : string) :
  existsb (fun p => search true p s) ps = false ->
  fold_left (fun t p => sub true p EmptyString t) ps s = s.
Proof.
  induction ps as [|p ps IH]; cbn [existsb fold_left]; [reflexivity|].
  rewrite orb_false_iff; intros [H1 H2].
  rewrite (sub_no_match _ _ _ _ H1); exact (IH H2).
Qed.

Lemma no_artifact_fixed (s : string) :
  has_artifact s = false ->
  remove_bracketed (remove_patterns s) = s.
Proof.
  unfold has_artifact; rewrite !orb_false_iff; intros [[H1 H2] H3].
  unfold remove_patterns, remove_bracketed.
  rewrite (fold_sub_no_match _ _ H1), (sub_no_match _ _ _ _ H2).
  apply sub_no_match; exact H3.
Qed.

(** *** One or more characters of a class, greedy *)

Lemma drop_while_length (p : ascii -> bool) (s : string) :
  String.length (drop_while p s) <= String.length s.
Proof.
  induction s as [|c s IH]; cbn [drop_while]; [lia|].
  destruct (p c); simpl; lia.
Qed.

Lemma rep_greedy_star (p : ascii -> bool) (s : string) :
  rep_greedy p 0 None s Some = Some (drop_while p s).
Proof.
  induction s as [|c s IH]; cbn [rep_greedy exhausted drop_while Nat.eqb];
    [reflexivity|].
  destruct (p c); [|reflexivity].
  cbn [pred dec_hi option_map]; rewrite IH; reflexivity.
Qed.

Lemma match_len_plus (ic : bool) (a : atom) (s : string) :
  match_len ic (plus a) s
  = match s with
    | String c s' =>
        if atom_matches ic a c
        then Some (S (String.length s'
                      - String.length (drop_while (atom_matches ic a) s')))
        else None
    | EmptyString => None
    end.
Proof.
  unfold match_len, plus; cbn [run].
  destruct s as [|c s]; cbn [rep_greedy exhausted Nat.eqb];
    [reflexivity|].
  destruct (atom_matches ic a c); [|reflexivity].
  cbn [pred dec_hi option_map]; rewrite rep_greedy_star.
  cbn [orelse option_map String.length].
  pose proof (drop_while_length (atom_matches ic a) s).
  f_equal; lia.
Qed.

(** *** [re.sub(r'\s+', ' ', text)] *)

Lemma drop_while_isspace (s : string) : drop_while isspace s = lstrip s.
Proof.
  induction s as [|c s IH]; cbn [drop_while lstrip]; [reflexivity|].
  destruct (isspace c); auto.
Qed.

Lemma lstrip_length (s : string) :
  String.length (lstrip s) <= String.length s.
Proof. rewrite <- drop_while_isspace; apply drop_while_length. Qed.

Lemma match_len_whitespace (s : string) :
  match_len false WHITESPACE s
  = match s with
    | String c s' =>
        if isspace c
        then Some (S (String.length s' - String.length (lstrip s')))
        else None
    | EmptyString => None
    end.
Proof.
  unfold WHITESPACE; rewrite match_len_plus.
  destruct s as [|c s]; [reflexivity|].
  change (atom_matches false Space) with isspace.
  rewrite drop_while_isspace; reflexivity.
Qed.

Lemma sub_whitespace_from (s : string) :
  sub_from false WHITESPACE " " s 0 = squeeze s false
  /\ sub_from false WHITESPACE " " s
              (String.length s - String.length (lstrip s))
     = squeeze s true.
Proof.
  induction s as [|c s [IH0 IH1]].
  - cbn [String.length lstrip Nat.sub sub_from squeeze].
    rewrite match_len_whitespace; split; reflexivity.
  - assert (H0 : sub_from false WHITESPACE " " (String c s) 0
                 = squeeze (String c s) false).
    { cbn [sub_from]; rewrite match_len_whitespace.
      cbn [squeeze]; destruct (isspace c).
      - rewrite IH1; reflexivity.
      - rewrite IH0; reflexivity. }
    split; [exact H0|].
    cbn [lstrip]; destruct (isspace c) eqn:E.
    + pose proof (lstrip_length s) as L.
      replace (String.length (String c s) - String.length (lstrip s))
        with (S (String.length s - String.length (lstrip s)))
        by (cbn [String.length]; lia).
      cbn [sub_from squeeze]; rewrite E; exact IH1.
    + rewrite Nat.sub_diag, H0; cbn [squeeze]; rewrite E; reflexivity.
Qed.

Lemma sub_whitespace (s : string) :
  sub false WHITESPACE " " s = squeeze s false.
Proof. apply sub_whitespace_from. Qed.

(** *** Collapsed text is neat, and neat text is left alone *)

Lemma space_isspace : isspace " " = true.
Proof. reflexivity. Qed.

Lemma sparse_squeeze (u : string) (b : bool) :
  sparse b (squeeze u b) = true.
Proof.
  revert b; induction u as [|c u IH]; intros b; cbn [squeeze];
    [reflexivity|].
  destruct (isspace c) eqn:E.
  - destruct b; [apply IH|].
    cbn [sparse]; rewrite space_isspace, IH; reflexivity.
  - cbn [sparse]; rewrite E; apply IH.
Qed.

Lemma sparse_lstrip (v : string) (sp : bool) :
  sparse sp v = true -> sparse true (lstrip v) = true.
Proof.
  revert sp; induction v as [|c v IH]; intros sp; cbn [sparse lstrip];
    [reflexivity|].
  destruct (isspace c) eqn:E.
  - rewrite !andb_true_iff; intros [_ H]; exact (IH _ H).
  - intros H; cbn [sparse]; rewrite E; exact H.
Qed.

Lemma neat_rstrip (w : string) (sp : bool) :
  sparse sp w = true -> neat_after sp (rstrip w) = true.
Proof.
  revert sp; induction w as [|c w IH]; intros sp; cbn [sparse rstrip];
    [reflexivity|].
  destruct (isspace c) eqn:E.
  - rewrite !andb_true_iff; intros [[Hc Hsp] H].
    specialize (IH _ H); destruct (rstrip w) as [|d r]; [reflexivity|].
    remember (String d r) as x eqn:X.
    cbn [neat_after]; rewrite E, Hc, Hsp, IH; subst x; reflexivity.
  - intros H; specialize (IH _ H).
    destruct (rstrip w) as [|d r].
    + cbn [neat_after]; rewrite E; reflexivity.
    + remember (String d r) as x eqn:X.
      cbn [neat_after]; rewrite E; exact IH.
Qed.

Lemma neat_collapse (u : string) : neat (collapse u) = true.
Proof.
  unfold neat, collapse, strip; rewrite sub_whitespace.
  apply neat_rstrip, (sparse_lstrip _ false), sparse_squeeze.
Qed.

Lemma neat_squeeze (s : string) (sp b : bool) :
  neat_after sp s = true -> (b = true -> sp = true) -> squeeze s b = s.
Proof.
  revert sp b; induction s as [|c s IH]; intros sp b;
    cbn [neat_after squeeze]; [reflexivity|].
  destruct (isspace c) eqn:E.
  - rewrite !andb_true_iff; intros [[[Hc Hsp] _] H] Hb.
    apply Ascii.eqb_eq in Hc; subst c.
    destruct sp; [discriminate|].
    destruct b; [discriminate (Hb eq_refl)|].
    rewrite (IH true true H); reflexivity.
  - intros H _; rewrite (IH false false H); [reflexivity|discriminate].
Qed.

Lemma neat_lstrip (s : string) : neat s = true -> lstrip s = s.
Proof.
  unfold neat; destruct s as [|c s]; cbn [neat_after lstrip];
    [reflexivity|].
  destruct (isspace c); [|reflexivity].
  rewrite !andb_true_iff; intros [[[_ H] _] _]; discriminate.
Qed.

Lemma neat_rstrip_fixed (s : string) (sp : bool) :
  neat_after sp s = true -> rstrip s = s.
Proof.
  revert sp; induction s as [|c s IH]; intros sp; cbn [neat_after rstrip];
    [reflexivity|].
  destruct (isspace c) eqn:E.
  - rewrite !andb_true_iff; intros [[_ Ht] H].
    rewrite (IH _ H); destruct s; [discriminate|reflexivity].
  - intros H; rewrite (IH _ H); destruct s; reflexivity.
Qed.

Lemma neat_strip (s : string) : neat s = true -> strip s = s.
Proof.
  intros H; unfold strip; rewrite (neat_lstrip _ H).
  exact (neat_rstrip_fixed _ _ H).
Qed.

Lemma neat_collapse_fixed (s : string) : neat s = true -> collapse s = s.
Proof.
  intros H; unfold collapse; rewrite sub_whitespace.
  rewrite (neat_squeeze s true false H) by discriminate.
  exact (neat_strip _ H).
Qed.

Lemma collapse_fixed_neat (s : string) : collapse s = s -> neat s = true.
Proof. intros H; rewrite <- H; apply neat_collapse. Qed.

(** *** The first sentence *)

Lemma first_segment_up_to_end (s : string) :
  first_segment s = up_to_end s.
Proof.
  unfold first_segment, split.
  induction s as [|c s IH]; cbn [split_from up_to_end];
    unfold SENTENCE_END; rewrite match_len_plus; [reflexivity|].
  fold (sentence_end c); destruct (sentence_end c); [reflexivity|].
  fold SENTENCE_END.
  destruct (split_from false SENTENCE_END s 0) as [|p ps];
    cbn [push hd] in *; rewrite <- IH; reflexivity.
Qed.

Lemma first_sentence_eq (s : string) :
  first_sentence s
  = if 20 <? String.length (up_to_end s) then up_to_end s ++ "." else s.
Proof.
  rewrite <- first_segment_up_to_end; unfold first_sentence, first_segment.
  destruct (split false SENTENCE_END s) as [|s0 l] eqn:E; cbn [hd];
    [|reflexivity].
  reflexivity.
Qed.

Lemma up_to_end_closed (s : string) :
  up_to_end (up_to_end s ++ ".") = up_to_end s.
Proof.
  induction s as [|c s IH]; cbn [up_to_end]; [reflexivity|].
  destruct (sentence_end c) eqn:E; [reflexivity|].
  cbn [append up_to_end]; rewrite E, IH; reflexivity.
Qed.

Lemma up_to_end_prefix (s : string) :
  exists rest, s = up_to_end s ++ rest.
Proof.
  induction s as [|c s [rest IH]]; cbn [up_to_end];
    [exists EmptyString; reflexivity|].
  destruct (sentence_end c); [exists (String c s); reflexivity|].
  exists rest; cbn [append]; congruence.
Qed.

Lemma neat_up_to_end (s : string) (sp : bool) :
  neat_after sp s = true -> neat_after sp (up_to_end s ++ ".") = true.
Proof.
  revert sp; induction s as [|c s IH]; intros sp;
    cbn [neat_after up_to_end]; [reflexivity|].
  destruct (sentence_end c) eqn:P; [reflexivity|].
  cbn [append neat_after]; destruct (isspace c).
  - intros H; apply andb_true_iff in H as [H1 H].
    apply andb_true_iff in H1 as [H1 _].
    apply andb_true_iff in H1 as [Hc Hsp].
    rewrite Hc, Hsp, (IH _ H).
    destruct (up_to_end s); reflexivity.
  - apply IH.
Qed.

Lemma neat_first_sentence (s : string) :
  neat s = true -> neat (first_sentence s) = true.
Proof.
  intros H; rewrite first_sentence_eq.
  destruct (20 <? String.length (up_to_end s)); [|exact H].
  exact (neat_up_to_end _ _ H).
Qed.

Lemma first_sentence_idem (s : string) :
  first_sentence (first_sentence s) = first_sentence s.
Proof.
  rewrite (first_sentence_eq s).
  destruct (20 <? String.length (up_to_end s)) eqn:L.
  - rewrite first_sentence_eq, up_to_end_closed, L; reflexivity.
  - rewrite first_sentence_eq, L; reflexivity.
Qed.

(** *** The fallback to a line of the original *)

Lemma split_char_neat (s : string) (sp : bool) :
  neat_after sp s = true -> split_char newline s = [s].
Proof.
  revert sp; induction s as [|c s IH]; intros sp;
    cbn [neat_after split_char]; [reflexivity|].
  destruct (isspace c) eqn:E.
  - intros H; apply andb_true_iff in H as [H1 H].
    apply andb_true_iff in H1 as [H1 _].
    apply andb_true_iff in H1 as [Hc _].
    apply Ascii.eqb_eq in Hc; subst c.
    rewrite (IH _ H); reflexivity.
  - intros H; rewrite (IH _ H).
    destruct (Ascii.eqb_spec c newline) as [->|_];
      [discriminate E | reflexivity].
Qed.

Lemma long_lines_neat (s : string) :
  neat s = true ->
  long_lines s
  = if truthy s && (20 <? String.length s) then [s] else [].
Proof.
  intros H; unfold long_lines.
  rewrite (split_char_neat _ _ H); cbn [filter].
  rewrite (neat_strip _ H).
  destruct (truthy s && (20 <? String.length s)); cbn [map];
    [rewrite (neat_strip _ H)|]; reflexivity.
Qed.

(** What [clean_content] does to a neat text without artifacts. *)
Lemma clean_content_neat (s : string) :
  has_artifact s = false -> neat s = true ->
  clean_content s
  = if any_in INSTRUCTION_WORDS (lower (first_sentence s))
       && (truthy s && (20 <? String.length s))
    then s else first_sentence s.
Proof.
  intros A N; unfold clean_content; cbv zeta.
  rewrite (no_artifact_fixed _ A), (neat_collapse_fixed _ N).
  unfold first_line_fallback; rewrite (long_lines_neat _ N).
  destruct (any_in INSTRUCTION_WORDS (lower (first_sentence s)));
    cbn [andb].
  - destruct (truthy s && (20 <? String.length s)).
    + apply neat_strip, N.
    + apply neat_strip, neat_first_sentence, N.
  - apply neat_strip, neat_first_sentence, N.
Qed.

(** What [clean_content] gives when the fallback is not taken. *)
Lemma clean_content_no_fallback (x : string) :
  falls_back x = false -> clean_content x = before_fallback x.
Proof.
  unfold falls_back, clean_content, before_fallback; cbv zeta.
  set (c := first_sentence _); unfold first_line_fallback.
  assert (N : neat c = true)
    by (apply neat_first_sentence, neat_collapse).
  destruct (any_in INSTRUCTION_WORDS (lower c)); cbn [andb].
  - destruct (long_lines x); [|discriminate].
    intros _; apply neat_strip, N.
  - intros _; apply neat_strip, N.
Qed.

End CleanFacts.

(** C5, as amended: when [clean_content] does not fall back to a line of
    the original text on [x], and no removal pattern matches its output,
    cleaning the output again gives the same text. *)
Theorem clean_content_idempotent :
  forall x,
    falls_back x = false ->
    has_artifact (clean_content x) = false ->
    clean_content (clean_content x) = clean_content x.
Proof.
  intros x F A.
  rewrite (CleanFacts.clean_content_no_fallback x F) in *.
  unfold before_fallback in *.
  set (t := collapse (remove_bracketed (remove_patterns x))) in *.
  assert (N : neat (first_sentence t) = true)
    by (apply CleanFacts.neat_first_sentence, CleanFacts.neat_collapse).
  rewrite (CleanFacts.clean_content_neat _ A N).
  rewrite CleanFacts.first_sentence_idem.
  destruct (_ && _); reflexivity.
Qed.

(** The example of the specification, whose output is cleaned again. *)
Lemma clean_content_idempotent_witness :
  clean_content
    (clean_content
       "Sure! No hashtags. I love hiking in the mountains every weekend.")
  = clean_content
      "Sure! No hashtags. I love hiking in the mountains every weekend.".
Proof.
  apply clean_content_idempotent; vm_compute; reflexivity.
Defined.

(** C5 fails as written: the sanitizer falls back to the first long line
    of the input, no pattern and no marker matches that line, and
    cleaning it again puts a full stop behind it. *)
Lemma clean_content_not_idempotent :
  let x := "Hello there my dear friend Bob"
           ++ String newline "please include this" in
  clean_content x = "Hello there my dear friend Bob"
  /\ has_artifact (clean_content x) = false
  /\ Py.any_in INSTRUCTION_WORDS (Py.lower (clean_content x)) = false
  /\ clean_content (clean_content x) = "Hello there my dear friend Bob."
  /\ clean_content (clean_content x) <> clean_content x.
Proof.
  cbv zeta; repeat split; try (vm_compute; reflexivity).
  vm_compute; discriminate.
Qed.

(** ** Cleaning an accepted text again *)

Module MarkerFacts.

Import Py.

Lemma lower_app (a b : string) : lower (a ++ b) = lower a ++ lower b.
Proof.
  induction a as [|c a IH]; cbn [append lower]; [reflexivity|].
  rewrite IH; reflexivity.
Qed.

Lemma prefix_empty (a : string) : prefix EmptyString a = true.
Proof. destruct a; reflexivity. Qed.

Lemma prefix_app (m a b : string) :
  prefix m a = true -> prefix m (a ++ b) = true.
Proof.
  revert a; induction m as [|x m IH]; intros a;
    [intros _; destruct (a ++ b); reflexivity|].
  destruct a as [|y a]; simpl; [discriminate|].
  destruct (ascii_dec x y); [apply IH|discriminate].
Qed.

Lemma contains_app (m a b : string) :
  contains m a = true -> contains m (a ++ b) = true.
Proof.
  induction a as [|y a IH].
  - cbn [contains]; destruct (prefix m EmptyString) eqn:P;
      [|discriminate].
    intros _; destruct m; [|discriminate P].
    destruct b; reflexivity.
  - cbn [contains append]; destruct (prefix m (String y a)) eqn:P.
    + intros _.
      rewrite (prefix_app m (String y a) b P : prefix m (String y (a ++ b)) = true).
      reflexivity.
    + intros H; rewrite (IH H).
      destruct (prefix m (String y (a ++ b))); reflexivity.
Qed.

Lemma contains_char_cons (c x : ascii) (m : string) :
  contains (String c EmptyString) (String x m) = false ->
  c <> x /\ contains (String c EmptyString) m = false.
Proof.
  cbn [contains prefix]; destruct (ascii_dec c x) as [E|E].
  - destruct m; discriminate.
  - intros H; split; [exact E | exact H].
Qed.

(** A marker without [c] that starts in [a ++ c] lies in [a]. *)
Lemma prefix_snoc (m a : string) (c : ascii) :
  m <> EmptyString ->
  contains (String c EmptyString) m = false ->
  prefix m (a ++ String c EmptyString) = true -> prefix m a = true.
Proof.
  revert a; induction m as [|x m IH]; intros a Hm Hc; [congruence|].
  apply contains_char_cons in Hc as [Hx Hc].
  destruct a as [|y a]; cbn [append prefix].
  - destruct (ascii_dec x c); [congruence|discriminate].
  - destruct (ascii_dec x y); [|discriminate].
    destruct m as [|x' m]; [intros _; apply prefix_empty|].
    apply IH; [discriminate | exact Hc].
Qed.

Lemma contains_snoc (m a : string) (c : ascii) :
  m <> EmptyString ->
  contains (String c EmptyString) m = false ->
  contains m (a ++ String c EmptyString) = true -> contains m a = true.
Proof.
  intros Hm Hc; induction a as [|y a IH].
  - cbn [append contains].
    destruct (prefix m (String c EmptyString)) eqn:P.
    + apply (prefix_snoc m EmptyString c Hm Hc) in P.
      destruct m; [congruence|discriminate P].
    + destruct m; [congruence|]; cbn [prefix]; discriminate.
  - cbn [append contains].
    destruct (prefix m (String y (a ++ String c EmptyString))) eqn:P.
    + apply (prefix_snoc m (String y a) c Hm Hc) in P.
      rewrite P; reflexivity.
    + intros H; rewrite (IH H).
      destruct (prefix m (String y a)); reflexivity.
Qed.

(** A marker in the first sentence with its full stop is a marker in
    the text. *)
Lemma marker_in_first_sentence (m s : string) :
  m <> EmptyString ->
  contains "." m = false ->
  contains m (lower s) = false ->
  contains m (lower (up_to_end s ++ ".")) = false.
Proof.
  intros Hm Hc Hs.
  destruct (contains m (lower (up_to_end s ++ "."))) eqn:C;
    [|reflexivity].
  rewrite lower_app in C.
  change (lower ".") with "." in C.
  apply (contains_snoc m _ "."%char Hm Hc) in C.
  destruct (CleanFacts.up_to_end_prefix s) as [rest E].
  rewrite E, lower_app, (contains_app _ _ _ C) in Hs; discriminate.
Qed.

Lemma markers_in_first_sentence (markers : list string) (s : string) :
  forallb (fun m => truthy m && negb (contains "." m)) markers = true ->
  any_in markers (lower s) = false ->
  any_in markers (lower (up_to_end s ++ ".")) = false.
Proof.
  intros Hm; rewrite !PyFacts.any_in_false; intros H m Hin.
  rewrite forallb_forall in Hm; specialize (Hm m Hin).
  apply andb_true_iff in Hm as [T D].
  apply marker_in_first_sentence;
    [apply PyFacts.truthy_true, T
    | apply negb_true_iff, D
    | apply H, Hin].
Qed.

Lemma append_length (a b : string) :
  String.length (a ++ b) = String.length a + String.length b.
Proof. induction a; simpl; auto. Qed.

End MarkerFacts.

(** C6, as amended: an accepted text that no removal pattern matches and
    whose whitespace is already collapsed and stripped stays accepted as
    a comment when it is cleaned again; it stays accepted as a post when,
    besides, its first sentence segment has at most 20 or at least 30
    characters. *)
Theorem acceptance_after_cleaning :
  forall s,
    has_artifact s = false ->
    collapse s = s ->
    (comment_accepted s = true ->
     comment_accepted (clean_content s) = true)
    /\
    (post_accepted s = true ->
     String.length (first_segment s) <= 20
     \/ 30 <= String.length (first_segment s) ->
     post_accepted (clean_content s) = true).
Proof.
  intros s A C.
  pose proof (CleanFacts.collapse_fixed_neat s C) as N.
  rewrite (CleanFacts.clean_content_neat s A N).
  rewrite CleanFacts.first_segment_up_to_end.
  destruct (_ && _); [tauto|].
  rewrite CleanFacts.first_sentence_eq.
  destruct (Nat.ltb_spec 20 (String.length (up_to_end s))) as [L|L];
    [|tauto].
  split.
  - unfold comment_accepted; rewrite !andb_true_iff, !negb_true_iff.
    intros [[_ _] M]; split; [split|].
    + destruct (up_to_end s); reflexivity.
    + apply Nat.ltb_lt; rewrite MarkerFacts.append_length; simpl; lia.
    + apply MarkerFacts.markers_in_first_sentence; [reflexivity | exact M].
  - unfold post_accepted; rewrite !andb_true_iff, !negb_true_iff.
    intros [[_ _] M] [H|H]; [lia|]; split; [split|].
    + destruct (up_to_end s); reflexivity.
    + apply Nat.ltb_lt; rewrite MarkerFacts.append_length; simpl; lia.
    + apply MarkerFacts.markers_in_first_sentence; [reflexivity | exact M].
Qed.

(** An accepted comment and an accepted post that are cut to their first
    sentence and stay accepted. *)
Lemma acceptance_after_cleaning_witness :
  comment_accepted
    (clean_content "Cats are the best, no doubt! I mean it") = true
  /\ post_accepted
       (clean_content
          "I love hiking in the mountains every weekend! Do you") = true.
Proof.
  split.
  - apply (proj1 (acceptance_after_cleaning
                    "Cats are the best, no doubt! I mean it"
                    eq_refl eq_refl)); vm_compute; reflexivity.
  - apply (proj2 (acceptance_after_cleaning
                    "I love hiking in the mountains every weekend! Do you"
                    eq_refl eq_refl)); [vm_compute; reflexivity|].
    right; vm_compute; lia.
Defined.

(** C6 fails as written.  A post of 59 characters without any pattern or
    marker is cut to a first sentence of 27 characters; a comment loses
    "Keep it under"; a comment loses its run of spaces. *)
Lemma acceptance_lost_by_cleaning :
  (let s := "I love the mountains a lot! Every weekend I go hiking there" in
   post_accepted s = true /\ has_artifact s = false /\ collapse s = s
   /\ clean_content s = "I love the mountains a lot."
   /\ post_accepted (clean_content s) = false)
  /\
  (let s := "Keep it under wraps ok" in
   comment_accepted s = true /\ collapse s = s
   /\ clean_content s = "wraps ok"
   /\ comment_accepted (clean_content s) = false)
  /\
  (let s := "Oh" ++ Py.times " " 20 ++ "yes" in
   comment_accepted s = true /\ has_artifact s = false
   /\ clean_content s = "Oh yes"
   /\ comment_accepted (clean_content s) = false).
Proof. vm_compute; repeat split. Qed.

(** * Further properties of the code *)

(** ** Persona storage *)

Module PersonaFacts.

Import Personas.

Lemma save_in_sync (self : PersonaManager) :
  file (save_personas self) = Some (personas (save_personas self)).
Proof. reflexivity. Qed.

Lemma load_in_sync (on_disk : option (list Persona)) :
  file (load_personas on_disk) = Some (personas (load_personas on_disk)).
Proof. destruct on_disk; reflexivity. Qed.

Lemma apply_op_in_sync (self : PersonaManager) (o : op) :
  file self = Some (personas self) ->
  file (apply_op self o) = Some (personas (apply_op self o)).
Proof.
  intros H; destruct o as [n s|i n s|i]; cbn [apply_op].
  - reflexivity.
  - unfold update; destruct (in_range i (personas self));
      [reflexivity | exact H].
  - unfold delete; destruct (in_range i (personas self));
      [reflexivity | exact H].
Qed.

Lemma fold_in_sync (ops : list op) (self : PersonaManager) :
  file self = Some (personas self) ->
  file (fold_left apply_op ops self)
  = Some (personas (fold_left apply_op ops self)).
Proof.
  revert self; induction ops as [|o ops IH]; intros self H; cbn [fold_left];
    [exact H|].
  apply IH, apply_op_in_sync, H.
Qed.

Lemma in_range_spec {A} (index : Z) (l : list A) :
  in_range index l = true <->
  (0 <= index)%Z /\ Z.to_nat index < List.length l.
Proof.
  unfold in_range; rewrite andb_true_iff, Z.leb_le, Z.ltb_lt; lia.
Qed.

Lemma set_item_length {A} (l : list A) (i : nat) (x : A) :
  List.length (set_item l i x) = List.length l.
Proof.
  revert i; induction l as [|y l IH]; intros [|i]; simpl; auto.
Qed.

Lemma set_item_same {A} (l : list A) (i : nat) (x : A) :
  i < List.length l -> nth_error (set_item l i x) i = Some x.
Proof.
  revert i; induction l as [|y l IH]; intros [|i]; simpl; intros H;
    try lia; auto.
  apply IH; lia.
Qed.

Lemma set_item_other {A} (l : list A) (i j : nat) (x : A) :
  i <> j -> nth_error (set_item l i x) j = nth_error l j.
Proof.
  revert i j; induction l as [|y l IH]; intros [|i] [|j]; simpl; intros H;
    try reflexivity; try lia.
  apply IH; lia.
Qed.

Lemma del_item_length {A} (l : list A) (i : nat) :
  i < List.length l -> S (List.length (del_item l i)) = List.length l.
Proof.
  revert i; induction l as [|y l IH]; intros [|i]; simpl; intros H;
    try lia.
  rewrite IH; lia.
Qed.

Lemma del_item_before {A} (l : list A) (i j : nat) :
  j < i -> nth_error (del_item l i) j = nth_error l j.
Proof.
  revert i j; induction l as [|y l IH]; intros [|i] [|j]; simpl; intros H;
    try reflexivity; try lia.
  apply IH; lia.
Qed.

Lemma del_item_after {A} (l : list A) (i j : nat) :
  i <= j -> nth_error (del_item l i) j = nth_error l (S j).
Proof.
  revert i j; induction l as [|y l IH]; intros i j H.
  - destruct i, j; reflexivity.
  - destruct i as [|i]; [reflexivity|].
    destruct j as [|j]; [lia|].
    cbn [del_item nth_error]; apply IH; lia.
Qed.

End PersonaFacts.

(** X1: whatever the disk held at start and whatever is added, updated
    and deleted afterwards, [personas.json] holds the list the manager
    has in memory, so a manager started on that file has the same
    personas. *)
Theorem personas_file_in_sync :
  forall on_disk ops,
    let self := fold_left Personas.apply_op ops
                          (Personas.load_personas on_disk) in
    Personas.file self = Some (Personas.get_all self)
    /\ Personas.load_personas (Personas.file self) = self.
Proof.
  intros on_disk ops self.
  assert (H : Personas.file self = Some (Personas.personas self))
    by (apply PersonaFacts.fold_in_sync, PersonaFacts.load_in_sync).
  split; [exact H|].
  rewrite H; destruct self as [ps f]; cbn in *; rewrite H; reflexivity.
Qed.

(** X2: [update] with an index in range replaces the persona at that
    index and no other, and keeps the length; with a negative index or
    one past the end it changes nothing, in memory and on disk. *)
Theorem personas_update :
  forall self index name style,
    (Personas.in_range index (Personas.personas self) = true ->
     let self' := Personas.update self index name style in
     List.length (Personas.get_all self')
     = List.length (Personas.get_all self)
     /\ nth_error (Personas.get_all self') (Z.to_nat index)
        = Some {| Gen.name := name; Gen.style := style |}
     /\ (forall j, j <> Z.to_nat index ->
                   nth_error (Personas.get_all self') j
                   = nth_error (Personas.get_all self) j))
    /\
    ((index < 0)%Z
     \/ (Z.of_nat (List.length (Personas.personas self)) <= index)%Z ->
     Personas.update self index name style = self).
Proof.
  intros self index name style; split.
  - intros R self'; subst self'; unfold Personas.update; rewrite R.
    apply PersonaFacts.in_range_spec in R as [_ R].
    unfold Personas.get_all; cbn [Personas.personas Personas.save_personas].
    split; [apply PersonaFacts.set_item_length|].
    split; [apply PersonaFacts.set_item_same, R|].
    intros j Hj; apply PersonaFacts.set_item_other; congruence.
  - intros H; unfold Personas.update.
    destruct (Personas.in_range index (Personas.personas self)) eqn:R;
      [|reflexivity].
    apply PersonaFacts.in_range_spec in R; lia.
Qed.

(** The second default persona is renamed; index -1 and index 4 change
    nothing. *)
Lemma personas_update_witness :
  nth_error
    (Personas.get_all
       (Personas.update (Personas.load_personas None) 1 "Sam" "Casual"))
    1
  = Some {| Gen.name := "Sam"; Gen.style := "Casual" |}
  /\ Personas.update (Personas.load_personas None) (-1) "Sam" "Casual"
     = Personas.load_personas None
  /\ Personas.update (Personas.load_personas None) 4 "Sam" "Casual"
     = Personas.load_personas None.
Proof.
  split; [|split].
  - exact (proj1 (proj2 (proj1 (personas_update (Personas.load_personas None)
                                  1%Z "Sam" "Casual") eq_refl))).
  - apply (proj2 (personas_update (Personas.load_personas None)
                    (-1)%Z "Sam" "Casual")); left; lia.
  - apply (proj2 (personas_update (Personas.load_personas None)
                    4%Z "Sam" "Casual")); right; simpl; lia.
Defined.

(** X3: [delete] with an index in range removes the persona at that index:
    the list is one shorter, the personas before it stay, the ones behind
    it move up by one; with a negative index or one past the end it
    changes nothing. *)
Theorem personas_delete :
  forall self index,
    (Personas.in_range index (Personas.personas self) = true ->
     let self' := Personas.delete self index in
     S (List.length (Personas.get_all self'))
     = List.length (Personas.get_all self)
     /\ (forall j, j < Z.to_nat index ->
                   nth_error (Personas.get_all self') j
                   = nth_error (Personas.get_all self) j)
     /\ (forall j, Z.to_nat index <= j ->
                   nth_error (Personas.get_all self') j
                   = nth_error (Personas.get_all self) (S j)))
    /\
    ((index < 0)%Z
     \/ (Z.of_nat (List.length (Personas.personas self)) <= index)%Z ->
     Personas.delete self index = self).
Proof.
  intros self index; split.
  - intros R self'; subst self'; unfold Personas.delete; rewrite R.
    apply PersonaFacts.in_range_spec in R as [_ R].
    unfold Personas.get_all; cbn [Personas.personas Personas.save_personas].
    split; [apply PersonaFacts.del_item_length, R|].
    split; intros j Hj;
      [apply PersonaFacts.del_item_before | apply PersonaFacts.del_item_after];
      exact Hj.
  - intros H; unfold Personas.delete.
    destruct (Personas.in_range index (Personas.personas self)) eqn:R;
      [|reflexivity].
    apply PersonaFacts.in_range_spec in R; lia.
Qed.

(** Deleting the first default persona leaves three; index 7 changes
    nothing. *)
Lemma personas_delete_witness :
  S (List.length
       (Personas.get_all (Personas.delete (Personas.load_personas None) 0)))
  = 4
  /\ Personas.delete (Personas.load_personas None) 7
     = Personas.load_personas None.
Proof.
  split.
  - exact (proj1 (proj1 (personas_delete (Personas.load_personas None) 0%Z)
                        eq_refl)).
  - apply (proj2 (personas_delete (Personas.load_personas None) 7%Z));
      right; simpl; lia.
Defined.

(** ** The tables *)

Module DbFacts.

Import Db DbRead.

Lemma seq_snoc (start len : nat) :
  seq start (S len) = (seq start len ++ [start + len])%list.
Proof.
  revert start; induction len as [|len IH]; intros start.
  - simpl; rewrite Nat.add_0_r; reflexivity.
  - change (seq start (S (S len))) with (start :: seq (S start) (S len)).
    rewrite IH; simpl; do 2 f_equal; f_equal; lia.
Qed.

Lemma ids_in_order_reachable (db : Database) :
  reachable db -> ids_in_order db.
Proof.
  induction 1 as [|db content author is_ai _ [P [LP [C LC]]]
                  |db pid content author _ [P [LP [C LC]]]].
  - repeat split.
  - unfold ids_in_order, add_post;
      cbn [snd posts comments last_post_id last_comment_id].
    rewrite map_app, length_app, P, LP, Nat.add_1_r, seq_snoc.
    cbn [map p_id List.length]; repeat split; assumption.
  - unfold ids_in_order, add_comment;
      cbn [posts comments last_post_id last_comment_id].
    rewrite map_app, length_app, C, LC, Nat.add_1_r, seq_snoc.
    cbn [map c_id List.length]; repeat split; assumption.
Qed.

Lemma comments_of_app (db : Database) (pid : nat) (rows : list CommentRow) :
  filter (fun c => c_post_id c =? pid) (comments db ++ rows)
  = (comments_of db pid ++ filter (fun c => c_post_id c =? pid) rows)%list.
Proof. apply filter_app. Qed.

Lemma get_comments_inr (db : Database) (pid : nat) (rows : list CommentRow) :
  fits_integer pid = true ->
  (get_comments db pid (inr rows) <-> Permutation rows (comments_of db pid)).
Proof.
  intros F; unfold get_comments; rewrite F; split.
  - intros [rows0 [E P]]; inversion E; subst; exact P.
  - intros P; exists rows; split; [reflexivity|exact P].
Qed.

Lemma comments_of_add_comment
      (db : Database) (pid : nat) (content author : string) (pid' : nat) :
  comments_of (add_comment db pid content author) pid'
  = (comments_of db pid'
     ++ if pid =? pid'
        then [ {| c_id := S (last_comment_id db);
                  c_post_id := pid;
                  c_content := Py.slice_to 750 content;
                  c_author := author |} ]
        else [])%list.
Proof.
  unfold comments_of at 1; cbn [add_comment comments].
  rewrite comments_of_app; cbn [filter c_post_id]; reflexivity.
Qed.

Lemma post_views_add_comment
      (db : Database) (pid : nat) (content author : string) :
  post_views (add_comment db pid content author)
  = map (one_more_comment pid) (post_views db).
Proof.
  unfold post_views; rewrite map_map.
  change (posts (add_comment db pid content author)) with (posts db).
  apply map_ext; intros p; unfold one_more_comment;
    cbn [v_id v_content v_author v_is_ai_generated v_comment_count].
  rewrite comments_of_add_comment, length_app, (Nat.eqb_sym pid).
  destruct (p_id p =? pid); reflexivity.
Qed.

Lemma post_views_add_post
      (db : Database) (content author : string) (is_ai : bool) :
  post_views (snd (add_post db content author is_ai))
  = (post_views db
     ++ [ {| v_id := S (last_post_id db);
             v_content := Py.slice_to 750 content;
             v_author := author;
             v_is_ai_generated := is_ai;
             v_comment_count :=
               List.length (comments_of db (S (last_post_id db))) |} ])%list.
Proof.
  unfold post_views; cbn [snd add_post posts]; rewrite map_app.
  reflexivity.
Qed.

End DbFacts.

(** X4: in a database that grew from the empty one by [add_post] and
    [add_comment], the ids of the posts are 1, 2, ... in table order, so
    no two posts share an id, and [add_post] returns an id that no post
    had before: the number of posts plus one. *)
Theorem post_ids_fresh :
  forall db,
    DbRead.reachable db ->
    map Db.p_id (Db.posts db) = seq 1 (List.length (Db.posts db))
    /\ NoDup (map Db.p_id (Db.posts db))
    /\ forall content author is_ai,
        fst (Db.add_post db content author is_ai)
        = S (List.length (Db.posts db))
        /\ ~ In (fst (Db.add_post db content author is_ai))
                (map Db.p_id (Db.posts db)).
Proof.
  intros db R.
  destruct (DbFacts.ids_in_order_reachable db R) as [P [LP _]].
  split; [exact P|]; split; [rewrite P; apply seq_NoDup|].
  intros content author is_ai; cbn [fst Db.add_post]; rewrite LP.
  split; [reflexivity|].
  rewrite P, in_seq; lia.
Qed.

(** After two posts the third gets id 3. *)
Lemma post_ids_fresh_witness :
  fst (Db.add_post
         (snd (Db.add_post (snd (Db.add_post Db.init_db "a" "x" false))
                           "b" "y" true))
         "c" "z" false)
  = 3.
Proof.
  refine (proj1 (proj2 (proj2 (post_ids_fresh _ _)) "c" "z" false)).
  do 2 apply DbRead.reach_post; apply DbRead.reach_init.
Defined.

(** X5: [add_comment] then [get_comments], whatever the order of the
    rows.  For a post id below [2 ** 63] the call stores a row, and the
    comments of the post are the ones it had and the new row, which holds
    the first 750 characters of the content and the author; the comments
    of every other post and the posts themselves are as before, and in
    [get_posts] the count of this post is one more and the other counts
    are unchanged.  For a larger id both calls raise OverflowError and
    nothing is stored. *)
Theorem add_comment_get_comments :
  forall db pid content author,
    let row := {| Db.c_id := S (Db.last_comment_id db);
                  Db.c_post_id := pid;
                  Db.c_content := Py.slice_to 750 content;
                  Db.c_author := author |} in
    (Db.fits_integer pid = true ->
     exists db',
       Db.add_comment_call db pid content author = inr db'
       /\ (forall before rows,
              DbRead.get_comments db pid (inr before) ->
              (DbRead.get_comments db' pid (inr rows)
               <-> Permutation rows (row :: before)))
       /\ (forall pid' r,
              pid' <> pid ->
              (DbRead.get_comments db' pid' r
               <-> DbRead.get_comments db pid' r))
       /\ Db.posts db' = Db.posts db
       /\ (forall before rows,
              DbRead.get_posts db before ->
              (DbRead.get_posts db' rows
               <-> Permutation rows
                               (map (DbRead.one_more_comment pid) before))))
    /\ (Db.fits_integer pid = false ->
        Db.add_comment_call db pid content author = inl OverflowError
        /\ forall r, DbRead.get_comments db pid r <-> r = inl OverflowError).
Proof.
  intros db pid content author row; split; intros F.
  - exists (Db.add_comment db pid content author).
    split; [unfold Db.add_comment_call; rewrite F; reflexivity|].
    split; [|split; [|split]].
    + intros before rows B.
      apply (DbFacts.get_comments_inr _ _ _ F) in B.
      rewrite (DbFacts.get_comments_inr _ _ _ F).
      rewrite DbFacts.comments_of_add_comment, Nat.eqb_refl; fold row.
      split; intros P.
      * rewrite P, <- Permutation_cons_append.
        apply perm_skip, Permutation_sym, B.
      * rewrite P, <- Permutation_cons_append.
        apply perm_skip, B.
    + intros pid' r N; unfold DbRead.get_comments.
      rewrite DbFacts.comments_of_add_comment.
      destruct (Nat.eqb_spec pid pid') as [E|_]; [congruence|].
      rewrite app_nil_r; reflexivity.
    + reflexivity.
    + intros before rows B; unfold DbRead.get_posts in *.
      rewrite DbFacts.post_views_add_comment.
      split; intros P.
      * rewrite P; apply Permutation_map, Permutation_sym, B.
      * rewrite P; apply Permutation_map, B.
  - split; [unfold Db.add_comment_call; rewrite F; reflexivity|].
    intros r; unfold DbRead.get_comments; rewrite F; reflexivity.
Qed.

(** A comment on post 1 is read back under post 1; the comments of post
    [2 ** 63] cannot be read. *)
Lemma add_comment_get_comments_witness :
  (exists db',
      Db.add_comment_call (snd (Db.add_post Db.init_db "a" "x" false))
                          1 "hi" "You"
      = inr db'
      /\ DbRead.get_comments db' 1
           (inr [ {| Db.c_id := 1; Db.c_post_id := 1;
                     Db.c_content := "hi"; Db.c_author := "You" |} ]))
  /\ DbRead.get_comments Db.init_db (Z.to_nat (2 ^ 63)) (inl OverflowError).
Proof.
  split.
  2:{ assert (F : Db.fits_integer (Z.to_nat (2 ^ 63)) = false).
      { unfold Db.fits_integer.
        rewrite Z2Nat.id by (vm_compute; discriminate).
        reflexivity. }
      exact (proj2 (proj2 (proj2 (add_comment_get_comments
                                    Db.init_db (Z.to_nat (2 ^ 63)) "hi" "You")
                                 F)
                          (inl OverflowError))
                   eq_refl). }
  destruct (proj1 (add_comment_get_comments
                     (snd (Db.add_post Db.init_db "a" "x" false))
                     1 "hi" "You") eq_refl)
    as [db' [E [H _]]].
  exists db'; split; [exact E|].
  refine (proj2 (H [] _ _) (Permutation_refl _)).
  exists []; split; [reflexivity|apply perm_nil].
Defined.

(** X6: [add_comment] does not look for the post.  A comment written for
    the id the next post will get (an id below [2 ** 63]) does not show in
    [get_posts], where no post has that id: the possible listings are the
    ones before.  The post created next gets this id and counts the
    comment as its own: [get_posts] then lists, in some order, the rows
    from before and the new post with the comments written for its id,
    this one among them. *)
Theorem comment_before_its_post :
  forall db content author post_content post_author is_ai,
    DbRead.reachable db ->
    let pid := S (Db.last_post_id db) in
    Db.fits_integer pid = true ->
    exists db1,
      Db.add_comment_call db pid content author = inr db1
      /\ (forall rows, DbRead.get_posts db1 rows <-> DbRead.get_posts db rows)
      /\ fst (Db.add_post db1 post_content post_author is_ai) = pid
      /\ forall before rows,
          DbRead.get_posts db before ->
          (DbRead.get_posts
             (snd (Db.add_post db1 post_content post_author is_ai)) rows
           <-> Permutation
                 rows
                 ({| DbRead.v_id := pid;
                     DbRead.v_content := Py.slice_to 750 post_content;
                     DbRead.v_author := post_author;
                     DbRead.v_is_ai_generated := is_ai;
                     DbRead.v_comment_count :=
                       S (List.length (DbRead.comments_of db pid)) |}
                    :: before)).
Proof.
  intros db content author post_content post_author is_ai R pid F.
  destruct (DbFacts.ids_in_order_reachable db R) as [P [LP _]].
  assert (N : forall p, In p (Db.posts db) -> (Db.p_id p =? pid) = false).
  { intros p Hp; apply Nat.eqb_neq; intros E.
    apply (in_map Db.p_id) in Hp; rewrite P, in_seq in Hp.
    subst pid; lia. }
  set (db1 := Db.add_comment db pid content author).
  assert (G : DbRead.post_views db1 = DbRead.post_views db).
  { subst db1; rewrite DbFacts.post_views_add_comment.
    unfold DbRead.post_views; rewrite map_map.
    apply map_ext_in; intros p Hp.
    unfold DbRead.one_more_comment;
      cbn [DbRead.v_id DbRead.v_content DbRead.v_author
           DbRead.v_is_ai_generated DbRead.v_comment_count].
    rewrite (N p Hp), Nat.add_0_r; reflexivity. }
  exists db1; split; [unfold Db.add_comment_call; rewrite F; reflexivity|].
  split; [intros rows; unfold DbRead.get_posts; rewrite G; reflexivity|].
  split; [reflexivity|].
  intros before rows B; unfold DbRead.get_posts in *.
  rewrite DbFacts.post_views_add_post, G.
  change (Db.last_post_id db1) with (Db.last_post_id db); fold pid.
  replace (List.length (DbRead.comments_of db1 pid))
    with (S (List.length (DbRead.comments_of db pid))).
  2:{ subst db1; rewrite DbFacts.comments_of_add_comment, Nat.eqb_refl.
      rewrite length_app, Nat.add_1_r; reflexivity. }
  split; intros Q.
  - rewrite Q, <- Permutation_cons_append.
    apply perm_skip, Permutation_sym, B.
  - rewrite Q, <- Permutation_cons_append.
    apply perm_skip, B.
Qed.

(** On the empty database: a comment for post 1, then the first post. *)
Lemma comment_before_its_post_witness :
  exists db1,
    Db.add_comment_call Db.init_db 1 "first" "You" = inr db1
    /\ DbRead.get_posts
         (snd (Db.add_post db1 "Hello" "Anonymous" false))
         [ {| DbRead.v_id := 1;
              DbRead.v_content := "Hello";
              DbRead.v_author := "Anonymous";
              DbRead.v_is_ai_generated := false;
              DbRead.v_comment_count := 1 |} ].
Proof.
  destruct (comment_before_its_post
              Db.init_db "first" "You" "Hello" "Anonymous" false
              DbRead.reach_init eq_refl)
    as [db1 [E [_ [_ H]]]].
  exists db1; split; [exact E|].
  exact (proj2 (H [] _ (perm_nil _)) (Permutation_refl _)).
Defined.

(** ** Models, devices and locks *)

Module DeviceFacts.

Import Locking.

Lemma length_upd {A} (l : list A) (i : nat) (x : A) :
  List.length (upd l i x) = List.length l.
Proof.
  revert i; induction l as [|y l IH]; intros [|i]; simpl; auto.
Qed.

Lemma nth_error_upd_here {A} (l : list A) (i : nat) (x : A) :
  i < List.length l -> nth_error (upd l i x) i = Some x.
Proof.
  revert i; induction l as [|y l IH]; intros [|i]; simpl; intros H;
    try lia; auto.
  apply IH; lia.
Qed.

Lemma nth_error_upd_cases {A} (l : list A) (i j : nat) (x y : A) :
  nth_error (upd l i x) j = Some y ->
  (i = j /\ y = x) \/ nth_error l j = Some y.
Proof.
  destruct (Nat.eq_dec i j) as [<-|N].
  - intros H; left; split; [reflexivity|].
    assert (L : i < List.length l).
    { rewrite <- (length_upd l i x); apply nth_error_Some; congruence. }
    rewrite (nth_error_upd_here l i x L) in H; congruence.
  - rewrite (LockingFacts.nth_error_upd_other l i j x N); auto.
Qed.

(** The locks are as many as the models, and a thread waits or runs only
    at a model that exists. *)
Lemma bounds_reachable (n_models n_threads : nat) (st : state) :
  reachable n_models n_threads st ->
  List.length (locks st) = n_models
  /\ forall t m, nth_error (threads st) t = Some (Waiting m)
                 \/ nth_error (threads st) t = Some (InModel m) ->
                 m < n_models.
Proof.
  induction 1 as [|st st' _ [L B] S].
  - split; [apply repeat_length|].
    intros t m [H|H]; apply nth_error_In, repeat_spec in H; discriminate.
  - destruct S as [st t m Ht Hm|st t m Ht Hl|st t m Ht|st t m Ht];
      cbn [locks threads]; rewrite ?length_upd; (split; [exact L|]);
      intros t' m' [H|H]; apply nth_error_upd_cases in H;
      destruct H as [[_ E]|H]; try discriminate;
      try (injection E as ->); eauto; try lia.
Qed.

(** A held lock has its holder. *)
Lemma holder_exists (l : list pc) (x : pc) :
  1 <= count_occ pc_eq_dec l x -> exists t, nth_error l t = Some x.
Proof.
  intros H; apply (In_nth_error l x), (count_occ_In pc_eq_dec); lia.
Qed.

(** Two threads inside the blocks of two models. *)
Lemma both_busy (n_models k : nat) (m1 m2 : nat) :
  m1 < n_models -> m2 < n_models -> m1 <> m2 ->
  exists st,
    reachable n_models (S (S k)) st
    /\ threads st = InModel m1 :: InModel m2 :: repeat Idle k.
Proof.
  intros H1 H2 N.
  pose (l0 := repeat false n_models).
  assert (L0 : List.length l0 = n_models) by apply repeat_length.
  pose (s1 := {| locks := l0;
                 threads := Waiting m1 :: Idle :: repeat Idle k |}).
  pose (s2 := {| locks := l0;
                 threads := Waiting m1 :: Waiting m2 :: repeat Idle k |}).
  pose (s3 := {| locks := upd l0 m1 true;
                 threads := InModel m1 :: Waiting m2 :: repeat Idle k |}).
  pose (s4 := {| locks := upd (upd l0 m1 true) m2 true;
                 threads := InModel m1 :: InModel m2 :: repeat Idle k |}).
  assert (R1 : reachable n_models (S (S k)) s1).
  { eapply reach_step; [apply reach_init|].
    apply (step_call (init n_models (S (S k))) 0 m1);
      [reflexivity | cbn [init locks]; fold l0; lia]. }
  assert (R2 : reachable n_models (S (S k)) s2).
  { eapply reach_step; [exact R1|].
    apply (step_call s1 1 m2); [reflexivity | cbn [s1 locks]; lia]. }
  assert (R3 : reachable n_models (S (S k)) s3).
  { eapply reach_step; [exact R2|].
    apply (step_acquire s2 0 m1); [reflexivity|].
    apply LockingFacts.nth_error_repeat_lt; assumption. }
  exists s4; split; [|reflexivity].
  eapply reach_step; [exact R3|].
  apply (step_acquire s3 1 m2); [reflexivity|].
  cbn [s3 locks].
  rewrite LockingFacts.nth_error_upd_other by assumption.
  apply LockingFacts.nth_error_repeat_lt; assumption.
Qed.

End DeviceFacts.

(** X7: loading fails exactly when no GPU is found; when it succeeds there
    are two models, each with a free lock of its own, on two devices with
    two or more GPUs and both on cuda:0 with one GPU. *)
Theorem two_models_loaded :
  forall gpu_count,
    match Devices.init gpu_count with
    | inl _ => gpu_count = 0
    | inr m =>
        1 <= gpu_count
        /\ Devices.n_models m = 2
        /\ Devices.locks m = [false; false]
        /\ Devices.devices m
           = if 2 <=? gpu_count
             then [Devices.Cuda 0; Devices.Cuda 1]
             else [Devices.Cuda 0; Devices.Cuda 0]
    end.
Proof.
  intros [|[|g]]; cbv; repeat split; lia.
Qed.

(** X8: with two or more GPUs at most one generation call runs on a
    device at any time; with one GPU the two models share cuda:0 and have
    a lock each, so two calls can run on that device at once. *)
Theorem calls_per_device :
  forall gpu_count devs,
    Devices.select_devices gpu_count = inr devs ->
    (2 <= gpu_count ->
     forall n_threads st d,
       Locking.reachable 2 n_threads st ->
       Devices.on_device devs d st <= 1)
    /\
    (gpu_count = 1 ->
     forall n_threads,
       2 <= n_threads ->
       exists st,
         Locking.reachable 2 n_threads st
         /\ Devices.on_device devs (Devices.Cuda 0) st = 2).
Proof.
  intros gpu_count devs D; split.
  - intros G n_threads st d R.
    unfold Devices.select_devices in D.
    destruct (Nat.leb_spec 2 gpu_count); [|lia].
    injection D as <-.
    pose proof (LockingFacts.lock_counts_reachable _ _ _ R) as I.
    unfold Devices.on_device; cbn [Devices.on_device_from].
    rewrite (I 0), (I 1).
    destruct d as [[|[|k]]]; cbn [Devices.device_eqb Nat.eqb];
      destruct (nth 0 (Locking.locks st) false);
      destruct (nth 1 (Locking.locks st) false); simpl; lia.
  - intros -> n_threads T.
    injection D as <-.
    destruct n_threads as [|[|k]]; try lia.
    destruct (DeviceFacts.both_busy 2 k 0 1) as [st [R E]]; try lia.
    exists st; split; [exact R|].
    unfold Devices.on_device;
      cbn [Devices.on_device_from Devices.device_eqb Nat.eqb].
    unfold Locking.in_flight.
    rewrite E, !LockingFacts.count_cons, !LockingFacts.count_idle,
      !LockingFacts.same_InModel.
    reflexivity.
Qed.

(** One GPU and two workers: two calls on cuda:0; two GPUs: the start
    state has none. *)
Lemma calls_per_device_witness :
  (exists st,
      Locking.reachable 2 2 st
      /\ Devices.on_device [Devices.Cuda 0; Devices.Cuda 0]
                           (Devices.Cuda 0) st = 2)
  /\ Devices.on_device [Devices.Cuda 0; Devices.Cuda 1] (Devices.Cuda 1)
                       (Locking.init 2 2) <= 1.
Proof.
  split.
  - apply (proj2 (calls_per_device 1 _ eq_refl) eq_refl 2); lia.
  - apply (proj1 (calls_per_device 2 _ eq_refl) (Nat.le_refl 2) 2);
      apply Locking.reach_init.
Defined.

(** X9: no lock is left held without a thread inside its block, and a
    call that waits for a model gets it: when the lock is free it can
    take it, and when it is held the thread inside can leave the block,
    after which the waiting call takes the lock. *)
Theorem waiting_call_gets_the_lock :
  forall n_models n_threads st,
    Locking.reachable n_models n_threads st ->
    (forall m, nth m (Locking.locks st) false = true ->
               exists t, nth_error (Locking.threads st) t
                         = Some (Locking.InModel m))
    /\
    (forall t m,
        nth_error (Locking.threads st) t = Some (Locking.Waiting m) ->
        exists st',
          steps st st'
          /\ nth_error (Locking.threads st') t = Some (Locking.InModel m)).
Proof.
  intros n_models n_threads st R.
  pose proof (LockingFacts.lock_counts_reachable _ _ _ R) as I.
  destruct (DeviceFacts.bounds_reachable _ _ _ R) as [L B].
  assert (Held : forall m, nth m (Locking.locks st) false = true ->
                           exists t, nth_error (Locking.threads st) t
                                     = Some (Locking.InModel m)).
  { intros m H; apply DeviceFacts.holder_exists.
    specialize (I m); unfold Locking.in_flight in I; rewrite I, H.
    apply Nat.le_refl. }
  split; [exact Held|].
  intros t m W.
  assert (Hm : m < List.length (Locking.locks st))
    by (rewrite L; apply (B t m); auto).
  assert (Ht : t < List.length (Locking.threads st))
    by (apply nth_error_Some; congruence).
  destruct (nth m (Locking.locks st) false) eqn:Lk.
  - destruct (Held m Lk) as [t' H'].
    assert (N : t' <> t) by (intros ->; congruence).
    eexists; split.
    + eapply steps_more; [exact (Locking.step_return st t' m H')|].
      eapply steps_more; [|apply steps_none].
      apply (Locking.step_acquire _ t m); cbn [Locking.threads Locking.locks].
      * rewrite LockingFacts.nth_error_upd_other by exact N; exact W.
      * apply DeviceFacts.nth_error_upd_here, Hm.
    + cbn [Locking.threads].
      apply DeviceFacts.nth_error_upd_here.
      rewrite DeviceFacts.length_upd; exact Ht.
  - eexists; split.
    + eapply steps_more; [|apply steps_none].
      apply (Locking.step_acquire st t m W).
      rewrite (nth_error_nth' _ false Hm), Lk; reflexivity.
    + cbn [Locking.threads]; apply DeviceFacts.nth_error_upd_here, Ht.
Qed.

(** A worker that called model 0 while no one holds it. *)
Lemma waiting_call_gets_the_lock_witness :
  exists st',
    steps {| Locking.locks := [false; false];
             Locking.threads := [Locking.Waiting 0; Locking.Idle] |} st'
    /\ nth_error (Locking.threads st') 0 = Some (Locking.InModel 0).
Proof.
  pose (st := {| Locking.locks := [false; false];
                 Locking.threads := [Locking.Waiting 0; Locking.Idle] |}).
  assert (R : Locking.reachable 2 2 st).
  { apply (Locking.reach_step 2 2 (Locking.init 2 2));
      [apply Locking.reach_init|].
    exact (Locking.step_call (Locking.init 2 2) 0 0 eq_refl
                             (Nat.lt_0_succ 1)). }
  exact (proj2 (waiting_call_gets_the_lock 2 2 st R) 0 0 eq_refl).
Defined.

(** ** What the policy returns and what a task writes *)

Module WorkerFacts.

Lemma slice_le (n : nat) (s : string) :
  String.length (Py.slice_to n s) <= n.
Proof. rewrite PyFacts.slice_to_length; lia. Qed.

Lemma post_fallback_length (topic : string) :
  String.length (post_fallback topic) = 35 + String.length topic.
Proof.
  unfold post_fallback; rewrite !MarkerFacts.append_length; simpl; lia.
Qed.

Section Results.

Context {World : Type} (mm : DualModelManager World).

Lemma comment_result (post : string) (persona : Persona) (model_id : nat)
      (w w' : World) (text : string) :
  generate_comment_content mm post persona model_id w = (inr text, w') ->
  text <> EmptyString /\ String.length text <= 750.
Proof.
  rewrite GenFacts.generate_comment_content_eq.
  destruct (generate mm _ 200 _ model_id w) as [[e|raw1] w1];
    [discriminate|].
  destruct (comment_accepted (clean_content raw1)) eqn:A1.
  - intros H.
    assert (E : text = Py.slice_to 750 (clean_content raw1))
      by (unfold MAX_COMMENT_LEN in H; congruence).
    rewrite E; split; [|apply slice_le].
    apply GenFacts.slice_750_nonempty, GenFacts.comment_accepted_truthy, A1.
  - destruct (generate mm _ 200 _ model_id w1) as [[e|raw2] w2];
      [discriminate|].
    destruct (comment_accepted (clean_content raw2)) eqn:A2;
      [|destruct (Py.truthy (clean_content raw2)) eqn:T2]; intros H.
    + assert (E : text = Py.slice_to 750 (clean_content raw2))
        by (unfold MAX_COMMENT_LEN in H; congruence).
      rewrite E; split; [|apply slice_le].
      apply GenFacts.slice_750_nonempty, GenFacts.comment_accepted_truthy, A2.
    + assert (E : text = Py.slice_to 750 (clean_content raw2))
        by (unfold MAX_COMMENT_LEN in H; congruence).
      rewrite E; split;
        [apply GenFacts.slice_750_nonempty, T2 | apply slice_le].
    + assert (E : text = comment_fallback) by congruence.
      rewrite E; split; [discriminate | simpl; lia].
Qed.

Lemma post_result (topic : string) (model_id : nat) (w w' : World)
      (text : string) :
  generate_post_content mm topic model_id w = (inr text, w') ->
  text <> EmptyString
  /\ (String.length text <= 750 \/ text = post_fallback topic).
Proof.
  rewrite GenFacts.generate_post_content_eq.
  destruct (generate mm _ 400 _ model_id w) as [[e|raw1] w1];
    [discriminate|].
  destruct (post_accepted (clean_content raw1)) eqn:A1.
  - intros H.
    assert (E : text = Py.slice_to 750 (clean_content raw1))
      by (unfold MAX_POST_LEN in H; congruence).
    rewrite E; split; [|left; apply slice_le].
    apply GenFacts.slice_750_nonempty, GenFacts.post_accepted_truthy, A1.
  - destruct (generate mm _ 400 _ model_id w1) as [[e|raw2] w2];
      [discriminate|].
    destruct (post_accepted (clean_content raw2)) eqn:A2;
      [|destruct (Py.truthy (clean_content raw2)) eqn:T2]; intros H.
    + assert (E : text = Py.slice_to 750 (clean_content raw2))
        by (unfold MAX_POST_LEN in H; congruence).
      rewrite E; split; [|left; apply slice_le].
      apply GenFacts.slice_750_nonempty, GenFacts.post_accepted_truthy, A2.
    + assert (E : text = Py.slice_to 750 (clean_content raw2))
        by (unfold MAX_POST_LEN in H; congruence).
      rewrite E; split;
        [apply GenFacts.slice_750_nonempty, T2 | left; apply slice_le].
    + assert (E : text = post_fallback topic) by congruence.
      rewrite E; split;
        [apply GenFacts.post_fallback_nonempty | right; reflexivity].
Qed.

End Results.

(** Round robin over [seq 0 P]. *)
Lemma round_robin_count (R d P : nat) :
  d < R ->
  List.length (filter (fun i => i mod R =? d) (seq 0 P))
  = P / R + (if d <? P mod R then 1 else 0).
Proof.
  intros Hd; assert (HR : R <> 0) by lia.
  induction P as [|P IH].
  - rewrite Nat.Div0.div_0_l, Nat.Div0.mod_0_l; reflexivity.
  - rewrite DbFacts.seq_snoc, filter_app, length_app, IH.
    cbn [filter Nat.add].
    pose proof (Nat.div_mod_eq P R) as E.
    pose proof (Nat.mod_upper_bound P R HR) as B.
    destruct (Nat.eq_dec (S (P mod R)) R) as [Z|Z].
    + assert (Q : S P / R = S (P / R))
        by (symmetry; apply (Nat.div_unique _ _ _ 0); lia).
      assert (M : S P mod R = 0)
        by (symmetry; apply (Nat.mod_unique _ _ (S (P / R))); lia).
      rewrite Q, M.
      destruct (Nat.eqb_spec (P mod R) d), (Nat.ltb_spec d (P mod R)),
        (Nat.ltb_spec d 0); simpl; lia.
    + assert (Q : S P / R = P / R)
        by (symmetry; apply (Nat.div_unique _ _ _ (S (P mod R))); lia).
      assert (M : S P mod R = S (P mod R))
        by (symmetry; apply (Nat.mod_unique _ _ (P / R)); lia).
      rewrite Q, M.
      destruct (Nat.eqb_spec (P mod R) d), (Nat.ltb_spec d (P mod R)),
        (Nat.ltb_spec d (S (P mod R))); simpl; lia.
Qed.

Lemma enumerate_fst {A} (l : list A) (k : nat) :
  map fst (combine (seq k (List.length l)) l) = seq k (List.length l).
Proof.
  revert k; induction l as [|x l IH]; intros k; simpl; [reflexivity|].
  rewrite IH; reflexivity.
Qed.

Lemma filter_map {A B} (f : A -> B) (p : B -> bool) (l : list A) :
  List.length (filter p (map f l))
  = List.length (filter (fun x => p (f x)) l).
Proof.
  induction l as [|x l IH]; simpl; [reflexivity|].
  destruct (p (f x)); simpl; rewrite IH; reflexivity.
Qed.

Lemma scheduled_tasks (self : Dispatch.ParallelCommentGenerator)
      (pid : nat) (content : string) :
  Dispatch.num_models self <> 0 ->
  Dispatch.scheduled
    self (snd (Dispatch.submit_post_comments self pid content))
  = map (Dispatch.task_of (Dispatch.num_models self) pid content)
        (Dispatch.enumerate (Dispatch.personas self)).
Proof.
  intros HR; unfold Dispatch.submit_post_comments.
  rewrite DispatchFacts.submit_loop_spec by exact HR.
  unfold Dispatch.scheduled; cbn [snd Dispatch.executor Dispatch.work_items].
  apply DispatchFacts.skipn_app_exact.
Qed.

End WorkerFacts.

(** X10: a returned comment is never empty and has at most 750
    characters; a returned post is never empty and has at most 750
    characters unless it is the fallback text, which has 35 characters
    more than the topic. *)
Theorem generated_text_bounds :
  forall World (mm : DualModelManager World),
    (forall post persona model_id w text w',
        generate_comment_content mm post persona model_id w = (inr text, w') ->
        text <> EmptyString /\ String.length text <= 750)
    /\
    (forall topic model_id w text w',
        generate_post_content mm topic model_id w = (inr text, w') ->
        text <> EmptyString
        /\ (String.length text <= 750
            \/ (text = "I've been thinking about " ++ topic ++ " lately..."
                /\ String.length text = 35 + String.length topic))).
Proof.
  intros World mm; split.
  - intros post persona model_id w text w' H.
    exact (WorkerFacts.comment_result mm _ _ _ _ _ _ H).
  - intros topic model_id w text w' H.
    destruct (WorkerFacts.post_result mm _ _ _ _ _ H) as [N [L|F]];
      (split; [exact N|]); [left; exact L|right].
    split; [exact F|].
    rewrite F; apply WorkerFacts.post_fallback_length.
Qed.

(** A comment of 28 characters; a fallback post for the topic "cats". *)
Lemma generated_text_bounds_witness :
  String.length "Cats are the best, no doubt." <= 750
  /\ ("I've been thinking about cats lately..." <> EmptyString).
Proof.
  split.
  - apply (proj1 (generated_text_bounds _ scripted) "I like cats"
                 {| name := "Charlie"; style := "Sarcastic" |} 1
                 ["Cats are the best, no doubt"]
                 "Cats are the best, no doubt." []).
    vm_compute; reflexivity.
  - apply (proj2 (generated_text_bounds _ scripted) "cats" 0
                 [" "; " "] "I've been thinking about cats lately..." []).
    vm_compute; reflexivity.
Defined.

(** X11: the body of a task never raises and never touches the posts.
    When the policy raises, the database is left as it is; otherwise one
    comment row is added, for the post of the task, by the persona of the
    task, holding the generated text whole. *)
Theorem task_writes_one_comment :
  forall World (mm : DualModelManager World) t d w,
    let r := App.generate_single_comment mm t d w in
    Db.posts (fst r) = Db.posts d
    /\ match generate_comment_content mm (Dispatch.post_content t)
                                      (Dispatch.persona t)
                                      (Dispatch.device_id t) w with
       | (inl _, w') => r = (d, w')
       | (inr comment, w') =>
           snd r = w'
           /\ Db.comments (fst r)
              = (Db.comments d
                 ++ [ {| Db.c_id := S (Db.last_comment_id d);
                         Db.c_post_id := Dispatch.post_id t;
                         Db.c_content := comment;
                         Db.c_author := name (Dispatch.persona t) |} ])%list
       end.
Proof.
  intros World mm t d w r; subst r; unfold App.generate_single_comment.
  destruct (generate_comment_content mm _ _ _ w) as [[e|comment] w'] eqn:G.
  - split; reflexivity.
  - split; [reflexivity|]; split; [reflexivity|].
    destruct (WorkerFacts.comment_result mm _ _ _ _ _ _ G) as [_ L].
    cbn [fst Db.add_comment Db.comments].
    unfold MAX_COMMENT_LEN; rewrite (PyFacts.slice_to_all 750 comment L).
    reflexivity.
Qed.

(** X12: with at least one model every scheduled task names a model that
    exists, and the tasks are spread evenly: model [d] gets
    [P / R] of the [P] tasks, and one more when [d < P mod R]. *)
Theorem fan_out_balanced :
  forall self pid content,
    1 <= Dispatch.num_models self ->
    let R := Dispatch.num_models self in
    let P := List.length (Dispatch.personas self) in
    let tasks :=
      Dispatch.scheduled
        self (snd (Dispatch.submit_post_comments self pid content)) in
    Forall (fun t => Dispatch.device_id t < R) tasks
    /\ forall d,
        d < R ->
        List.length (filter (fun t => Dispatch.device_id t =? d) tasks)
        = P / R + (if d <? P mod R then 1 else 0).
Proof.
  intros self pid content HR R P tasks; subst tasks.
  rewrite WorkerFacts.scheduled_tasks by lia; fold R.
  split.
  - apply Forall_forall; intros t Ht.
    apply in_map_iff in Ht as [[i p] [<- _]]; cbn.
    apply Nat.mod_upper_bound; subst R; lia.
  - intros d Hd.
    rewrite WorkerFacts.filter_map.
    rewrite <- (WorkerFacts.round_robin_count R d P Hd).
    subst P; rewrite <- (WorkerFacts.enumerate_fst (Dispatch.personas self) 0).
    rewrite WorkerFacts.filter_map; reflexivity.
Qed.

(** Four personas on two models: two tasks for model 0. *)
Lemma fan_out_balanced_witness :
  List.length
    (filter (fun t => Dispatch.device_id t =? 0)
            (Dispatch.scheduled
               Dispatch.two_gpu_generator
               (snd (Dispatch.submit_post_comments
                       Dispatch.two_gpu_generator 7 "Hello"))))
  = 2.
Proof.
  refine (proj2 (fan_out_balanced Dispatch.two_gpu_generator 7 "Hello" _) 0 _);
    simpl; lia.
Defined.

(** ** The routes *)

Module RouteFacts.

Lemma lstrip_blank (s : string) : blank s = true -> Py.lstrip s = EmptyString.
Proof.
  induction s as [|c s IH]; cbn [blank Py.lstrip]; [reflexivity|].
  destruct (Py.isspace c); [exact IH | discriminate].
Qed.

Lemma rstrip_starts (c : ascii) (s : string) :
  Py.isspace c = false -> Py.truthy (Py.rstrip (String c s)) = true.
Proof.
  intros H; cbn [Py.rstrip]; destruct (Py.rstrip s); [rewrite H|];
    reflexivity.
Qed.

(** [s.strip()] is empty exactly for a blank [s]. *)
Lemma strip_truthy (s : string) : Py.truthy (Py.strip s) = negb (blank s).
Proof.
  unfold Py.strip; induction s as [|c s IH]; cbn [blank Py.lstrip];
    [reflexivity|].
  destruct (Py.isspace c) eqn:E; [exact IH|].
  rewrite (rstrip_starts c s E); reflexivity.
Qed.

Lemma enumerate_snd {A} (l : list A) (k : nat) :
  map snd (combine (seq k (List.length l)) l) = l.
Proof.
  revert k; induction l as [|x l IH]; intros k; simpl; [reflexivity|].
  rewrite IH; reflexivity.
Qed.

Lemma get_strip_field (data : App.json) (key default s : string) :
  field data key default s ->
  App.get_strip data key default = inr (Py.strip s).
Proof.
  unfold field, App.get_strip; intros ->; reflexivity.
Qed.

Lemma get_strip_no_field (data : App.json) (key default : string) :
  no_field data key default ->
  App.get_strip data key default = inl AttributeError.
Proof.
  unfold no_field, field, App.get_strip, App.get_item; intros H.
  destruct data as [| | | | |members]; try reflexivity.
  destruct (App.member members key) as [[| | |s| |]|]; try reflexivity;
    exfalso; eapply H; reflexivity.
Qed.

(** A handler that reads two fields raises when either is missing its
    string. *)
Lemma two_fields_raise (data : App.json) (k1 d1 k2 d2 : string)
      {A} (raised : exn -> A) (go : string -> string -> A) :
  no_field data k1 d1 \/ no_field data k2 d2 ->
  match App.get_strip data k1 d1 with
  | inl e => raised e
  | inr x =>
      match App.get_strip data k2 d2 with
      | inl e => raised e
      | inr y => go x y
      end
  end
  = raised AttributeError.
Proof.
  intros [H|H].
  - rewrite (get_strip_no_field _ _ _ H); reflexivity.
  - rewrite (get_strip_no_field _ _ _ H).
    destruct (App.get_strip data k1 d1) as [e|x] eqn:E; [|reflexivity].
    unfold App.get_strip, App.get_item in E.
    destruct data as [| | | | |members]; try (injection E as <-; reflexivity).
    destruct (App.member members k1) as [[| | |s| |]|];
      cbn [App.strip] in E; try discriminate;
      injection E as <-; reflexivity.
Qed.

Section Fan.

Context {World : Type} (mm : DualModelManager World).

Lemma fan_out_posted (srv : App.Server) (content author : string)
      (is_ai : bool) :
  models mm <> 0 ->
  exists futures,
    App.fan_out mm
      (App.with_db srv (snd (Db.add_post (App.db srv) content author is_ai)))
      (S (Db.last_post_id (App.db srv))) content
    = (inr futures, posted srv content author is_ai (models mm)).
Proof.
  intros HR; unfold App.fan_out, Dispatch.submit_post_comments.
  rewrite DispatchFacts.submit_loop_spec
    by (cbn [App.parallel_generator Dispatch.num_models]; exact HR).
  eexists; reflexivity.
Qed.

Lemma create_post_stores_and_fans_out_aux (data : App.json)
      (srv : App.Server) (c a : string) :
  field data "content" "" c ->
  field data "author" "Anonymous" a ->
  blank c = false ->
  1 <= models mm ->
  let content := Py.strip c in
  let author := Py.strip a in
  let srv' := posted srv content author false (models mm) in
  App.create_post mm data srv
  = (App.Reply (App.SuccessPost (S (Db.last_post_id (App.db srv)))) 200, srv')
  /\ Dispatch.scheduled (App.parallel_generator mm srv)
                        (App.parallel_generator mm srv')
     = map (Dispatch.task_of (models mm) (S (Db.last_post_id (App.db srv)))
                             content)
           (Dispatch.enumerate (Personas.get_all (App.persona_manager srv))).
Proof.
  intros Fc Fa B HR content author srv'; split.
  - destruct (fan_out_posted srv content author false) as [futures E]; [lia|].
    unfold App.create_post.
    rewrite (get_strip_field _ _ _ _ Fc), (get_strip_field _ _ _ _ Fa).
    rewrite strip_truthy, B.
    subst content author srv'.
    cbn [negb Db.add_post snd] in *; rewrite E; reflexivity.
  - unfold Dispatch.scheduled, srv', posted;
      cbn [App.parallel_generator Dispatch.executor App.executor
             Dispatch.work_items].
    apply DispatchFacts.skipn_app_exact.
Qed.

End Fan.

End RouteFacts.

(** X13: a post or a comment whose body is an object with a content that
    is missing, empty or whitespace only, and with an author that is a
    string or missing, is answered with status 400 and changes nothing: no
    post, no comment, no task; so is a search whose query is missing,
    empty or whitespace only, without a call of the model.  When the body
    is no object, or its content or its author is no string, the handler
    raises AttributeError, blank content or not, and changes nothing. *)
Theorem blank_requests_refused :
  forall World (mm : DualModelManager World) data args srv w post_id,
    (forall c a,
        field data "content" "" c -> blank c = true ->
        field data "author" "Anonymous" a ->
        App.create_post mm data srv
        = (App.Reply (App.Error "Empty content") 400, srv))
    /\
    (forall c a,
        field data "content" "" c -> blank c = true ->
        field data "author" "You" a ->
        App.add_comment post_id data srv
        = (App.Reply (App.Error "Empty comment") 400, srv))
    /\
    (blank (App.get args "q" "") = true ->
     App.search_generate mm args srv w
     = (App.Reply (App.Error "Empty query") 400, srv, w))
    /\
    (no_field data "content" "" \/ no_field data "author" "Anonymous" ->
     App.create_post mm data srv = (App.Uncaught AttributeError, srv))
    /\
    (no_field data "content" "" \/ no_field data "author" "You" ->
     App.add_comment post_id data srv = (App.Uncaught AttributeError, srv)).
Proof.
  intros World mm data args srv w post_id.
  split; [|split; [|split; [|split]]].
  - intros c a Fc B Fa; unfold App.create_post.
    rewrite (RouteFacts.get_strip_field _ _ _ _ Fc),
      (RouteFacts.get_strip_field _ _ _ _ Fa).
    rewrite RouteFacts.strip_truthy, B; reflexivity.
  - intros c a Fc B Fa; unfold App.add_comment.
    rewrite (RouteFacts.get_strip_field _ _ _ _ Fc),
      (RouteFacts.get_strip_field _ _ _ _ Fa).
    rewrite RouteFacts.strip_truthy, B; reflexivity.
  - intros B; unfold App.search_generate.
    rewrite RouteFacts.strip_truthy, B; reflexivity.
  - intros H; unfold App.create_post.
    exact (RouteFacts.two_fields_raise
             data "content" "" "author" "Anonymous"
             (fun e => (App.Uncaught e, srv)) _ H).
  - intros H; unfold App.add_comment.
    exact (RouteFacts.two_fields_raise
             data "content" "" "author" "You"
             (fun e => (App.Uncaught e, srv)) _ H).
Qed.

(** A post of three spaces; a search without [q]; a post whose content
    is a number. *)
Lemma blank_requests_refused_witness :
  App.create_post (canned "ok")
                  (App.JObject [("content", App.JString "   ")]) App.fresh
  = (App.Reply (App.Error "Empty content") 400, App.fresh)
  /\ App.search_generate (canned "ok") [] App.fresh 0
     = (App.Reply (App.Error "Empty query") 400, App.fresh, 0)
  /\ App.create_post (canned "ok")
                     (App.JObject [("content", App.JNumber "5")]) App.fresh
     = (App.Uncaught AttributeError, App.fresh).
Proof.
  split; [|split].
  - exact (proj1 (blank_requests_refused
                    _ (canned "ok")
                    (App.JObject [("content", App.JString "   ")])
                    [] App.fresh 0 1)
                 "   " "Anonymous" eq_refl eq_refl eq_refl).
  - exact (proj1 (proj2 (proj2 (blank_requests_refused
                                  _ (canned "ok") App.JNull [] App.fresh 0 1)))
                 eq_refl).
  - apply (proj1 (proj2 (proj2 (proj2
             (blank_requests_refused
                _ (canned "ok") (App.JObject [("content", App.JNumber "5")])
                [] App.fresh 0 1))))).
    left; intros s H; discriminate H.
Defined.

(** X14: a post whose body is an object with a string content that is
    not blank, and with a string author or none, is stored stripped and
    cut to 750 characters, under the stripped author or "Anonymous" when
    none is given, as not AI generated; the answer carries its id; and one
    task per persona is scheduled, each with that id and the stripped
    content uncut. *)
Theorem create_post_stores_and_fans_out :
  forall World (mm : DualModelManager World) data srv c a,
    field data "content" "" c ->
    field data "author" "Anonymous" a ->
    blank c = false ->
    1 <= models mm ->
    let content := Py.strip c in
    let author := Py.strip a in
    let pid := S (Db.last_post_id (App.db srv)) in
    let srv' := posted srv content author false (models mm) in
    App.create_post mm data srv = (App.Reply (App.SuccessPost pid) 200, srv')
    /\ Db.posts (App.db srv')
       = (Db.posts (App.db srv)
          ++ [ {| Db.p_id := pid;
                  Db.p_content := Py.slice_to 750 content;
                  Db.p_author := author;
                  Db.p_is_ai_generated := false |} ])%list
    /\ Db.comments (App.db srv') = Db.comments (App.db srv)
    /\ Forall (fun t => Dispatch.post_id t = pid
                        /\ Dispatch.post_content t = content)
              (Dispatch.scheduled (App.parallel_generator mm srv)
                                  (App.parallel_generator mm srv'))
    /\ map Dispatch.persona
           (Dispatch.scheduled (App.parallel_generator mm srv)
                               (App.parallel_generator mm srv'))
       = Personas.get_all (App.persona_manager srv).
Proof.
  intros World mm data srv c a Fc Fa B HR content author pid srv'.
  assert (S : Dispatch.scheduled (App.parallel_generator mm srv)
                                 (App.parallel_generator mm srv')
              = map (Dispatch.task_of (models mm) pid content)
                    (Dispatch.enumerate
                       (Personas.get_all (App.persona_manager srv)))).
  { unfold Dispatch.scheduled, srv', posted;
      cbn [App.parallel_generator Dispatch.executor App.executor
             Dispatch.work_items].
    apply DispatchFacts.skipn_app_exact. }
  split; [|split; [reflexivity|split; [reflexivity|split]]].
  - destruct (RouteFacts.fan_out_posted mm srv content author false)
      as [futures E]; [lia|].
    unfold App.create_post.
    rewrite (RouteFacts.get_strip_field _ _ _ _ Fc),
      (RouteFacts.get_strip_field _ _ _ _ Fa).
    rewrite RouteFacts.strip_truthy, B.
    subst content author pid srv'.
    cbn [negb Db.add_post snd] in *; rewrite E; reflexivity.
  - rewrite S; apply Forall_forall; intros t Ht.
    apply in_map_iff in Ht as [ip [<- _]]; split; reflexivity.
  - rewrite S, map_map; unfold Dispatch.enumerate.
    erewrite map_ext; [apply RouteFacts.enumerate_snd|].
    intros [i p]; reflexivity.
Qed.

(** The first post on a fresh server: id 1 and four tasks. *)
Lemma create_post_stores_and_fans_out_witness :
  fst (App.create_post (canned "ok")
                       (App.JObject [("content", App.JString " Hello ")])
                       App.fresh)
  = App.Reply (App.SuccessPost 1) 200
  /\ List.length
       (Dispatch.work_items
          (App.executor
             (snd (App.create_post
                     (canned "ok")
                     (App.JObject [("content", App.JString " Hello ")])
                     App.fresh))))
     = 4.
Proof.
  pose proof (proj1 (create_post_stores_and_fans_out
                       _ (canned "ok")
                       (App.JObject [("content", App.JString " Hello ")])
                       App.fresh " Hello " "Anonymous"
                       eq_refl eq_refl eq_refl (Nat.le_succ_diag_r 1))) as H.
  split; rewrite H; reflexivity.
Defined.

(** X15: a search with a query makes two posts, by "AI Bot 1" on model
    [0 mod R] and by "AI Bot 2" on model [1 mod R], each stored as AI
    generated and fanned out to the personas, and answers with their ids
    and texts.  When the policy raises for the first post the answer is
    status 500 and nothing was stored; when it raises for the second, the
    answer is status 500 and the first post stays stored with its tasks
    scheduled. *)
Theorem search_generate_outcomes :
  forall World (mm : DualModelManager World) args srv w,
    blank (App.get args "q" "") = false ->
    1 <= models mm ->
    let query := Py.strip (App.get args "q" "") in
    let R := models mm in
    let pid := S (Db.last_post_id (App.db srv)) in
    (forall e w1,
        generate_post_content mm query (0 mod R) w = (inl e, w1) ->
        App.search_generate mm args srv w
        = (App.Reply (App.ErrorOf e) 500, srv, w1))
    /\
    (forall c1 w1 e w2,
        generate_post_content mm query (0 mod R) w = (inr c1, w1) ->
        generate_post_content mm query (1 mod R) w1 = (inl e, w2) ->
        App.search_generate mm args srv w
        = (App.Reply (App.ErrorOf e) 500,
           posted srv c1 "AI Bot 1" true R, w2))
    /\
    (forall c1 w1 c2 w2,
        generate_post_content mm query (0 mod R) w = (inr c1, w1) ->
        generate_post_content mm query (1 mod R) w1 = (inr c2, w2) ->
        App.search_generate mm args srv w
        = (App.Reply
             (App.SuccessPosts
                [ {| App.ai_id := pid; App.ai_content := c1;
                     App.ai_author := "AI Bot 1" |};
                  {| App.ai_id := S pid; App.ai_content := c2;
                     App.ai_author := "AI Bot 2" |} ]) 200,
           posted (posted srv c1 "AI Bot 1" true R) c2 "AI Bot 2" true R,
           w2)).
Proof.
  intros World mm args srv w B HR query R pid.
  assert (Z : (models mm =? 0) = false) by (apply Nat.eqb_neq; lia).
  assert (U : forall srv0 w0,
             App.search_generate mm args srv0 w0
             = match App.search_loop mm query [0; 1] [] srv0 w0 with
               | (inr ai_posts, srv', w') =>
                   (App.Reply (App.SuccessPosts ai_posts) 200, srv', w')
               | (inl e, srv', w') => (App.Reply (App.ErrorOf e) 500, srv', w')
               end).
  { intros srv0 w0; unfold App.search_generate.
    rewrite RouteFacts.strip_truthy, B; reflexivity. }
  assert (F : forall srv0 c a,
             App.fan_out mm
               (App.with_db srv0 (snd (Db.add_post (App.db srv0) c a true)))
               (S (Db.last_post_id (App.db srv0))) c
             = (inr (seq (List.length
                            (Dispatch.work_items (App.executor srv0)))
                         (List.length
                            (Dispatch.enumerate
                               (Personas.get_all
                                  (App.persona_manager srv0))))),
                posted srv0 c a true R)).
  { intros srv0 c a; unfold App.fan_out, Dispatch.submit_post_comments.
    rewrite DispatchFacts.submit_loop_spec
      by (cbn [App.parallel_generator Dispatch.num_models]; lia).
    reflexivity. }
  split; [|split].
  - intros e w1 G1; rewrite U; cbn [App.search_loop].
    rewrite Z; fold R; rewrite G1; reflexivity.
  - intros c1 w1 e w2 G1 G2; rewrite U; cbn [App.search_loop].
    rewrite Z; fold R; rewrite G1.
    cbn [Db.add_post]; cbn [Db.add_post snd] in F; rewrite F.
    rewrite G2; reflexivity.
  - intros c1 w1 c2 w2 G1 G2; rewrite U; cbn [App.search_loop].
    rewrite Z; fold R; rewrite G1.
    cbn [Db.add_post]; cbn [Db.add_post snd] in F; rewrite F.
    rewrite G2, F; reflexivity.
Qed.

(** A model that answers, and one whose second post fails. *)
Lemma search_generate_outcomes_witness :
  (exists posts srv' w',
      App.search_generate (canned "ok") [("q", "cats")] App.fresh 0
      = (App.Reply (App.SuccessPosts posts) 200, srv', w')
      /\ map App.ai_author posts = ["AI Bot 1"; "AI Bot 2"])
  /\
  (exists e srv' w',
      App.search_generate scripted [("q", "cats")] App.fresh
        ["I love hiking in the mountains every weekend."]
      = (App.Reply (App.ErrorOf e) 500, srv', w')
      /\ List.length (Db.posts (App.db srv')) = 1).
Proof.
  split.
  - eexists; eexists; eexists; split.
    + apply (proj2 (proj2 (search_generate_outcomes
                             _ (canned "ok") [("q", "cats")] App.fresh 0
                             eq_refl (Nat.le_succ_diag_r 1)))
                   "ok" 2 "ok" 4);
        vm_compute; reflexivity.
    + reflexivity.
  - eexists; eexists; eexists; split.
    + apply (proj1 (proj2 (search_generate_outcomes
                             _ scripted [("q", "cats")] App.fresh
                             ["I love hiking in the mountains every weekend."]
                             eq_refl (Nat.le_succ_diag_r 1)))
                   "I love hiking in the mountains every weekend." []
                   (ModelError "no output") []);
        vm_compute; reflexivity.
    + reflexivity.
Defined.

(** X16: the admin routes and an index past the end.  DELETE answers 404
    and changes nothing.  PUT with a name and a style that are strings
    and not blank answers success and changes nothing.  With an index in
    range DELETE makes the list one shorter and such a PUT puts the
    stripped name and style at that index; both write the file.  PUT with
    a name or a style that is blank or missing answers 400, and with a
    body that is no object, or a name or a style that is no string, it
    raises AttributeError; both change nothing, whatever the index. *)
Theorem admin_index_handling :
  forall index data srv,
    let pm := App.persona_manager srv in
    (List.length (Personas.get_all pm) <= index ->
     App.delete_persona index srv
     = (App.Reply (App.Error "Invalid index") 404, srv))
    /\
    (index < List.length (Personas.get_all pm) ->
     let r := App.delete_persona index srv in
     fst r = App.Reply App.Success 200
     /\ S (List.length (Personas.get_all (App.persona_manager (snd r))))
        = List.length (Personas.get_all pm)
     /\ Personas.file (App.persona_manager (snd r))
        = Some (Personas.get_all (App.persona_manager (snd r))))
    /\
    (forall n s,
        field data "name" "" n ->
        field data "style" "" s ->
        blank n = false ->
        blank s = false ->
        (List.length (Personas.get_all pm) <= index ->
         App.update_persona index data srv = (App.Reply App.Success 200, srv))
        /\
        (index < List.length (Personas.get_all pm) ->
         let r := App.update_persona index data srv in
         fst r = App.Reply App.Success 200
         /\ nth_error (Personas.get_all (App.persona_manager (snd r))) index
            = Some {| Gen.name := Py.strip n; Gen.style := Py.strip s |}
         /\ Personas.file (App.persona_manager (snd r))
            = Some (Personas.get_all (App.persona_manager (snd r)))))
    /\
    (forall n s,
        field data "name" "" n ->
        field data "style" "" s ->
        blank n = true \/ blank s = true ->
        App.update_persona index data srv
        = (App.Reply (App.Error "Name and style required") 400, srv))
    /\
    (no_field data "name" "" \/ no_field data "style" "" ->
     App.update_persona index data srv = (App.Uncaught AttributeError, srv)).
Proof.
  intros index data srv pm; subst pm.
  set (pm := App.persona_manager srv).
  assert (In_ : index < List.length (Personas.get_all pm) ->
                Personas.in_range (Z.of_nat index) (Personas.personas pm)
                = true).
  { intros H; apply PersonaFacts.in_range_spec.
    unfold Personas.get_all in H; lia. }
  assert (Out : List.length (Personas.get_all pm) <= index ->
                Personas.in_range (Z.of_nat index) (Personas.personas pm)
                = false).
  { intros H; destruct (Personas.in_range _ _) eqn:E; [|reflexivity].
    apply PersonaFacts.in_range_spec in E.
    unfold Personas.get_all in H; lia. }
  split; [|split; [|split; [|split]]].
  - intros H; unfold App.delete_persona.
    destruct (Nat.leb_spec (List.length (Personas.get_all
                                           (App.persona_manager srv))) index);
      [reflexivity | subst pm; lia].
  - intros H r; subst r; unfold App.delete_persona.
    destruct (Nat.leb_spec (List.length (Personas.get_all
                                           (App.persona_manager srv))) index);
      [subst pm; lia|].
    cbn [fst snd App.with_personas App.persona_manager].
    fold pm; unfold Personas.delete; rewrite (In_ H).
    unfold Personas.get_all;
      cbn [Personas.save_personas Personas.personas Personas.file].
    split; [reflexivity|]; split; [|reflexivity].
    rewrite PersonaFacts.del_item_length;
      [reflexivity | unfold Personas.get_all in H; lia].
  - intros n s Fn Fs Bn Bs.
    assert (U : App.update_persona index data srv
                = (App.Reply App.Success 200,
                   App.with_personas
                     srv (Personas.update pm (Z.of_nat index)
                                          (Py.strip n) (Py.strip s)))).
    { unfold App.update_persona.
      rewrite (RouteFacts.get_strip_field _ _ _ _ Fn),
        (RouteFacts.get_strip_field _ _ _ _ Fs).
      rewrite !RouteFacts.strip_truthy, Bn, Bs; reflexivity. }
    split.
    + intros H; rewrite U; unfold Personas.update; rewrite (Out H).
      destruct srv; reflexivity.
    + intros H r; subst r; rewrite U.
      cbn [fst snd App.with_personas App.persona_manager].
      unfold Personas.update; rewrite (In_ H).
      unfold Personas.get_all;
        cbn [Personas.save_personas Personas.personas Personas.file].
      split; [reflexivity|]; split; [|reflexivity].
      rewrite Nat2Z.id; apply PersonaFacts.set_item_same.
      unfold Personas.get_all in H; exact H.
  - intros n s Fn Fs B; unfold App.update_persona.
    rewrite (RouteFacts.get_strip_field _ _ _ _ Fn),
      (RouteFacts.get_strip_field _ _ _ _ Fs).
    rewrite !RouteFacts.strip_truthy.
    destruct B as [B|B]; rewrite B; [reflexivity|].
    cbn [negb]; rewrite orb_true_r; reflexivity.
  - intros H; unfold App.update_persona.
    exact (RouteFacts.two_fields_raise
             data "name" "" "style" ""
             (fun e => (App.Uncaught e, srv)) _ H).
Qed.

(** Index 4 on the four default personas, and index 3; a PUT without a
    style. *)
Lemma admin_index_handling_witness :
  let eve := App.JObject [("name", App.JString "Eve");
                          ("style", App.JString "Brief")] in
  App.delete_persona 4 App.fresh
  = (App.Reply (App.Error "Invalid index") 404, App.fresh)
  /\ App.update_persona 4 eve App.fresh
     = (App.Reply App.Success 200, App.fresh)
  /\ fst (App.delete_persona 3 App.fresh) = App.Reply App.Success 200
  /\ fst (App.update_persona 3 eve App.fresh) = App.Reply App.Success 200
  /\ App.update_persona 3 (App.JObject [("name", App.JString "Eve")])
                        App.fresh
     = (App.Reply (App.Error "Name and style required") 400, App.fresh).
Proof.
  intros eve.
  pose proof (admin_index_handling 4 eve App.fresh) as [D4 [_ [U4 _]]].
  pose proof (admin_index_handling 3 eve App.fresh) as [_ [D3 [U3 _]]].
  pose proof (admin_index_handling
                3 (App.JObject [("name", App.JString "Eve")]) App.fresh)
    as [_ [_ [_ [B3 _]]]].
  split; [apply D4; simpl; lia|].
  split; [apply (proj1 (U4 "Eve" "Brief" eq_refl eq_refl eq_refl eq_refl));
          simpl; lia|].
  split; [apply D3; simpl; lia|].
  split; [apply (proj2 (U3 "Eve" "Brief" eq_refl eq_refl eq_refl eq_refl));
          simpl; lia|].
  apply (B3 "Eve" "" eq_refl eq_refl); right; reflexivity.
Defined.

(** X17: a persona added through the admin route with a name and a
    style that are strings and not blank, both stripped, is the last of
    the list and is written to the file; the next post is fanned out to it
    as well, as the last task, on model [P mod R] for [P] personas before.
    A name or a style that is blank or missing is refused with status
    400; a body that is no object, or a name or a style that is no string,
    makes the handler raise AttributeError; both change nothing. *)
Theorem added_persona_gets_tasks :
  forall World (mm : DualModelManager World) pdata data srv,
    let old := Personas.get_all (App.persona_manager srv) in
    (forall n s,
        field pdata "name" "" n ->
        field pdata "style" "" s ->
        blank n = true \/ blank s = true ->
        App.add_persona pdata srv
        = (App.Reply (App.Error "Name and style required") 400, srv))
    /\
    (no_field pdata "name" "" \/ no_field pdata "style" "" ->
     App.add_persona pdata srv = (App.Uncaught AttributeError, srv))
    /\
    (forall n s,
        field pdata "name" "" n ->
        field pdata "style" "" s ->
        blank n = false ->
        blank s = false ->
        let name := Py.strip n in
        let style := Py.strip s in
        let srv1 := snd (App.add_persona pdata srv) in
        fst (App.add_persona pdata srv) = App.Reply App.Success 200
        /\ Personas.get_all (App.persona_manager srv1)
           = (old ++ [ {| Gen.name := name; Gen.style := style |} ])%list
        /\ Personas.file (App.persona_manager srv1)
           = Some (Personas.get_all (App.persona_manager srv1))
        /\ (forall c a,
               field data "content" "" c ->
               field data "author" "Anonymous" a ->
               blank c = false ->
               1 <= models mm ->
               let srv2 := snd (App.create_post mm data srv1) in
               let tasks :=
                 Dispatch.scheduled (App.parallel_generator mm srv1)
                                    (App.parallel_generator mm srv2) in
               List.length tasks = S (List.length old)
               /\ nth_error tasks (List.length old)
                  = Some {| Dispatch.post_id :=
                              S (Db.last_post_id (App.db srv));
                            Dispatch.post_content := Py.strip c;
                            Dispatch.persona :=
                              {| Gen.name := name; Gen.style := style |};
                            Dispatch.device_id :=
                              List.length old mod models mm |})).
Proof.
  intros World mm pdata data srv old; split; [|split].
  - intros n s Fn Fs H; unfold App.add_persona.
    rewrite (RouteFacts.get_strip_field _ _ _ _ Fn),
      (RouteFacts.get_strip_field _ _ _ _ Fs).
    rewrite !RouteFacts.strip_truthy.
    destruct H as [B|B]; rewrite B; [reflexivity|].
    cbn [negb]; rewrite orb_true_r; reflexivity.
  - intros H; unfold App.add_persona.
    exact (RouteFacts.two_fields_raise
             pdata "name" "" "style" ""
             (fun e => (App.Uncaught e, srv)) _ H).
  - intros n s Fn Fs Bn Bs name style srv1.
    assert (U : App.add_persona pdata srv
                = (App.Reply App.Success 200,
                   App.with_personas
                     srv (Personas.add (App.persona_manager srv) name style))).
    { unfold App.add_persona.
      rewrite (RouteFacts.get_strip_field _ _ _ _ Fn),
        (RouteFacts.get_strip_field _ _ _ _ Fs).
      rewrite !RouteFacts.strip_truthy, Bn, Bs; reflexivity. }
    subst srv1; rewrite U; cbn [fst snd].
    split; [reflexivity|]; split; [reflexivity|]; split; [reflexivity|].
    intros c a Fc Fa Bc HR; cbv zeta.
    set (srv1 := App.with_personas srv _) in *.
    pose proof (RouteFacts.create_post_stores_and_fans_out_aux
                  mm data srv1 c a Fc Fa Bc HR) as [E S].
    rewrite E; cbn [snd]; rewrite S.
    rewrite length_map, DispatchFacts.enumerate_length.
    change (Personas.get_all (App.persona_manager srv1))
      with (old ++ [ {| Gen.name := name; Gen.style := style |} ])%list.
    rewrite length_app, Nat.add_1_r; split; [reflexivity|].
    rewrite nth_error_map; unfold Dispatch.enumerate.
    rewrite (DispatchFacts.enumerate_nth _ 0 (List.length old)
               {| Gen.name := name; Gen.style := style |})
      by (rewrite nth_error_app2, Nat.sub_diag by lia; reflexivity).
    reflexivity.
Qed.

(** Eve is added to the four default personas; the next post has five
    tasks. *)
Lemma added_persona_gets_tasks_witness :
  let eve := App.JObject [("name", App.JString "Eve");
                          ("style", App.JString "Brief")] in
  let hi := App.JObject [("content", App.JString "Hi")] in
  let srv1 := snd (App.add_persona eve App.fresh) in
  List.length
    (Dispatch.scheduled
       (App.parallel_generator (canned "ok") srv1)
       (App.parallel_generator
          (canned "ok") (snd (App.create_post (canned "ok") hi srv1))))
  = 5.
Proof.
  intros eve hi.
  exact (proj1 (proj2 (proj2 (proj2
          (proj2 (proj2 (added_persona_gets_tasks
                           _ (canned "ok") eve hi App.fresh))
                 "Eve" "Brief" eq_refl eq_refl eq_refl eq_refl)))
          "Hi" "Anonymous" eq_refl eq_refl eq_refl
          (Nat.le_succ_diag_r 1))).
Defined.

(** ** More on the sanitizer *)

Module StripFacts.

Import Py.

Lemma contains_char_step (n c : ascii) (s : string) :
  contains (String n EmptyString) (String c s)
  = if Ascii.eqb n c then true else contains (String n EmptyString) s.
Proof.
  cbn [contains prefix].
  destruct (ascii_dec n c) as [E|E].
  - rewrite (proj2 (Ascii.eqb_eq n c) E), MarkerFacts.prefix_empty.
    reflexivity.
  - rewrite (proj2 (Ascii.eqb_neq n c) E); reflexivity.
Qed.

Lemma rstrip_idem (s : string) : rstrip (rstrip s) = rstrip s.
Proof.
  induction s as [|c s IH]; cbn [rstrip]; [reflexivity|].
  destruct (rstrip s) as [|d r] eqn:E.
  - destruct (isspace c) eqn:W; cbn [rstrip]; [|rewrite W]; reflexivity.
  - remember (String d r) as x; cbn [rstrip]; rewrite IH; subst x;
      reflexivity.
Qed.

Lemma lstrip_fixed_head (c : ascii) (s : string) :
  lstrip (String c s) = String c s -> isspace c = false.
Proof.
  cbn [lstrip]; destruct (isspace c); [|reflexivity].
  intros H; pose proof (CleanFacts.lstrip_length s) as L.
  rewrite H in L; simpl in L; lia.
Qed.

Lemma lstrip_idem (s : string) : lstrip (lstrip s) = lstrip s.
Proof.
  induction s as [|c s IH]; cbn [lstrip]; [reflexivity|].
  destruct (isspace c) eqn:W; [exact IH|].
  cbn [lstrip]; rewrite W; reflexivity.
Qed.

Lemma lstrip_rstrip (s : string) :
  lstrip s = s -> lstrip (rstrip s) = rstrip s.
Proof.
  destruct s as [|c s]; [reflexivity|].
  intros H; apply lstrip_fixed_head in H.
  cbn [rstrip]; destruct (rstrip s); [rewrite H|];
    cbn [lstrip]; rewrite H; reflexivity.
Qed.

Lemma strip_idem (s : string) : strip (strip s) = strip s.
Proof.
  unfold strip.
  rewrite (lstrip_rstrip (lstrip s) (lstrip_idem s)).
  apply rstrip_idem.
Qed.

Lemma lacks_lstrip (n : ascii) (s : string) : lacks n s -> lacks n (lstrip s).
Proof.
  unfold lacks; induction s as [|c s IH]; cbn [lstrip]; [auto|].
  destruct (isspace c); [|auto].
  rewrite contains_char_step; destruct (Ascii.eqb n c); [discriminate|].
  exact IH.
Qed.

Lemma lacks_rstrip (n : ascii) (s : string) : lacks n s -> lacks n (rstrip s).
Proof.
  unfold lacks; induction s as [|c s IH]; cbn [rstrip]; [auto|].
  rewrite contains_char_step; destruct (Ascii.eqb n c) eqn:E;
    [discriminate|].
  intros H; specialize (IH H).
  destruct (rstrip s) as [|d r].
  - destruct (isspace c); [reflexivity|].
    rewrite contains_char_step, E; reflexivity.
  - rewrite contains_char_step, E; exact IH.
Qed.

Lemma lacks_strip (n : ascii) (s : string) : lacks n s -> lacks n (strip s).
Proof. intros H; apply lacks_rstrip, lacks_lstrip, H. Qed.

Lemma lacks_neat (s : string) (sp : bool) :
  neat_after sp s = true -> lacks newline s.
Proof.
  unfold lacks; revert sp; induction s as [|c s IH]; intros sp; [reflexivity|].
  cbn [neat_after]; rewrite contains_char_step.
  destruct (Ascii.eqb_spec newline c) as [<-|N].
  - change (isspace newline) with true; cbn [Ascii.eqb andb].
    change (Ascii.eqb newline " ") with false; discriminate.
  - destruct (isspace c); [|apply IH].
    intros H; apply andb_true_iff in H as [_ H]; exact (IH _ H).
Qed.

Lemma lacks_push (n c : ascii) (pieces : list string) :
  c <> n ->
  Forall (fun l => lacks n l) pieces ->
  Forall (fun l => lacks n l) (push c pieces).
Proof.
  unfold lacks; intros N F; destruct F as [|p ps Hp Hps]; cbn [push];
    constructor; try assumption; try constructor;
    rewrite contains_char_step, (proj2 (Ascii.eqb_neq n c)) by congruence;
    [reflexivity | exact Hp].
Qed.

Lemma lacks_split_char (n : ascii) (s : string) :
  Forall (fun l => lacks n l) (split_char n s).
Proof.
  induction s as [|c s IH]; cbn [split_char].
  - constructor; [reflexivity|constructor].
  - destruct (Ascii.eqb_spec c n) as [E|N].
    + constructor; [reflexivity | exact IH].
    + apply lacks_push; assumption.
Qed.

Lemma lacks_long_lines (x : string) :
  Forall (fun l => lacks newline l) (long_lines x).
Proof.
  unfold long_lines; apply Forall_map.
  pose proof (lacks_split_char newline x) as F.
  induction F as [|l ls Hl _ IH]; cbn [filter]; [constructor|].
  destruct (truthy (strip l) && (20 <? String.length l));
    [constructor; [apply lacks_strip, Hl | exact IH] | exact IH].
Qed.

End StripFacts.

(** X18: the output of [clean_content] never holds a newline and never
    starts or ends with whitespace. *)
Theorem clean_content_one_line :
  forall x,
    Py.contains nl (clean_content x) = false
    /\ Py.strip (clean_content x) = clean_content x.
Proof.
  intros x; unfold clean_content; cbv zeta; split;
    [|apply StripFacts.strip_idem].
  apply StripFacts.lacks_strip.
  set (c := first_sentence _).
  assert (N : neat c = true)
    by (apply CleanFacts.neat_first_sentence, CleanFacts.neat_collapse).
  unfold first_line_fallback.
  destruct (Py.any_in INSTRUCTION_WORDS (Py.lower c));
    [|exact (StripFacts.lacks_neat _ _ N)].
  pose proof (StripFacts.lacks_long_lines x) as F.
  destruct (long_lines x) as [|l ls];
    [exact (StripFacts.lacks_neat _ _ N) | exact (Forall_inv F)].
Qed.

Module BlankFacts.

Import Py.

Lemma isspace_ws_chars (c : ascii) : isspace c = true -> In c ws_chars.
Proof.
  destruct c as [[] [] [] [] [] [] [] []]; intros H; vm_compute in H;
    try discriminate H; vm_compute; tauto.
Qed.

Lemma run_blank (ic : bool) (r : regex) (x : ascii) (s : string)
      (k : string -> option string) :
  leading r = Some x ->
  (forall c, isspace c = true -> atom_matches ic (Chr x) c = false) ->
  blank s = true ->
  run ic r s k = None.
Proof.
  intros L W B; revert k L.
  induction r as [|a|r1 IH1 r2 _|r1 _|a lo hi g]; intros k L;
    cbn [leading] in L; try discriminate.
  - destruct a; try discriminate; injection L as ->.
    cbn [run]; destruct s as [|c s]; [reflexivity|].
    cbn [blank] in B; apply andb_true_iff in B as [Hc _].
    rewrite (W c Hc); reflexivity.
  - cbn [run]; apply IH1, L.
Qed.

Lemma starts_on_text_spec (ic : bool) (r : regex) (s : string) :
  starts_on_text ic r = true -> blank s = true -> search ic r s = false.
Proof.
  unfold starts_on_text; destruct (leading r) as [x|] eqn:L; [|discriminate].
  intros F.
  assert (W : forall c, isspace c = true ->
                        atom_matches ic (Chr x) c = false).
  { intros c Hc; rewrite forallb_forall in F.
    apply negb_true_iff, F, isspace_ws_chars, Hc. }
  induction s as [|c s IH]; intros B; cbn [search]; unfold match_len;
    rewrite (run_blank ic r x _ Some L W B); cbn [option_map];
    [reflexivity|].
  cbn [blank] in B; apply andb_true_iff in B as [_ B]; exact (IH B).
Qed.

Lemma existsb_search_blank (ps : list regex) (s : string) :
  forallb (starts_on_text true) ps = true -> blank s = true ->
  existsb (fun p => search true p s) ps = false.
Proof.
  intros F B; induction ps as [|p ps IH]; cbn [existsb]; [reflexivity|].
  cbn [forallb] in F; apply andb_true_iff in F as [Fp F].
  rewrite (starts_on_text_spec true p s Fp B); exact (IH F).
Qed.

Lemma has_artifact_blank (s : string) :
  blank s = true -> has_artifact s = false.
Proof.
  intros B; unfold has_artifact.
  rewrite (existsb_search_blank ARTIFACT_PATTERNS s eq_refl B),
    (starts_on_text_spec false BRACKETED s eq_refl B),
    (starts_on_text_spec true PAREN_INSTRUCTIONS s eq_refl B).
  reflexivity.
Qed.

Lemma blank_squeeze (s : string) (b : bool) :
  blank s = true -> blank (squeeze s b) = true.
Proof.
  revert b; induction s as [|c s IH]; intros b; cbn [blank squeeze];
    [reflexivity|].
  intros H; apply andb_true_iff in H as [Hc H]; rewrite Hc.
  destruct b; [apply IH, H|].
  cbn [blank]; rewrite (IH true H); reflexivity.
Qed.

Lemma strip_blank (s : string) :
  blank s = true -> strip s = EmptyString.
Proof.
  intros B; pose proof (RouteFacts.strip_truthy s) as T.
  rewrite B in T; destruct (strip s); [reflexivity|discriminate].
Qed.

Lemma clean_content_blank (raw : string) :
  blank raw = true -> clean_content raw = EmptyString.
Proof.
  intros B; unfold clean_content; cbv zeta.
  rewrite (CleanFacts.no_artifact_fixed raw (has_artifact_blank raw B)).
  unfold collapse; rewrite CleanFacts.sub_whitespace.
  rewrite (strip_blank _ (blank_squeeze raw false B)).
  reflexivity.
Qed.

End BlankFacts.

(** X19: an output of the model that is empty or whitespace only is
    cleaned to the empty text; when both attempts give such an output the
    post is "I've been thinking about {topic} lately..." and the comment
    is "Interesting post!". *)
Theorem blank_output_falls_back :
  (forall raw, blank raw = true -> clean_content raw = EmptyString)
  /\
  (forall World (mm : DualModelManager World) topic model_id w raw1 w1
          raw2 w2,
      generate mm (post_prompt topic) 400 (85 # 100) model_id w
      = (inr raw1, w1) ->
      generate mm (post_prompt topic) 400 (85 # 100) model_id w1
      = (inr raw2, w2) ->
      blank raw1 = true -> blank raw2 = true ->
      generate_post_content mm topic model_id w
      = (inr ("I've been thinking about " ++ topic ++ " lately..."), w2))
  /\
  (forall World (mm : DualModelManager World) post persona model_id w
          raw1 w1 raw2 w2,
      generate mm (comment_prompt post persona) 200 (9 # 10) model_id w
      = (inr raw1, w1) ->
      generate mm (comment_prompt post persona) 200 (9 # 10) model_id w1
      = (inr raw2, w2) ->
      blank raw1 = true -> blank raw2 = true ->
      generate_comment_content mm post persona model_id w
      = (inr "Interesting post!", w2)).
Proof.
  split; [exact BlankFacts.clean_content_blank|]; split.
  - intros World mm topic model_id w raw1 w1 raw2 w2 G1 G2 B1 B2.
    rewrite GenFacts.generate_post_content_eq, G1, G2.
    rewrite (BlankFacts.clean_content_blank raw1 B1),
      (BlankFacts.clean_content_blank raw2 B2).
    reflexivity.
  - intros World mm post persona model_id w raw1 w1 raw2 w2 G1 G2 B1 B2.
    rewrite GenFacts.generate_comment_content_eq, G1, G2.
    rewrite (BlankFacts.clean_content_blank raw1 B1),
      (BlankFacts.clean_content_blank raw2 B2).
    reflexivity.
Qed.

(** Tabs and newlines only, twice. *)
Lemma blank_output_falls_back_witness :
  generate_comment_content
    scripted "I like cats" {| name := "Charlie"; style := "Sarcastic" |} 1
    [String (ascii_of_nat 9) nl; nl ++ nl]
  = (inr "Interesting post!", []).
Proof.
  apply (proj2 (proj2 blank_output_falls_back) _ scripted "I like cats"
               {| name := "Charlie"; style := "Sarcastic" |} 1
               [String (ascii_of_nat 9) nl; nl ++ nl]
               (String (ascii_of_nat 9) nl) [nl ++ nl] (nl ++ nl) []);
    reflexivity.
Defined.

Module LengthFacts.

Import Py.

Lemma sub_from_length (ic : bool) (r : regex) (s : string) (skip : nat) :
  String.length (sub_from ic r EmptyString s skip) <= String.length s.
Proof.
  revert skip; induction s as [|c s IH]; intros skip.
  - destruct skip; cbn [sub_from]; [|simpl; lia].
    destruct (match_len ic r EmptyString) as [[|n]|]; simpl; lia.
  - destruct skip as [|k]; cbn [sub_from].
    + destruct (match_len ic r (String c s)) as [[|n]|]; cbn [append];
        cbn [String.length]; [specialize (IH 0) | specialize (IH n)
                             | specialize (IH 0)]; lia.
    + specialize (IH k); cbn [String.length]; lia.
Qed.

Lemma remove_patterns_length (ps : list regex) (s : string) :
  String.length (fold_left (fun t p => sub true p EmptyString t) ps s)
  <= String.length s.
Proof.
  revert s; induction ps as [|p ps IH]; intros s; cbn [fold_left]; [lia|].
  etransitivity; [apply IH | apply sub_from_length].
Qed.

Lemma squeeze_length (s : string) (b : bool) :
  String.length (squeeze s b) <= String.length s.
Proof.
  revert b; induction s as [|c s IH]; intros b; cbn [squeeze]; [lia|].
  destruct (isspace c); [destruct b|]; cbn [String.length];
    [specialize (IH true) | specialize (IH true) | specialize (IH false)];
    lia.
Qed.

Lemma rstrip_length (s : string) :
  String.length (rstrip s) <= String.length s.
Proof.
  induction s as [|c s IH]; cbn [rstrip]; [lia|].
  destruct (rstrip s); [destruct (isspace c)|]; cbn [String.length] in *; lia.
Qed.

Lemma strip_length (s : string) :
  String.length (strip s) <= String.length s.
Proof.
  unfold strip; etransitivity;
    [apply rstrip_length | apply CleanFacts.lstrip_length].
Qed.

Lemma up_to_end_length (s : string) :
  String.length (up_to_end s) <= String.length s.
Proof.
  induction s as [|c s IH]; cbn [up_to_end]; [lia|].
  destruct (sentence_end c); cbn [String.length]; lia.
Qed.

Lemma first_sentence_length (s : string) :
  String.length (first_sentence s) <= S (String.length s).
Proof.
  rewrite CleanFacts.first_sentence_eq.
  destruct (20 <? String.length (up_to_end s)); [|lia].
  rewrite MarkerFacts.append_length; pose proof (up_to_end_length s).
  simpl; lia.
Qed.

Lemma push_length (c : ascii) (n : nat) (pieces : list string) :
  Forall (fun l => String.length l <= n) pieces ->
  Forall (fun l => String.length l <= S n) (push c pieces).
Proof.
  intros F; destruct F as [|p ps Hp Hps]; cbn [push].
  - constructor; [simpl; lia | constructor].
  - constructor; [simpl; lia|].
    eapply Forall_impl; [|exact Hps]; cbv beta; intros; lia.
Qed.

Lemma split_char_length (n : ascii) (s : string) :
  Forall (fun l => String.length l <= String.length s) (split_char n s).
Proof.
  induction s as [|c s IH]; cbn [split_char].
  - constructor; [simpl; lia | constructor].
  - destruct (Ascii.eqb c n).
    + constructor; [simpl; lia|].
      eapply Forall_impl; [|exact IH]; cbv beta; intros; simpl; lia.
    + apply push_length, IH.
Qed.

Lemma long_lines_length (x : string) :
  Forall (fun l => String.length l <= String.length x) (long_lines x).
Proof.
  unfold long_lines; apply Forall_map.
  pose proof (split_char_length newline x) as F.
  induction F as [|l ls Hl _ IH]; cbn [filter]; [constructor|].
  destruct (truthy (strip l) && (20 <? String.length l)); [|exact IH].
  constructor; [|exact IH].
  pose proof (strip_length l); lia.
Qed.

Lemma slice_prefix (n : nat) (s : string) :
  exists rest, s = Py.slice_to n s ++ rest.
Proof.
  revert s; induction n as [|n IH]; intros s.
  - exists s; destruct s; reflexivity.
  - destruct s as [|c s]; [exists EmptyString; reflexivity|].
    destruct (IH s) as [rest E]; exists rest; cbn [slice_to append].
    congruence.
Qed.

(** Cutting a text brings no marker into it. *)
Lemma markers_slice (markers : list string) (n : nat) (s : string) :
  any_in markers (lower s) = false ->
  any_in markers (lower (slice_to n s)) = false.
Proof.
  rewrite !PyFacts.any_in_false; intros H m Hin.
  destruct (contains m (lower (slice_to n s))) eqn:C; [|reflexivity].
  destruct (slice_prefix n s) as [rest E].
  specialize (H m Hin).
  rewrite E, MarkerFacts.lower_app, (MarkerFacts.contains_app _ _ _ C) in H.
  discriminate.
Qed.

End LengthFacts.

(** X20: cleaning never makes a text longer by more than one character,
    the full stop set behind the first sentence. *)
Theorem clean_content_length :
  forall x, String.length (clean_content x) <= S (String.length x).
Proof.
  intros x; unfold clean_content; cbv zeta.
  etransitivity; [apply LengthFacts.strip_length|].
  unfold first_line_fallback.
  assert (C : String.length
                (first_sentence
                   (collapse (remove_bracketed (remove_patterns x))))
              <= S (String.length x)).
  { etransitivity; [apply LengthFacts.first_sentence_length|].
    apply le_n_S; unfold collapse.
    etransitivity; [apply LengthFacts.strip_length|].
    rewrite CleanFacts.sub_whitespace.
    etransitivity; [apply LengthFacts.squeeze_length|].
    unfold remove_bracketed, sub.
    etransitivity; [apply LengthFacts.sub_from_length|].
    etransitivity; [apply LengthFacts.sub_from_length|].
    apply LengthFacts.remove_patterns_length. }
  destruct (Py.any_in INSTRUCTION_WORDS _); [|exact C].
  pose proof (LengthFacts.long_lines_length x) as F.
  destruct (long_lines x) as [|l ls]; [exact C|].
  apply Forall_inv in F; lia.
Qed.

(** X21: a returned text holds a marker of its kind only when both
    attempts were rejected: the text of an accepted attempt, cut to 750
    characters, holds none. *)
Theorem markers_only_after_two_rejections :
  forall World (mm : DualModelManager World),
    (forall topic model_id w text w',
        generate_post_content mm topic model_id w = (inr text, w') ->
        Py.any_in POST_ARTIFACTS (Py.lower text) = true ->
        exists raw1 w1 raw2,
          generate mm (post_prompt topic) 400 (85 # 100) model_id w
          = (inr raw1, w1)
          /\ post_accepted (clean_content raw1) = false
          /\ generate mm (post_prompt topic) 400 (85 # 100) model_id w1
             = (inr raw2, w')
          /\ post_accepted (clean_content raw2) = false)
    /\
    (forall post persona model_id w text w',
        generate_comment_content mm post persona model_id w
        = (inr text, w') ->
        Py.any_in COMMENT_ARTIFACTS (Py.lower text) = true ->
        exists raw1 w1 raw2,
          generate mm (comment_prompt post persona) 200 (9 # 10) model_id w
          = (inr raw1, w1)
          /\ comment_accepted (clean_content raw1) = false
          /\ generate mm (comment_prompt post persona) 200 (9 # 10)
                      model_id w1
             = (inr raw2, w')
          /\ comment_accepted (clean_content raw2) = false
          /\ text = Py.slice_to 750 (clean_content raw2)).
Proof.
  intros World mm; split.
  - intros topic model_id w text w'.
    rewrite GenFacts.generate_post_content_eq.
    destruct (generate mm _ 400 _ model_id w) as [[e|raw1] w1];
      [discriminate|].
    destruct (post_accepted (clean_content raw1)) eqn:A1.
    + intros H M.
      assert (E : text = Py.slice_to 750 (clean_content raw1))
        by (unfold MAX_POST_LEN in H; congruence).
      unfold post_accepted in A1; apply andb_true_iff in A1 as [_ A1].
      apply negb_true_iff in A1.
      rewrite E, (LengthFacts.markers_slice _ 750 _ A1) in M; discriminate.
    + destruct (generate mm _ 400 _ model_id w1) as [[e|raw2] w2] eqn:G2;
        [discriminate|].
      destruct (post_accepted (clean_content raw2)) eqn:A2.
      * intros H M.
        assert (E : text = Py.slice_to 750 (clean_content raw2))
          by (unfold MAX_POST_LEN in H; congruence).
        unfold post_accepted in A2; apply andb_true_iff in A2 as [_ A2].
        apply negb_true_iff in A2.
        rewrite E, (LengthFacts.markers_slice _ 750 _ A2) in M; discriminate.
      * intros H _; exists raw1, w1, raw2.
        assert (E : w2 = w') by congruence.
        subst w'; repeat split; assumption.
  - intros post persona model_id w text w'.
    rewrite GenFacts.generate_comment_content_eq.
    destruct (generate mm _ 200 _ model_id w) as [[e|raw1] w1];
      [discriminate|].
    destruct (comment_accepted (clean_content raw1)) eqn:A1.
    + intros H M.
      assert (E : text = Py.slice_to 750 (clean_content raw1))
        by (unfold MAX_COMMENT_LEN in H; congruence).
      unfold comment_accepted in A1; apply andb_true_iff in A1 as [_ A1].
      apply negb_true_iff in A1.
      rewrite E, (LengthFacts.markers_slice _ 750 _ A1) in M; discriminate.
    + destruct (generate mm _ 200 _ model_id w1) as [[e|raw2] w2] eqn:G2;
        [discriminate|].
      destruct (comment_accepted (clean_content raw2)) eqn:A2;
        [|destruct (Py.truthy (clean_content raw2)) eqn:T2].
      * intros H M.
        assert (E : text = Py.slice_to 750 (clean_content raw2))
          by (unfold MAX_COMMENT_LEN in H; congruence).
        unfold comment_accepted in A2; apply andb_true_iff in A2 as [_ A2].
        apply negb_true_iff in A2.
        rewrite E, (LengthFacts.markers_slice _ 750 _ A2) in M; discriminate.
      * intros H _; exists raw1, w1, raw2.
        assert (E : w2 = w') by congruence.
        assert (E' : text = Py.slice_to 750 (clean_content raw2))
          by (unfold MAX_COMMENT_LEN in H; congruence).
        subst w'; repeat split; assumption.
      * intros H M.
        assert (E : text = comment_fallback) by congruence.
        rewrite E in M; vm_compute in M; discriminate.
Qed.

(** Two answers with "because": the second is returned, marker and all. *)
Lemma markers_only_after_two_rejections_witness :
  exists raw1 w1 raw2,
    generate scripted
      (comment_prompt "I like cats"
                      {| name := "Charlie"; style := "Sarcastic" |})
      200 (9 # 10) 1
      ["I agree because the data is clear"; "What a lovely house"]
    = (inr raw1, w1)
    /\ comment_accepted (clean_content raw1) = false
    /\ generate scripted
         (comment_prompt "I like cats"
                         {| name := "Charlie"; style := "Sarcastic" |})
         200 (9 # 10) 1 w1
       = (inr raw2, [])
    /\ comment_accepted (clean_content raw2) = false
    /\ "What a lovely house" = Py.slice_to 750 (clean_content raw2).
Proof.
  apply (proj2 (markers_only_after_two_rejections _ scripted) "I like cats"
               {| name := "Charlie"; style := "Sarcastic" |} 1
               ["I agree because the data is clear"; "What a lovely house"]
               "What a lovely house" []);
    vm_compute; reflexivity.
Defined.

(** X22: what [add_post] stores of a generated post is the text the
    policy returned when the topic has at most 715 characters.  For a
    longer topic the fallback text has more than 750 characters and is
    stored cut, while [search_generate] answers with the text uncut. *)
Theorem generated_post_stored_whole :
  forall World (mm : DualModelManager World) topic model_id w text w',
    generate_post_content mm topic model_id w = (inr text, w') ->
    (String.length topic <= 715 ->
     forall db author is_ai,
       Db.posts (snd (Db.add_post db text author is_ai))
       = (Db.posts db
          ++ [ {| Db.p_id := S (Db.last_post_id db);
                  Db.p_content := text;
                  Db.p_author := author;
                  Db.p_is_ai_generated := is_ai |} ])%list)
    /\
    (750 < String.length text ->
     text = "I've been thinking about " ++ topic ++ " lately..."
     /\ forall db author is_ai,
         exists row,
           Db.posts (snd (Db.add_post db text author is_ai))
           = (Db.posts db ++ [row])%list
           /\ String.length (Db.p_content row) = 750
           /\ Db.p_content row <> text).
Proof.
  intros World mm topic model_id w text w' G.
  destruct (WorkerFacts.post_result mm _ _ _ _ _ G) as [_ B].
  pose proof (WorkerFacts.post_fallback_length topic) as FL.
  split.
  - intros T db author is_ai; cbn [snd Db.add_post Db.posts].
    unfold MAX_POST_LEN; rewrite PyFacts.slice_to_all; [reflexivity|].
    destruct B as [L|E]; [|rewrite E]; lia.
  - intros L; destruct B as [B|B]; [lia|]; split; [exact B|].
    intros db author is_ai; eexists; split; [reflexivity|].
    cbn [Db.p_content]; unfold MAX_POST_LEN.
    assert (S750 : String.length (Py.slice_to 750 text) = 750)
      by (rewrite PyFacts.slice_to_length; lia).
    split; [exact S750|].
    intros E; rewrite E in S750; lia.
Qed.

(** A search for "cats" answered with nothing usable: the fallback text
    is stored as it is. *)
Lemma generated_post_stored_whole_witness :
  Db.posts
    (snd (Db.add_post Db.init_db "I've been thinking about cats lately..."
                      "AI Bot 1" true))
  = [ {| Db.p_id := 1;
         Db.p_content := "I've been thinking about cats lately...";
         Db.p_author := "AI Bot 1";
         Db.p_is_ai_generated := true |} ].
Proof.
  apply (proj1 (generated_post_stored_whole
                  _ scripted "cats" 0 [" "; " "]
                  "I've been thinking about cats lately..." [] eq_refl));
    vm_compute; lia.
Defined.
